(** * The single-diode photovoltaic model of [app2.py]

    A shallow embedding of class [PVModel] ([__init__], [validate_inputs],
    [modelo_pv]) together with the parts of Python, NumPy, SciPy and pandas
    the class relies on.

    - Python [float] and NumPy [float64] are IEEE 754 binary64 numbers,
      modelled by [spec_float] with precision 53 and maximal exponent 1024.
    - Python [int] is unbounded and is modelled by [Z].
    - Exceptions are explicit: every fallible operation returns a [result]. *)

From Stdlib Require Import ZArith List Bool Lia String.
From Stdlib Require Import Floats.SpecFloat.
Import ListNotations.
Local Open Scope Z_scope.

(** ** Binary64 arithmetic *)

Definition float : Type := spec_float.

Module F64.

Definition prec : Z := 53.
Definition emax : Z := 1024.

Definition add : float -> float -> float := SFadd prec emax.
Definition sub : float -> float -> float := SFsub prec emax.
Definition mul : float -> float -> float := SFmul prec emax.
Definition div : float -> float -> float := SFdiv prec emax.
Definition ltb : float -> float -> bool := SFltb.
Definition leb : float -> float -> bool := SFleb.
Definition eqb : float -> float -> bool := SFeqb.

Definition is_nan (x : float) : bool :=
  match x with S754_nan => true | _ => false end.

Definition is_inf (x : float) : bool :=
  match x with S754_infinity _ => true | _ => false end.

Definition is_zero (x : float) : bool :=
  match x with S754_zero _ => true | _ => false end.

Definition is_finite (x : float) : bool :=
  match x with S754_zero _ | S754_finite _ _ _ => true | _ => false end.

(** The integer [z] rounded to the nearest binary64 number, ties to even;
    an integer beyond the binary64 range rounds to an infinity. *)
Definition of_Z (z : Z) : float := binary_normalize prec emax z 0 false.

Definition zero : float := S754_zero false.
Definition one : float := S754_finite false 4503599627370496 (-52).
Definition pos_inf : float := S754_infinity false.

(** The correctly rounded quotient of two non-zero integers. *)
Definition div_Z (a b : Z) : float :=
  match a, b with
  | Z0, _ => S754_zero (b <? 0)
  | _, Z0 => S754_nan
  | _, _ =>
      div (S754_finite (a <? 0) (Z.to_pos (Z.abs a)) 0)
          (S754_finite (b <? 0) (Z.to_pos (Z.abs b)) 0)
  end.

End F64.

(** The number of binary digits of a mantissa. *)
Definition digits (m : positive) : Z := Z.pos (digits2_pos m).

(** The normal form of a positive integer below [2 ^ 53]. *)
Definition mantissa_of (z : positive) : positive :=
  Z.to_pos (Z.pos z * 2 ^ (53 - digits z)).

Definition exponent_of (z : positive) : Z := digits z - 53.

(** The integers from 1 to 999 are binary64 numbers: [of_Z] is exact on
    them.  Checked one by one. *)
Definition small_int_ok (i : Z) : bool :=
  match F64.of_Z i with
  | S754_finite false mx ex =>
      (digits mx =? 53) && (-52 <=? ex) && (ex <=? -43) &&
      (Z.pos mx * 2 ^ (ex + 52) =? i * 2 ^ 52)
  | _ => false
  end.

(** The order of the binary64 numbers other than NaN, as a lexicographic
    order on triples: the class (negative infinity, negative, zero, positive,
    positive infinity), then the exponent, then the mantissa. *)
Module Key.

Definition t : Type := Z * Z * Z.

Definition of_float (x : float) : t :=
  match x with
  | S754_nan => (0, 0, 0)
  | S754_zero _ => (0, 0, 0)
  | S754_infinity true => (-2, 0, 0)
  | S754_infinity false => (2, 0, 0)
  | S754_finite true m e => (-1, - e, Z.neg m)
  | S754_finite false m e => (1, e, Z.pos m)
  end.

Definition lt (a b : t) : Prop :=
  let '(a1, a2, a3) := a in
  let '(b1, b2, b3) := b in
  a1 < b1 \/ (a1 = b1 /\ (a2 < b2 \/ (a2 = b2 /\ a3 < b3))).

Definition le (a b : t) : Prop :=
  let '(a1, a2, a3) := a in
  let '(b1, b2, b3) := b in
  a1 < b1 \/ (a1 = b1 /\ (a2 < b2 \/ (a2 = b2 /\ a3 <= b3))).

End Key.

(** ** Python values, exceptions and arithmetic *)

Inductive value : Type :=
| VInt (z : Z)
| VBool (b : bool)
| VFloat (x : float)
| VStr (s : string)
| VNone.

(** A number: what the arithmetic operators work on.  A [bool] is an [int]
    ([True] is 1, [False] is 0). *)
Inductive num : Type :=
| NInt (z : Z)
| NFloat (x : float).

Inductive exn : Type :=
| ValueError (msg : string)
| TypeError
| OverflowError
| ZeroDivisionError
| KeyError.

Inductive result (A : Type) : Type :=
| Ok (a : A)
| Raise (e : exn).

Arguments Ok {A} a.
Arguments Raise {A} e.

Definition bind {A B : Type} (m : result A) (k : A -> result B) : result B :=
  match m with
  | Ok a => k a
  | Raise e => Raise e
  end.

Notation "x <- m ;; k" := (bind m (fun x => k))
  (at level 61, m at next level, right associativity).
Notation "m ;;; k" := (bind m (fun _ => k))
  (at level 61, right associativity).

Module Py.

Definition as_num (v : value) : result num :=
  match v with
  | VInt z => Ok (NInt z)
  | VBool b => Ok (NInt (if b then 1 else 0))
  | VFloat x => Ok (NFloat x)
  | VStr _ | VNone => Raise TypeError
  end.

(** [float(n)]: an [int] too large for a binary64 number raises
    [OverflowError]. *)
Definition to_float (n : num) : result float :=
  match n with
  | NFloat x => Ok x
  | NInt z =>
      let x := F64.of_Z z in
      if F64.is_inf x then Raise OverflowError else Ok x
  end.

Definition lift2 (fz : Z -> Z -> Z) (ff : float -> float -> float)
    (a b : num) : result num :=
  match a, b with
  | NInt x, NInt y => Ok (NInt (fz x y))
  | _, _ =>
      x <- to_float a ;;
      y <- to_float b ;;
      Ok (NFloat (ff x y))
  end.

(** [a * b] and [a - b] *)
Definition mul : num -> num -> result num := lift2 Z.mul F64.mul.
Definition sub : num -> num -> result num := lift2 Z.sub F64.sub.

(** [a / b]: true division always yields a [float]; a zero divisor raises
    [ZeroDivisionError]; the quotient of two [int]s is correctly rounded and
    raises [OverflowError] when it is too large for a [float]. *)
Definition truediv (a b : num) : result float :=
  match a, b with
  | NInt x, NInt y =>
      if y =? 0 then Raise ZeroDivisionError
      else
        let q := F64.div_Z x y in
        if F64.is_inf q then Raise OverflowError else Ok q
  | _, _ =>
      x <- to_float a ;;
      y <- to_float b ;;
      if F64.is_zero y then Raise ZeroDivisionError else Ok (F64.div x y)
  end.

(** [float * number] and the like, where the result is known to be a
    [float]. *)
Definition fmul (x : float) (b : num) : result float :=
  y <- to_float b ;; Ok (F64.mul x y).

(** [x / y] for two [float]s *)
Definition fdiv (x y : float) : result float :=
  if F64.is_zero y then Raise ZeroDivisionError else Ok (F64.div x y).

(** [v <= 0] for a number [v] *)
Definition le_zero (n : num) : bool :=
  match n with
  | NInt z => z <=? 0
  | NFloat x => F64.leb x F64.zero
  end.

(** [isinstance(v, (int, float))] *)
Definition is_int_or_float (v : value) : bool :=
  match v with
  | VInt _ | VBool _ | VFloat _ => true
  | VStr _ | VNone => false
  end.

(** [isinstance(v, int)] *)
Definition is_int (v : value) : bool :=
  match v with
  | VInt _ | VBool _ => true
  | VFloat _ | VStr _ | VNone => false
  end.

(** [v <= 0]; comparing a [str] or [None] with [0] raises [TypeError]. *)
Definition le0 (v : value) : result bool :=
  n <- as_num v ;; Ok (le_zero n).

End Py.

(** ** Literals of the program *)

Module Lit.
(** Each decimal literal denotes the binary64 number nearest to it, given
    here by its mantissa and exponent. *)
Definition f9_35 : float := S754_finite false 5263582064489267 (-49).
Definition f47_4 : float := S754_finite false 6670956948042547 (-47).
Definition f545_82 : float := S754_finite false 4801083493381571 (-43).
Definition f0_037 : float := S754_finite false 5332261958806667 (-57).
Definition f1_60217646e_19 : float :=
  S754_finite false 6655180640061161 (-115).
Definition f1_0 : float := F64.one.
Definition f1_3806503e_23 : float :=
  S754_finite false 4698109519741038 (-128).
Definition f1_1 : float := S754_finite false 4953959590107546 (-52).
Definition f0_39 : float := S754_finite false 7025615418697974 (-54).
End Lit.

(** ** class PVModel *)

Record PVModel : Type := mkPVModel {
  R_sh : float;
  k_i : float;
  T_n : Z;
  q : float;
  n : float;
  K : float;
  E_g0 : float;
  R_s : float;
  num_panels_series : value;
  num_panels_parallel : value;
  I_sc : float;
  V_oc : float;
  N_s : num
}.

(** [PVModel.__init__] *)
Definition __init__ (num_panels_series num_panels_parallel : value)
  : result PVModel :=
  p <- Py.as_num num_panels_parallel ;;
  I_sc <- Py.fmul Lit.f9_35 p ;;
  s <- Py.as_num num_panels_series ;;
  V_oc <- Py.fmul Lit.f47_4 s ;;
  N_s <- Py.mul (NInt 72) s ;;
  Ok {| R_sh := Lit.f545_82;
        k_i := Lit.f0_037;
        T_n := 298;
        q := Lit.f1_60217646e_19;
        n := Lit.f1_0;
        K := Lit.f1_3806503e_23;
        E_g0 := Lit.f1_1;
        R_s := Lit.f0_39;
        num_panels_series := num_panels_series;
        num_panels_parallel := num_panels_parallel;
        I_sc := I_sc;
        V_oc := V_oc;
        N_s := N_s |}.

Module Msg.
Definition irradiancia : string :=
  "La irradiancia (G) debe ser un número positivo.".
Definition temperatura : string :=
  "La temperatura (T) debe ser un número positivo.".
Definition serie : string :=
  "El número de paneles en serie debe ser un entero positivo.".
Definition paralelo : string :=
  "El número de paneles en paralelo debe ser un entero positivo.".
End Msg.

(** [not isinstance(v, types) or v <= 0] *)
Definition not_positive (isinstance : value -> bool) (v : value)
  : result bool :=
  if negb (isinstance v) then Ok true else Py.le0 v.

(** [PVModel.validate_inputs] *)
Definition validate_inputs (self : PVModel) (G T : value) : result unit :=
  bG <- not_positive Py.is_int_or_float G ;;
  if (bG : bool) then Raise (ValueError Msg.irradiancia) else
  bT <- not_positive Py.is_int_or_float T ;;
  if (bT : bool) then Raise (ValueError Msg.temperatura) else
  bS <- not_positive Py.is_int (num_panels_series self) ;;
  if (bS : bool) then Raise (ValueError Msg.serie) else
  bP <- not_positive Py.is_int (num_panels_parallel self) ;;
  if (bP : bool) then Raise (ValueError Msg.paralelo) else
  Ok tt.

(** The value of the test [not isinstance(v, types) or v <= 0]: the
    comparison is only reached for a number. *)
Definition failed_check (isinstance : value -> bool) (v : value) : bool :=
  negb (isinstance v) ||
  match v with
  | VInt z => z <=? 0
  | VBool b => negb b
  | VFloat x => F64.leb x F64.zero
  | VStr _ | VNone => false
  end.

(** ** NumPy *)

Fixpoint map2 {A B C : Type} (g : A -> B -> C) (l1 : list A) (l2 : list B)
  : list C :=
  match l1, l2 with
  | a :: l1', b :: l2' => g a b :: map2 g l1' l2'
  | _, _ => []
  end.

Module Np.

(** [arange(0, num)] as floats *)
Definition arange (num : nat) : list float :=
  map (fun i => F64.of_Z (Z.of_nat i)) (seq 0 num).

(** [y[-1] = stop] *)
Definition set_last (y : list float) (stop : float) : list float :=
  match y with
  | [] => []
  | _ :: _ => removelast y ++ [stop]
  end.

(** [linspace(start, stop, num)] with the default [endpoint=True]:
    [step = (stop - start) / (num - 1)], the samples are
    [arange(0, num) * step + start], and the last one is overwritten by
    [stop]. *)
Definition linspace (start stop : float) (num : nat) : list float :=
  let div := Z.of_nat num - 1 in
  let delta := F64.sub stop start in
  let y := arange num in
  let y :=
    if 0 <? div then
      let step := F64.div delta (F64.of_Z div) in
      if F64.eqb step F64.zero
      then map (fun v => F64.mul (F64.div v (F64.of_Z div)) delta) y
      else map (fun v => F64.mul v step) y
    else map (fun v => F64.mul v delta) y in
  let y := map (fun v => F64.add v start) y in
  if (1 <? num)%nat then set_last y stop else y.

(** [ones_like(a)] *)
Definition ones_like (a : list float) : list float :=
  map (fun _ => F64.one) a.

(** [x * a] for a scalar [x] and an array [a] *)
Definition scale (x : float) (a : list float) : list float :=
  map (F64.mul x) a.

(** [a * b] for two one-dimensional arrays: the shapes must agree. *)
Definition mul (a b : list float) : result (list float) :=
  if (List.length a =? List.length b)%nat then Ok (map2 F64.mul a b)
  else Raise (ValueError "operands could not be broadcast together").

End Np.

(** ** The numeric routines the class takes from its libraries

    [np_exp] is NumPy's [exp] on a binary64 number.  [hybr f x0] is MINPACK's
    [hybrd] as SciPy calls it: it returns the last iterate and a status, 1
    when the iteration converged.  [pandas_3] tells whether pandas is
    version 3.0 or later: the versions differ in what [idxmax] does on a
    column that holds nothing but NaN. *)

Class NumLib : Type := {
  np_exp : float -> float;
  hybr : (list float -> list float) -> list float -> list float * Z;
  pandas_3 : bool
}.

(** What a binary64 exponential does out of range: [e^x] is beyond the
    largest number for [x > 710] and below the smallest for [x < -746]. *)
Definition exp_saturates (L : NumLib) : Prop :=
  (forall x, F64.is_finite x = true -> F64.ltb (F64.of_Z 710) x = true ->
             @np_exp L x = S754_infinity false) /\
  (forall x, F64.is_finite x = true -> F64.ltb x (F64.of_Z (-746)) = true ->
             @np_exp L x = F64.zero).

Module Sp.

(** [scipy.optimize.fsolve(func, x0)] with [full_output=0]: status 1 is
    success; for status 2 to 5 (no convergence) a [RuntimeWarning] is
    issued and the last iterate is returned all the same; any other status
    raises [TypeError]. *)
Definition fsolve `{NumLib} (func : list float -> list float)
    (x0 : list float) : result (list float) :=
  let '(x, status) := hybr func x0 in
  if (1 <=? status) && (status <=? 5) then Ok x else Raise TypeError.

Definition converged `{NumLib} (func : list float -> list float)
    (x0 : list float) : bool :=
  snd (hybr func x0) =? 1.

End Sp.

(** ** pandas *)

Record DataFrame : Type := mkDataFrame {
  Corriente : list float;
  Voltaje : list float;
  Potencia : list float
}.

Module Pd.

(** A NaN is replaced by minus infinity before the entries are compared. *)
Definition fill (x : float) : float :=
  if F64.is_nan x then S754_infinity true else x.

(** One step of the scan for the maximum: the best entry so far is replaced
    only by a strictly greater one. *)
Definition better (best : option (nat * float)) (i : nat) (x : float)
  : option (nat * float) :=
  match best with
  | None => Some (i, x)
  | Some (_, b) => if F64.ltb b x then Some (i, x) else best
  end.

Fixpoint scan (best : option (nat * float)) (i : nat) (l : list float)
  : option (nat * float) :=
  match l with
  | [] => best
  | x :: l' => scan (better best i x) (S i) l'
  end.

(** [numpy.argmax]: the position of the first occurrence of the greatest
    entry. *)
Definition argmax (a : list float) : option nat :=
  option_map fst (scan None 0%nat a).

(** [Series.idxmax()], with [skipna=True]: every NaN is filled with minus
    infinity and the label is the [argmax] of the filled column.  On a
    column that holds nothing but NaN, pandas before 3.0 returns NaN, which
    is no label of the table, and pandas from 3.0 on raises [ValueError];
    on an empty column [argmax] raises [ValueError]. *)
Definition idxmax `{NumLib} (col : list float) : result (option nat) :=
  match col with
  | [] => Raise (ValueError "attempt to get argmax of an empty sequence")
  | _ :: _ =>
      if forallb F64.is_nan col then
        if pandas_3 then Raise (ValueError "Encountered all NA values")
        else Ok None
      else Ok (argmax (map fill col))
  end.

(** [df.loc[label, column]]; a missing label raises [KeyError]. *)
Definition loc (label : option nat) (col : list float) : result float :=
  match label with
  | None => Raise KeyError
  | Some i =>
      match nth_error col i with
      | Some x => Ok x
      | None => Raise KeyError
      end
  end.

End Pd.

(** [x], at position [i] of [l], is the first occurrence of the greatest
    entry of [l]. *)
Definition first_greatest (l : list float) (i : nat) (x : float) : Prop :=
  nth_error l i = Some x /\
  (forall j y, nth_error l j = Some y -> F64.leb y x = true) /\
  (forall j y, (j < i)%nat -> nth_error l j = Some y -> F64.ltb y x = true).

(** [x], at position [i] of [col], is the first occurrence of the maximum of
    [col] in the order of [idxmax], where a NaN counts as minus infinity. *)
Definition first_maximum (col : list float) (i : nat) (x : float) : Prop :=
  nth_error col i = Some x /\
  first_greatest (map Pd.fill col) i (Pd.fill x).

Definition all_nan (col : list float) : Prop :=
  forall j y, nth_error col j = Some y -> F64.is_nan y = true.

(** What the scan of [Pd.argmax] knows after the entries [seen]. *)
Definition scan_inv (seen : list float) (best : option (nat * float)) : Prop :=
  match best with
  | None => seen = []
  | Some (i, x) => first_greatest seen i x
  end.

(** The two arrays [modelo_pv] builds before it calls the root-finder: the
    voltages of line 62 and the starting point of line 72. *)
Definition Vpv_of (self : PVModel) : list float :=
  Np.linspace F64.zero (V_oc self) 1000.

Definition x0_of (self : PVModel) : list float :=
  Np.scale (I_sc self) (Np.ones_like (Vpv_of self)).

(** ** PVModel.modelo_pv *)

Section Modelo.

Context `{NumLib}.

(** Line 56, the reverse saturation current:
    [self.I_sc / (np.exp((self.q * self.V_oc) /
                         (self.n * self.N_s * self.K * T)) - 1)] *)
Definition calc_I_rs (self : PVModel) (T : value) : result float :=
  let a := F64.mul (q self) (V_oc self) in
  b1 <- Py.fmul (n self) (N_s self) ;;
  let b2 := F64.mul b1 (K self) in
  t <- Py.as_num T ;;
  b3 <- Py.fmul b2 t ;;
  arg <- Py.fdiv a b3 ;;
  Ok (F64.div (I_sc self) (F64.sub (np_exp arg) F64.one)).

(** Line 58, the saturation current:
    [I_rs * (T / self.T_n) *
     np.exp((self.q * self.E_g0 * (1 / self.T_n - 1 / T)) /
            (self.n * self.K))] *)
Definition calc_I_o (self : PVModel) (I_rs : float) (T : value)
  : result float :=
  t <- Py.as_num T ;;
  t1 <- Py.truediv t (NInt (T_n self)) ;;
  let m1 := F64.mul I_rs t1 in
  r1 <- Py.truediv (NInt 1) (NInt (T_n self)) ;;
  r2 <- Py.truediv (NInt 1) t ;;
  let c := F64.mul (F64.mul (q self) (E_g0 self)) (F64.sub r1 r2) in
  arg <- Py.fdiv c (F64.mul (n self) (K self)) ;;
  Ok (F64.mul m1 (np_exp arg)).

(** Line 60, the photogenerated current:
    [(self.I_sc + self.k_i * (T - 298)) * (G / 1000)] *)
Definition calc_I_ph (self : PVModel) (G T : value) : result float :=
  t <- Py.as_num T ;;
  d1 <- Py.sub t (NInt 298) ;;
  d2 <- Py.fmul (k_i self) d1 ;;
  let s := F64.add (I_sc self) d2 in
  g <- Py.as_num G ;;
  g1000 <- Py.truediv g (NInt 1000) ;;
  Ok (F64.mul s g1000).

(** [self.n * self.K * self.N_s * T], the scalar divisor inside [f].  It
    depends on neither [I] nor [V]; its conversions are those of line 56. *)
Definition f_divisor (self : PVModel) (T : value) : result float :=
  b <- Py.fmul (F64.mul (n self) (K self)) (N_s self) ;;
  t <- Py.as_num T ;;
  Py.fmul b t.

(** Lines 68 to 70, the circuit equation, elementwise on the arrays [I] and
    [V]:
    [I_ph - I_o * (np.exp((self.q * (V + I * self.R_s)) /
                          (self.n * self.K * self.N_s * T)) - 1)
     - (V + I * self.R_s) / self.R_sh - I] *)
Definition f (self : PVModel) (I_ph I_o divisor : float)
    (I V : list float) : list float :=
  map2 (fun i v =>
          let u := F64.add v (F64.mul i (R_s self)) in
          let e := np_exp (F64.div (F64.mul (q self) u) divisor) in
          F64.sub
            (F64.sub
               (F64.sub I_ph (F64.mul I_o (F64.sub e F64.one)))
               (F64.div u (R_sh self)))
            i)
       I V.

(** Lines 76 to 82: the table of results and its row of maximal power. *)
Definition max_power_point (Ipv Vpv Ppv : list float)
  : result (DataFrame * float * float * float) :=
  let resultados := mkDataFrame Ipv Vpv Ppv in
  max_power_idx <- Pd.idxmax (Potencia resultados) ;;
  Vmpp <- Pd.loc max_power_idx (Voltaje resultados) ;;
  Impp <- Pd.loc max_power_idx (Corriente resultados) ;;
  P_max <- Pd.loc max_power_idx (Potencia resultados) ;;
  Ok (resultados, Vmpp, Impp, P_max).

(** [PVModel.modelo_pv].  The arrays of zeros of lines 64 and 65 are
    overwritten before they are read and are left out. *)
Definition modelo_pv (self : PVModel) (G T : value)
  : result (DataFrame * float * float * float) :=
  validate_inputs self G T ;;;
  I_rs <- calc_I_rs self T ;;
  I_o <- calc_I_o self I_rs T ;;
  I_ph <- calc_I_ph self G T ;;
  let Vpv := Np.linspace F64.zero (V_oc self) 1000 in
  divisor <- f_divisor self T ;;
  Ipv <- Sp.fsolve (fun I => f self I_ph I_o divisor I Vpv)
                   (Np.scale (I_sc self) (Np.ones_like Vpv)) ;;
  Ppv <- Np.mul Vpv Ipv ;;
  max_power_point Ipv Vpv Ppv.

End Modelo.

(** ** The vocabulary of the specification *)

Module Spec.

(** The two kinds of rejected input. *)
Inductive error : Type :=
| InvalidOperatingCondition
| InvalidArrayConfig.

(** The kind of error an exception of the program stands for: the program
    raises [ValueError] for both, told apart by the message. *)
Definition error_of (e : exn) : option error :=
  match e with
  | ValueError m =>
      if (String.eqb m Msg.irradiancia || String.eqb m Msg.temperatura)%bool
      then Some InvalidOperatingCondition
      else if (String.eqb m Msg.serie || String.eqb m Msg.paralelo)%bool
      then Some InvalidArrayConfig
      else None
  | _ => None
  end.

Definition fails_with {A : Type} (r : result A) (k : error) : Prop :=
  exists e, r = Raise e /\ error_of e = Some k.

(** A finite, real, strictly positive number. *)
Definition finite_positive (v : value) : bool :=
  match v with
  | VInt z => 0 <? z
  | VFloat x => F64.is_finite x && F64.ltb F64.zero x
  | _ => false
  end.

(** A strictly positive [int] or [float], infinity included; [True] is the
    [int] 1. *)
Definition positive_number (v : value) : bool :=
  match v with
  | VInt z => 0 <? z
  | VBool b => b
  | VFloat x => F64.ltb F64.zero x
  | _ => false
  end.

(** A strictly positive [int]. *)
Definition positive_int (v : value) : bool :=
  match v with
  | VInt z => 0 <? z
  | VBool b => b
  | _ => false
  end.

Definition is_nan (v : value) : bool :=
  match v with
  | VFloat x => F64.is_nan x
  | _ => false
  end.

(** A number of the program as a binary64 number. *)
Definition as_float (v : value) : float :=
  match v with
  | VInt z => F64.of_Z z
  | VBool b => F64.of_Z (if b then 1 else 0)
  | VFloat x => x
  | VStr _ | VNone => S754_nan
  end.

(** An [int] below [2 ^ 53] is a binary64 number as it stands. *)
Definition fits_float (v : value) : bool :=
  match v with
  | VInt z => z <? 2 ^ 53
  | _ => true
  end.

(** The reference temperature, 298 K. *)
Definition T_ref : float := S754_finite false 5242471441235968 (-44).

Definition f1000 : float := S754_finite false 8796093022208000 (-43).

Section Formulas.

Context `{NumLib}.
Variable c : PVModel.

(** [I_rs = I_sc / (exp(q V_oc / (n N_s K T)) - 1)] *)
Definition I_rs (N_s T : float) : float :=
  F64.div (I_sc c)
    (F64.sub
       (np_exp
          (F64.div (F64.mul (q c) (V_oc c))
             (F64.mul (F64.mul (F64.mul (n c) N_s) (K c)) T)))
       F64.one).

(** [I_o = I_rs (T / T_ref) exp((q E_g0 (1 / T_ref - 1 / T)) / (n K))] *)
Definition I_o (I_rs T : float) : float :=
  F64.mul
    (F64.mul I_rs (F64.div T T_ref))
    (np_exp
       (F64.div
          (F64.mul (F64.mul (q c) (E_g0 c))
             (F64.sub (F64.div F64.one T_ref) (F64.div F64.one T)))
          (F64.mul (n c) (K c)))).

(** [I_ph = (I_sc + k_i (T - T_ref)) (G / 1000)] *)
Definition I_ph (G T : float) : float :=
  F64.mul
    (F64.add (I_sc c) (F64.mul (k_i c) (F64.sub T T_ref)))
    (F64.div G f1000).

End Formulas.

End Spec.

(** A valid irradiance or temperature: a positive [int] below [2 ^ 53] or a
    finite positive [float]. *)
Inductive valid_number : value -> num -> Prop :=
| valid_int (z : positive) :
    Z.pos z < 2 ^ 53 -> valid_number (VInt (Z.pos z)) (NInt (Z.pos z))
| valid_float (x : float) :
    F64.is_zero x = false -> valid_number (VFloat x) (NFloat x).

(** Exceptions raised after the validation are not validation errors. *)
Definition numeric_failure (e : exn) : Prop := Spec.error_of e = None.

(** ** Two concrete libraries

    [exp_taylor] approximates the exponential by halving the argument until
    it is at most 1/2, summing eighteen terms of the series and squaring
    back.  [stalled] is a root-finder that gives up at once: it hands back
    its starting point with status 5 (no progress). *)

Module Demo.

Definition half : float := S754_finite false 4503599627370496 (-53).

Fixpoint reduce (fuel : nat) (x : float) (k : nat) : float * nat :=
  match fuel with
  | O => (x, k)
  | S fuel' =>
      if F64.leb (SFabs x) half then (x, k)
      else reduce fuel' (F64.mul x half) (S k)
  end.

Fixpoint series (terms : nat) (x : float) (i : Z) (term acc : float)
  : float :=
  match terms with
  | O => acc
  | S terms' =>
      let term' := F64.div (F64.mul term x) (F64.of_Z i) in
      series terms' x (i + 1) term' (F64.add acc term')
  end.

Fixpoint squares (k : nat) (y : float) : float :=
  match k with
  | O => y
  | S k' => squares k' (F64.mul y y)
  end.

Definition exp_taylor (x : float) : float :=
  match x with
  | S754_nan => S754_nan
  | S754_infinity false => x
  | S754_infinity true => F64.zero
  | S754_zero _ => F64.one
  | S754_finite _ _ _ =>
      let '(r, k) := reduce 1100 x 0 in
      squares k (series 18 r 1 F64.one F64.one)
  end.

Definition stalled : NumLib :=
  {| np_exp := exp_taylor; hybr := fun _ x0 => (x0, 5); pandas_3 := true |}.

(** [PVModel(4, 3)], the array of [main]. *)
Definition pv43 : PVModel :=
  {| R_sh := Lit.f545_82;
     k_i := Lit.f0_037;
     T_n := 298;
     q := Lit.f1_60217646e_19;
     n := Lit.f1_0;
     K := Lit.f1_3806503e_23;
     E_g0 := Lit.f1_1;
     R_s := Lit.f0_39;
     num_panels_series := VInt 4;
     num_panels_parallel := VInt 3;
     I_sc := S754_finite false 7895373096733900 (-48);
     V_oc := S754_finite false 6670956948042547 (-45);
     N_s := NInt 288 |}.

(** The run of [main] with the root-finder that gives up at once. *)
Definition stalled_run : result (DataFrame * float * float * float) :=
  Eval vm_compute in
    @modelo_pv stalled pv43 (VInt 1000) (VInt 298).

(** The same array at 1000 W/m2 and 1 K. *)
Definition cold_run : result (DataFrame * float * float * float) :=
  Eval vm_compute in
    @modelo_pv stalled pv43 (VInt 1000) (VInt 1).

End Demo.

(** ** The divisor of line 56

    [self.n * self.N_s * self.K * T], the divisor inside the exponential of
    line 56, with the conversions of its operands in the order Python makes
    them.  Line 69 writes the same quantity as
    [self.n * self.K * self.N_s * T], which is [f_divisor]. *)
Definition I_rs_divisor (self : PVModel) (T : value) : result float :=
  b1 <- Py.fmul (n self) (N_s self) ;;
  let b2 := F64.mul b1 (K self) in
  t <- Py.as_num T ;;
  Py.fmul b2 t.

(** An [int] that [float()] converts without overflow, or any other
    number. *)
Definition convertible (v : value) : bool :=
  match v with
  | VInt z => Z.abs z <? 2 ^ 1023
  | VBool _ | VFloat _ => true
  | VStr _ | VNone => false
  end.

(** * The request handlers

    [Prueba_5/app.py] and [Prueba_3/app.py] are Flask applications that
    call [PVModel.modelo_pv].  Flask, matplotlib and the file system are
    not part of the program: a handler is modelled as a function of what
    Flask hands to it, acting on the files that exist and recording the
    library calls it makes, in order. *)

Module Web.

Inductive error : Type :=
| KeyError (key : string)
| TypeError
| UnboundLocalError (name : string)
| HTTPException (code : Z).

Inductive outcome (A : Type) : Type :=
| Done (a : A)
| Failed (e : error).

Arguments Done {A} a.
Arguments Failed {A} e.

Definition and_then {A B : Type} (m : outcome A) (k : A -> outcome B)
  : outcome B :=
  match m with
  | Done a => k a
  | Failed e => Failed e
  end.

Notation "x <~ m ;; k" := (and_then m (fun x => k))
  (at level 61, m at next level, right associativity).

(** The value stored under [key] in a [dict]. *)
Fixpoint lookup {A : Type} (key : string) (d : list (string * A))
  : option A :=
  match d with
  | [] => None
  | (k, v) :: d' => if String.eqb k key then Some v else lookup key d'
  end.

(** A local variable of a function: a slot that is empty until an
    assignment fills it.  Reading an empty slot raises
    [UnboundLocalError]. *)
Definition load_fast {A : Type} (name : string) (slot : option A)
  : outcome A :=
  match slot with
  | Some a => Done a
  | None => Failed (UnboundLocalError name)
  end.

End Web.

(** ** [Prueba_5/app.py] *)

Module Api.

Import Web.

#[local] Unset Elimination Schemes.

(** A decoded JSON document, as [request.get_json()] returns it. *)
Inductive json : Type :=
| JNull
| JBool (b : bool)
| JInt (z : Z)
| JFloat (x : float)
| JStr (s : string)
| JList (l : list json)
| JDict (d : list (string * json)).

#[local] Set Elimination Schemes.

(** [data[key]] for a string [key]: only a [dict] can be indexed by a
    string. *)
Definition getitem (data : json) (key : string) : outcome json :=
  match data with
  | JDict d =>
      match lookup key d with
      | Some v => Done v
      | None => Failed (KeyError key)
      end
  | _ => Failed TypeError
  end.

Section Handler.

(** What the name [pv_model] would hold once bound, and the reply of the
    handler.  The module [pv_model] of line 6 is not among the sources:
    [rest] stands for what lines 16 to 32 do after the name [pv_model] has
    been read on line 16. *)
Variables (object response : Type).
Variable rest : object -> json -> json -> outcome response.

(** [calculate_solar_panel_model], the handler of [/api].  The assignment
    of line 16 makes [pv_model] a local variable of the whole function, and
    its right-hand side reads that variable before anything is assigned to
    it. *)
Definition calculate_solar_panel_model (get_json : outcome json)
  : outcome response :=
  let pv_model : option object := None in
  data <~ get_json ;;
  num_panels_series <~ getitem data "numPanelsSeries"%string ;;
  num_panels_parallel <~ getitem data "numPanelsParallel"%string ;;
  pv_model_read <~ load_fast "pv_model"%string pv_model ;;
  rest pv_model_read num_panels_series num_panels_parallel.

End Handler.

End Api.

(** ** [Prueba_3/app.py] *)

Module Curves.

Local Open Scope string_scope.

(** The calls of matplotlib, Flask and [os] the handler makes. *)
Inductive call : Type :=
| plt_figure (width height : Z)
| plt_plot (x y : list float) (label : string)
| plt_xlabel (text : string)
| plt_ylabel (text : string)
| plt_title (text : string)
| plt_grid
| plt_legend
| plt_savefig (path : string)
| plt_close
| send_file (path mimetype : string)
| make_response
| set_header (name value : string)
| os_remove (path : string).

(** The world the handler acts on: the files that exist, by the path they
    are opened under (all paths are relative to one directory, in which
    [static] exists), and the calls made so far. *)
Record world : Type := mkWorld {
  files : list string;
  calls : list call
}.

Inductive error : Type :=
| FileNotFoundError (path : string).

Inductive outcome (A : Type) : Type :=
| Done (a : A)
| Raised (e : error).

Arguments Done {A} a.
Arguments Raised {A} e.

(** A computation that acts on the world and returns or raises. *)
Definition M (A : Type) : Type := world -> outcome A * world.

Definition ret {A : Type} (a : A) : M A := fun w => (Done a, w).

Definition seq {A B : Type} (m : M A) (k : A -> M B) : M B :=
  fun w =>
    match m w with
    | (Done a, w') => k a w'
    | (Raised e, w') => (Raised e, w')
    end.

Notation "x <~ m ;; k" := (seq m (fun x => k))
  (at level 61, m at next level, right associativity).
Notation "m ~~ k" := (seq m (fun _ => k))
  (at level 61, right associativity).

Definition exists_file (path : string) (w : world) : bool :=
  existsb (String.eqb path) (files w).

Definition log (c : call) (w : world) : world :=
  mkWorld (files w) (calls w ++ [c])%list.

(** A call that leaves the files alone. *)
Definition record (c : call) : M unit := fun w => (Done tt, log c w).

(** [plt.savefig(path)] writes the picture. *)
Definition savefig (path : string) : M unit :=
  fun w =>
    (Done tt, mkWorld (path :: files w) (calls (log (plt_savefig path) w))).

(** [send_file(path, mimetype=...)] opens the file: one that does not exist
    raises [FileNotFoundError]. *)
Definition send (path mimetype : string) : M unit :=
  fun w =>
    let w' := log (send_file path mimetype) w in
    if exists_file path w then (Done tt, w')
    else (Raised (FileNotFoundError path), w').

(** [os.remove(path)] *)
Definition remove (path : string) : M unit :=
  fun w =>
    let w' := log (os_remove path) w in
    if exists_file path w
    then (Done tt,
          mkWorld (filter (fun p => negb (String.eqb path p)) (files w))
            (calls w'))
    else (Raised (FileNotFoundError path), w').

(** [os.path.join(a, b)] of [posixpath]; the separator is the slash. *)
Definition sep : Ascii.ascii := Ascii.ascii_of_nat 47.

Definition startswith_sep (b : string) : bool :=
  match b with
  | String c _ => Ascii.eqb c sep
  | EmptyString => false
  end.

Fixpoint endswith_sep (a : string) : bool :=
  match a with
  | EmptyString => false
  | String c EmptyString => Ascii.eqb c sep
  | String _ a' => endswith_sep a'
  end.

Definition os_path_join (a b : string) : string :=
  if startswith_sep b then b
  else if String.eqb a "" || endswith_sep a then a ++ b
  else a ++ "/" ++ b.

(** [generate_pv_curve] *)
Definition generate_pv_curve (resultados : DataFrame) : M string :=
  record (plt_figure 8 6) ~~
  record (plt_plot (Voltaje resultados) (Potencia resultados) "P-V Curve") ~~
  record (plt_xlabel "Voltage (V)") ~~
  record (plt_ylabel "Power (W)") ~~
  record (plt_title "Power-Voltage Curve") ~~
  record plt_grid ~~
  record plt_legend ~~
  let pv_curve_path := "static/pv_curve.png" in
  savefig pv_curve_path ~~
  record plt_close ~~
  ret pv_curve_path.

(** [generate_iv_curve] *)
Definition generate_iv_curve (resultados : DataFrame) : M string :=
  record (plt_figure 8 6) ~~
  record (plt_plot (Corriente resultados) (Voltaje resultados) "I-V Curve") ~~
  record (plt_xlabel "Current (A)") ~~
  record (plt_ylabel "Voltage (V)") ~~
  record (plt_title "Current-Voltage Curve") ~~
  record plt_grid ~~
  record plt_legend ~~
  let iv_curve_path := "static/iv_curve.png" in
  savefig iv_curve_path ~~
  record plt_close ~~
  ret iv_curve_path.

Definition nl : string := String (Ascii.ascii_of_nat 10) EmptyString.
Definition dq : string := String (Ascii.ascii_of_nat 34) EmptyString.

(** The lines that follow each picture: the response made of [send_file],
    its three headers, [os.remove]. *)
Definition serve (path : string) : M unit :=
  send path "image/png" ~~
  record make_response ~~
  record (set_header "Cache-Control" "no-cache, no-store, must-revalidate") ~~
  record (set_header "Pragma" "no-cache") ~~
  record (set_header "Expires" "0") ~~
  remove path.

Section Handler.

(** [str] of a NumPy [float64], as an f-string formats it. *)
Variable str : float -> string.

(** [index], the handler of [/], after lines 12 and 13 have computed
    [resultados, Vmpp, Impp, P_max] with the class [PVModel] of the module
    [pv_model_g], which is not among the sources. *)
Definition index (resultados : DataFrame) (Vmpp Impp P_max : float)
  : M string :=
  pv_curve <~ generate_pv_curve resultados ;;
  let pv_curve_filename :=
    "pv_curve_" ++ str Vmpp ++ "_" ++ str Impp ++ "_" ++ str P_max
      ++ ".png" in
  let pv_curve_path := os_path_join "static" pv_curve_filename in
  let pv_curve_url := "/" ++ pv_curve_filename in
  serve pv_curve_path ~~
  iv_curve <~ generate_iv_curve resultados ;;
  let iv_curve_filename :=
    "iv_curve_" ++ str Vmpp ++ "_" ++ str Impp ++ "_" ++ str P_max
      ++ ".png" in
  let iv_curve_path := os_path_join "static" iv_curve_filename in
  let iv_curve_url := "/" ++ iv_curve_filename in
  serve iv_curve_path ~~
  ret (String.concat nl
         [""; "    <html>"; "        <head>";
          "            <title>PV Model Results</title>";
          "        </head>"; "        <body>";
          "            <h1>PV Model Results</h1>";
          "            <h2>P-V Curve</h2>";
          "            <img src=" ++ dq ++ pv_curve_url ++ dq ++ " alt="
            ++ dq ++ "P-V Curve" ++ dq ++ ">";
          "            <h2>I-V Curve</h2>";
          "            <img src=" ++ dq ++ iv_curve_url ++ dq ++ " alt="
            ++ dq ++ "I-V Curve" ++ dq ++ ">";
          "        </body>"; "    </html>"; "    "]).

End Handler.

End Curves.

(** * Properties *)

(** ** The order of binary64 numbers *)

Lemma ltb_key (x y : float) :
  F64.is_nan x = false -> F64.is_nan y = false ->
  (F64.ltb x y = true <-> Key.lt (Key.of_float x) (Key.of_float y)).
Proof.
  unfold F64.ltb, SFltb.
  destruct x as [[]|[]| |[] mx ex], y as [[]|[]| |[] my ey]; cbn;
    intros Hx Hy; try discriminate;
    try (split; [intros; lia | intros; (discriminate || lia)]);
    try (split; [discriminate | lia]).
  all: change (Pos.compare_cont Eq mx my) with (Pos.compare mx my).
  all: destruct (Z.compare_spec ex ey); destruct (Pos.compare_spec mx my);
    cbn; split; intros; try discriminate; try reflexivity; try lia.
Qed.

Lemma leb_key (x y : float) :
  F64.is_nan x = false -> F64.is_nan y = false ->
  (F64.leb x y = true <-> Key.le (Key.of_float x) (Key.of_float y)).
Proof.
  unfold F64.leb, SFleb.
  destruct x as [[]|[]| |[] mx ex], y as [[]|[]| |[] my ey]; cbn;
    intros Hx Hy; try discriminate;
    try (split; [intros; lia | intros; (discriminate || lia)]);
    try (split; [discriminate | lia]).
  all: change (Pos.compare_cont Eq mx my) with (Pos.compare mx my).
  all: destruct (Z.compare_spec ex ey); destruct (Pos.compare_spec mx my);
    cbn; split; intros; try discriminate; try reflexivity; try lia.
Qed.

Lemma ltb_not_nan (x y : float) :
  F64.ltb x y = true -> F64.is_nan x = false /\ F64.is_nan y = false.
Proof.
  unfold F64.ltb, SFltb.
  destruct x as [[]|[]| |[] mx ex], y as [[]|[]| |[] my ey]; cbn; auto;
    discriminate.
Qed.

Lemma leb_refl (x : float) : F64.is_nan x = false -> F64.leb x x = true.
Proof.
  intros Hx. apply leb_key; trivial.
  unfold Key.le. destruct (Key.of_float x) as [[a b] c]. lia.
Qed.

Lemma ltb_leb (x y : float) : F64.ltb x y = true -> F64.leb x y = true.
Proof.
  intros H. destruct (ltb_not_nan _ _ H) as [Hx Hy].
  apply leb_key; trivial. apply ltb_key in H; trivial.
  unfold Key.le, Key.lt in *.
  destruct (Key.of_float x) as [[a b] c], (Key.of_float y) as [[a' b'] c'].
  lia.
Qed.

Lemma leb_ltb_trans (x y z : float) :
  F64.is_nan x = false ->
  F64.leb x y = true -> F64.ltb y z = true -> F64.ltb x z = true.
Proof.
  intros Hx Hxy Hyz. destruct (ltb_not_nan _ _ Hyz) as [Hy Hz].
  apply ltb_key; trivial. apply ltb_key in Hyz; trivial.
  apply leb_key in Hxy; trivial.
  unfold Key.le, Key.lt in *.
  destruct (Key.of_float x) as [[a b] c], (Key.of_float y) as [[a' b'] c'],
    (Key.of_float z) as [[a'' b''] c''].
  lia.
Qed.

Lemma ltb_trans (x y z : float) :
  F64.ltb x y = true -> F64.ltb y z = true -> F64.ltb x z = true.
Proof.
  intros Hxy Hyz. destruct (ltb_not_nan _ _ Hxy) as [Hx _].
  eapply leb_ltb_trans; eauto using ltb_leb.
Qed.

Lemma not_ltb_leb (x y : float) :
  F64.is_nan x = false -> F64.is_nan y = false ->
  F64.ltb x y = false -> F64.leb y x = true.
Proof.
  intros Hx Hy H. apply leb_key; trivial.
  assert (N : ~ Key.lt (Key.of_float x) (Key.of_float y)).
  { intros K. apply ltb_key in K; trivial. congruence. }
  unfold Key.le, Key.lt in *.
  destruct (Key.of_float x) as [[a b] c], (Key.of_float y) as [[a' b'] c'].
  lia.
Qed.

Lemma leb_not_nan (x y : float) :
  F64.leb x y = true -> F64.is_nan x = false /\ F64.is_nan y = false.
Proof.
  unfold F64.leb, SFleb.
  destruct x as [[]|[]| |[] mx ex], y as [[]|[]| |[] my ey]; cbn; auto;
    discriminate.
Qed.


(** ** Rounding to binary64 *)

Lemma digits_bounds (m : positive) :
  2 ^ (digits m - 1) <= Z.pos m < 2 ^ digits m.
Proof.
  unfold digits. induction m as [m IH|m IH|]; cbn [digits2_pos].
  - rewrite Pos2Z.inj_succ, (Pos2Z.inj_xI m).
    replace (Z.succ (Z.pos (digits2_pos m)) - 1)
      with (Z.succ (Z.pos (digits2_pos m) - 1)) by lia.
    rewrite !Z.pow_succ_r by lia. lia.
  - rewrite Pos2Z.inj_succ, (Pos2Z.inj_xO m).
    replace (Z.succ (Z.pos (digits2_pos m)) - 1)
      with (Z.succ (Z.pos (digits2_pos m) - 1)) by lia.
    rewrite !Z.pow_succ_r by lia. lia.
  - cbn. lia.
Qed.

Lemma digits_pos (m : positive) : 1 <= digits m.
Proof. unfold digits. lia. Qed.

Lemma digits_unique (m : positive) (d : Z) :
  2 ^ (d - 1) <= Z.pos m < 2 ^ d -> digits m = d.
Proof.
  intros [L U]. pose proof (digits_bounds m) as [L' U'].
  pose proof (digits_pos m) as P.
  assert (0 < d).
  { destruct (Z.lt_ge_cases 0 d) as [|N]; trivial.
    assert (2 ^ d <= 2 ^ 0) by (apply Z.pow_le_mono_r; lia).
    change (2 ^ 0) with 1 in *. lia. }
  destruct (Z.lt_trichotomy (digits m) d) as [Hlt|[Heq|Hgt]]; trivial.
  - assert (2 ^ digits m <= 2 ^ (d - 1)) by (apply Z.pow_le_mono_r; lia).
    lia.
  - assert (2 ^ d <= 2 ^ (digits m - 1)) by (apply Z.pow_le_mono_r; lia).
    lia.
Qed.

Lemma iter_pos_nat {A : Type} (g : A -> A) (p : positive) (x : A) :
  iter_pos g p x = Nat.iter (Pos.to_nat p) g x.
Proof.
  revert x. induction p as [p IH|p IH|]; intros x; cbn [iter_pos].
  - rewrite !IH.
    replace (Pos.to_nat p~1) with (Pos.to_nat p + S (Pos.to_nat p))%nat
      by lia.
    rewrite Nat.iter_add, Nat.iter_succ_r. reflexivity.
  - rewrite !IH.
    replace (Pos.to_nat p~0) with (Pos.to_nat p + Pos.to_nat p)%nat by lia.
    rewrite Nat.iter_add. reflexivity.
  - reflexivity.
Qed.

Lemma shr_m_shr_1 (mrs : shr_record) :
  0 <= shr_m mrs -> shr_m (shr_1 mrs) = shr_m mrs / 2.
Proof.
  destruct mrs as [m r s]. cbn [shr_m]. intros Hm.
  rewrite <- Z.div2_div.
  destruct m as [|[p|p|]|p]; try reflexivity. lia.
Qed.

Lemma shr_m_iter (k : nat) (mrs : shr_record) :
  0 <= shr_m mrs ->
  shr_m (Nat.iter k shr_1 mrs) = shr_m mrs / 2 ^ Z.of_nat k.
Proof.
  intros Hm. induction k as [|k IH].
  - cbn. now rewrite Z.div_1_r.
  - rewrite Nat.iter_succ, shr_m_shr_1, IH.
    + rewrite Nat2Z.inj_succ, Z.pow_succ_r by lia.
      rewrite Z.div_div by lia. f_equal. lia.
    + rewrite IH. apply Z.div_pos; lia.
Qed.

(** The mantissa after the shift of [shr]: the quotient by [2 ^ k] where
    [k] is the shift, 0 when it is not positive. *)
Lemma shr_spec (mrs : shr_record) (e k : Z) :
  0 <= shr_m mrs ->
  shr_m (fst (shr mrs e k)) = shr_m mrs / 2 ^ Z.max 0 k /\
  snd (shr mrs e k) = e + Z.max 0 k.
Proof.
  intros Hm. destruct k as [|p|p]; cbn [shr fst snd].
  - cbn. rewrite Z.div_1_r. lia.
  - rewrite iter_pos_nat, shr_m_iter by exact Hm.
    rewrite positive_nat_Z. split; [f_equal; f_equal|]; lia.
  - cbn. rewrite Z.div_1_r. lia.
Qed.

Lemma shr_m_of_loc (m : Z) (l : location) :
  shr_m (shr_record_of_loc m l) = m.
Proof. destruct l as [|[]]; reflexivity. Qed.

Lemma round_nearest_even_range (m : Z) (l : location) :
  round_nearest_even m l = m \/ round_nearest_even m l = m + 1.
Proof. destruct l as [|[]]; cbn; try destruct (Z.even m); auto. Qed.

Lemma fexp_normal (e : Z) :
  -1074 <= e - 53 -> fexp F64.prec F64.emax e = e - 53.
Proof. unfold fexp, emin, F64.prec, F64.emax. lia. Qed.

Lemma quotient_53_digits (m : positive) :
  53 <= digits m ->
  2 ^ 52 <= Z.pos m / 2 ^ (digits m - 53) < 2 ^ 53.
Proof.
  intros Hd. pose proof (digits_bounds m) as [L U].
  set (k := digits m - 53) in *.
  assert (Hk : 0 <= k) by lia.
  assert (P : 0 < 2 ^ k) by (apply Z.pow_pos_nonneg; lia).
  replace (digits m - 1) with (52 + k) in L by lia.
  replace (digits m) with (53 + k) in U by lia.
  rewrite Z.pow_add_r in L, U by lia.
  split.
  - apply Z.div_le_lower_bound; lia.
  - apply Z.div_lt_upper_bound; lia.
Qed.

(** What [binary_round_aux] returns on a mantissa [m] of at least 53 digits
    in the range of the normal numbers: a mantissa of 53 digits that is the
    quotient [qf] of [m] by the power of two that is dropped, or its
    successor; when the successor needs 54 digits the exponent is raised once
    more.  The result overflows to infinity beyond exponent 971. *)
Lemma round_aux_normal (sx : bool) (m : positive) (E : Z) (l : location) :
  53 <= digits m ->
  -1074 <= digits m + E - 53 ->
  let k0 := digits m - 53 in
  let qf := Z.pos m / 2 ^ k0 in
  exists (m' : positive) (k : Z),
    binary_round_aux F64.prec F64.emax sx (Z.pos m) E l =
      (if E + k <=? 971 then S754_finite sx m' (E + k)
       else S754_infinity sx) /\
    digits m' = 53 /\
    ((k = k0 /\ (Z.pos m' = qf \/ Z.pos m' = qf + 1)) \/
     (k = k0 + 1 /\ Z.pos m' = 2 ^ 52 /\ qf = 2 ^ 53 - 1)).
Proof.
  intros Hd Hn k0 qf.
  pose proof (quotient_53_digits m Hd) as Hq. fold k0 in Hq. fold qf in Hq.
  unfold binary_round_aux, shr_fexp.
  change (Zdigits2 (Z.pos m)) with (digits m).
  rewrite fexp_normal by lia.
  replace (digits m + E - 53 - E) with k0 by (unfold k0; lia).
  assert (Hk0 : 0 <= k0) by (unfold k0; lia).
  assert (Hn' : -1074 <= E + k0) by (unfold k0; lia).
  clearbody k0.
  destruct (shr_spec (shr_record_of_loc (Z.pos m) l) E k0) as [S1 S2].
  { rewrite shr_m_of_loc. lia. }
  rewrite shr_m_of_loc, Z.max_r in S1 by lia.
  rewrite Z.max_r in S2 by lia.
  destruct (shr (shr_record_of_loc (Z.pos m) l) E k0) as [mrs' e'].
  cbn [fst snd] in S1, S2. fold qf in S1. subst e'. clearbody qf.
  set (M1 := round_nearest_even (shr_m mrs') (loc_of_shr_record mrs')).
  assert (HM1 : M1 = qf \/ M1 = qf + 1).
  { unfold M1. rewrite <- S1. apply round_nearest_even_range. }
  assert (P53 : 2 ^ 53 = 9007199254740992) by reflexivity.
  assert (P52 : 2 ^ 52 = 4503599627370496) by reflexivity.
  destruct (Z.eq_dec M1 (2 ^ 53)) as [Hc|Hc].
  - (* the rounded mantissa needs 54 digits *)
    rewrite Hc.
    change (Zdigits2 (2 ^ 53)) with 54.
    rewrite fexp_normal by lia.
    replace (54 + (E + k0) - 53 - (E + k0)) with 1 by lia.
    exists 4503599627370496%positive, (k0 + 1).
    split; [|split].
    + cbn. replace (E + k0 + 1) with (E + (k0 + 1)) by lia. reflexivity.
    + reflexivity.
    + right. repeat split; lia.
  - assert (R : 2 ^ 52 <= M1 < 2 ^ 53) by lia.
    destruct M1 as [|m1|m1] eqn:EM1; try lia.
    change (Zdigits2 (Z.pos m1)) with (digits m1).
    assert (D1 : digits m1 = 53) by (apply digits_unique; exact R).
    rewrite D1, fexp_normal by lia.
    replace (53 + (E + k0) - 53 - (E + k0)) with 0 by lia.
    exists m1, k0. split; [|split].
    + cbn. reflexivity.
    + exact D1.
    + left. split; [reflexivity|]. lia.
Qed.

(** The same in terms of values: the result [m' * 2 ^ (E + k)] is within
    one unit [2 ^ (E + k0)] of the dropped digits of [m * 2 ^ E]. *)
Lemma round_aux_value (sx : bool) (m : positive) (E : Z) (l : location) :
  53 <= digits m ->
  -1074 <= digits m + E - 53 ->
  let k0 := digits m - 53 in
  exists (m' : positive) (k : Z),
    binary_round_aux F64.prec F64.emax sx (Z.pos m) E l =
      (if E + k <=? 971 then S754_finite sx m' (E + k)
       else S754_infinity sx) /\
    digits m' = 53 /\
    (k = k0 \/ k = k0 + 1) /\
    Z.pos m - 2 ^ k0 < Z.pos m' * 2 ^ k <= Z.pos m + 2 ^ k0.
Proof.
  intros Hd Hn k0.
  destruct (round_aux_normal sx m E l Hd Hn) as (m' & k & R & D & C).
  fold k0 in C.
  exists m', k. split; [exact R|]. split; [exact D|].
  assert (Hk0 : 0 <= k0) by (unfold k0; lia).
  assert (P : 0 < 2 ^ k0) by (apply Z.pow_pos_nonneg; lia).
  pose proof (Z.mul_div_le (Z.pos m) (2 ^ k0) P) as Q1.
  pose proof (Z.mul_succ_div_gt (Z.pos m) (2 ^ k0) P) as Q2.
  clearbody k0. set (qf := Z.pos m / 2 ^ k0) in *. clearbody qf.
  destruct C as [[-> [C|C]]|(-> & C & Cq)].
  - split; [now left|]. rewrite C. lia.
  - split; [now left|]. rewrite C. lia.
  - split; [now right|]. rewrite C, Z.pow_add_r by lia.
    change (2 ^ 1) with 2. change (2 ^ 52) with 4503599627370496.
    change (2 ^ 53) with 9007199254740992 in Cq. lia.
Qed.

Lemma digits_mul_53 (mx my : positive) :
  digits mx = 53 -> digits my = 53 ->
  digits (mx * my) = 105 \/ digits (mx * my) = 106.
Proof.
  intros Dx Dy.
  pose proof (digits_bounds mx) as Bx. pose proof (digits_bounds my) as By.
  rewrite Dx in Bx. rewrite Dy in By.
  change (2 ^ (53 - 1)) with 4503599627370496 in *.
  change (2 ^ 53) with 9007199254740992 in *.
  destruct (Z.lt_ge_cases (Z.pos (mx * my)) (2 ^ 105)) as [H|H].
  - left. apply digits_unique. split; [|exact H].
    change (2 ^ (105 - 1)) with (4503599627370496 * 4503599627370496).
    rewrite Pos2Z.inj_mul. nia.
  - right. apply digits_unique. split; [exact H|].
    change (2 ^ 106) with (9007199254740992 * 9007199254740992).
    rewrite Pos2Z.inj_mul. nia.
Qed.

(** The product of two positive normal numbers, as long as it stays in the
    range of the normal numbers. *)
Lemma mul_normal (mx my : positive) (ex ey : Z) :
  digits mx = 53 -> digits my = 53 ->
  -1074 <= 52 + (ex + ey) ->
  let M := Z.pos mx * Z.pos my in
  let k0 := digits (mx * my) - 53 in
  exists (m' : positive) (k : Z),
    F64.mul (S754_finite false mx ex) (S754_finite false my ey) =
      (if ex + ey + k <=? 971 then S754_finite false m' (ex + ey + k)
       else S754_infinity false) /\
    digits m' = 53 /\
    (k0 = 52 \/ k0 = 53) /\
    (k = k0 \/ k = k0 + 1) /\
    M - 2 ^ k0 < Z.pos m' * 2 ^ k <= M + 2 ^ k0.
Proof.
  intros Dx Dy Hn M k0.
  pose proof (digits_mul_53 mx my Dx Dy) as D.
  destruct (round_aux_value false (mx * my) (ex + ey) loc_Exact)
    as (m' & k & R & D' & Hk & B); try lia.
  exists m', k. unfold F64.mul, SFmul. cbn [xorb].
  split; [exact R|]. split; [exact D'|].
  split; [unfold k0; lia|]. split; [exact Hk|].
  unfold M. rewrite <- Pos2Z.inj_mul. exact B.
Qed.

Lemma iter_xO (m d : positive) :
  Z.pos (Pos.iter xO m d) = Z.pos m * 2 ^ Z.pos d.
Proof.
  induction d as [|d IH] using Pos.peano_ind.
  - cbn. lia.
  - rewrite Pos.iter_succ, Pos2Z.inj_xO, IH, Pos2Z.inj_succ.
    rewrite Z.pow_succ_r by lia. lia.
Qed.

(** The conversion of a positive [int]: a mantissa of 53 digits, an exponent
    that is the number of digits beyond 53 (or one more after a carry), and,
    past 53 digits, a value within one unit of the last place. *)
Lemma of_Z_pos (p : positive) :
  let d := digits p in
  exists (m' : positive) (e' : Z),
    F64.of_Z (Z.pos p) =
      (if e' <=? 971 then S754_finite false m' e'
       else S754_infinity false) /\
    digits m' = 53 /\
    (e' = d - 53 \/ e' = d - 52) /\
    (53 < d ->
     Z.pos p - 2 ^ e' < Z.pos m' * 2 ^ e' <= Z.pos p + 2 ^ e').
Proof.
  intros d. pose proof (digits_pos p) as Hd1. fold d in Hd1.
  unfold F64.of_Z, binary_normalize, binary_round, shl_align.
  change (Z.pos (digits2_pos p)) with d.
  rewrite Z.add_0_r, fexp_normal, Z.sub_0_r by lia.
  destruct (d - 53) as [|t|t] eqn:Ht.
  - (* exactly 53 digits *)
    destruct (round_aux_value false p 0 loc_Exact)
      as (m' & k & R & D & Hk & B); fold d; try lia.
    fold d in Hk. replace (d - 53) with 0 in Hk by lia.
    rewrite !Z.add_0_l in R.
    exists m', k. rewrite R. repeat split; trivial; lia.
  - (* more than 53 digits *)
    destruct (round_aux_value false p 0 loc_Exact)
      as (m' & k & R & D & Hk & B); fold d; try lia.
    fold d in Hk, B.
    rewrite !Z.add_0_l in R.
    exists m', k. rewrite R.
    split; [reflexivity|]. split; [exact D|]. split; [lia|].
    intros _.
    assert (2 ^ (d - 53) <= 2 ^ k) by (apply Z.pow_le_mono_r; lia).
    lia.
  - (* fewer than 53 digits: the mantissa is shifted to 53 digits first *)
    assert (D : digits (Pos.iter xO p t) = 53).
    { apply digits_unique. rewrite iter_xO.
      pose proof (digits_bounds p) as [L U]. fold d in L, U.
      assert (E1 : 2 ^ (53 - 1) = 2 ^ (d - 1) * 2 ^ Z.pos t).
      { rewrite <- Z.pow_add_r by lia. f_equal. lia. }
      assert (E2 : 2 ^ 53 = 2 ^ d * 2 ^ Z.pos t).
      { rewrite <- Z.pow_add_r by lia. f_equal. lia. }
      rewrite E1, E2.
      assert (0 < 2 ^ Z.pos t) by (apply Z.pow_pos_nonneg; lia).
      split; [apply Z.mul_le_mono_nonneg_r|apply Z.mul_lt_mono_pos_r]; lia. }
    destruct (round_aux_value false (Pos.iter xO p t) (Z.neg t) loc_Exact)
      as (m' & k & R & D' & Hk & B); try lia.
    rewrite D in Hk.
    exists m', (Z.neg t + k). rewrite R.
    split; [reflexivity|]. split; [exact D'|]. split; lia.
Qed.

Lemma of_Z_finite_bound (p : positive) :
  F64.is_inf (F64.of_Z (Z.pos p)) = false -> Z.pos p < 2 ^ 1024.
Proof.
  destruct (of_Z_pos p) as (m' & e' & R & D & He & _). rewrite R.
  destruct (Z.leb_spec e' 971) as [H|H]; [intros _|discriminate].
  pose proof (digits_bounds p) as [_ U].
  assert (2 ^ digits p <= 2 ^ 1024) by (apply Z.pow_le_mono_r; lia).
  lia.
Qed.

Lemma digits_53_range (m : positive) :
  digits m = 53 -> 4503599627370496 <= Z.pos m < 9007199254740992.
Proof. intros D. pose proof (digits_bounds m) as B. now rewrite D in B. Qed.

(** The open-circuit voltage [47.4 * s] is a positive normal number as soon
    as [72 * s] fits in a binary64 number. *)
Lemma V_oc_normal (s : positive) :
  F64.is_inf (F64.of_Z (72 * Z.pos s)) = false ->
  exists (mv : positive) (ev : Z),
    F64.mul Lit.f47_4 (F64.of_Z (Z.pos s)) = S754_finite false mv ev /\
    digits mv = 53 /\ -47 <= ev <= 971.
Proof.
  intros Hinf. change (72 * Z.pos s) with (Z.pos (72 * s)) in Hinf.
  apply of_Z_finite_bound in Hinf. rewrite Pos2Z.inj_mul in Hinf.
  destruct (of_Z_pos s) as (ms & es & R & D & He & B).
  pose proof (digits_pos s) as Hd1.
  pose proof (digits_bounds s) as [L _].
  assert (Hd : digits s <= 1018).
  { destruct (Z.le_gt_cases (digits s) 1018) as [|N]; trivial.
    assert (2 ^ 1018 <= 2 ^ (digits s - 1))
      by (apply Z.pow_le_mono_r; lia).
    let c := eval vm_compute in (2 ^ 1018) in change (2 ^ 1018) with c in *.
    let c := eval vm_compute in (2 ^ 1024) in change (2 ^ 1024) with c in *.
    lia. }
  rewrite R. replace (es <=? 971) with true by (symmetry; apply Z.leb_le; lia).
  unfold Lit.f47_4.
  destruct (mul_normal 6670956948042547 ms (-47) es)
    as (m' & k & R2 & D' & Hk0 & Hk & B2); trivial; try lia.
  pose proof (digits_53_range ms D) as Rs.
  pose proof (digits_53_range m' D') as Rm.
  set (k0 := digits (6670956948042547 * ms) - 53) in *. clearbody k0.
  assert (Hev : -47 + es + k <= 971).
  { destruct (Z.le_gt_cases es 964) as [|Hbig]; [lia|].
    specialize (B ltac:(lia)).
    assert (Hes : es = 965 \/ es = 966) by lia.
    let c := eval vm_compute in (2 ^ 1024) in change (2 ^ 1024) with c in *.
    destruct Hes as [-> | ->].
    - let c := eval vm_compute in (2 ^ 965) in change (2 ^ 965) with c in *.
      destruct Hk0 as [-> | ->];
        destruct Hk as [-> | ->]; lia.
    - let c := eval vm_compute in (2 ^ 966) in change (2 ^ 966) with c in *.
      lia. }
  exists m', (-47 + es + k). rewrite R2.
  replace (-47 + es + k <=? 971) with true by (symmetry; apply Z.leb_le; lia).
  repeat split; trivial; lia.
Qed.

Lemma div_eucl_div_mod (a b : Z) : Z.div_eucl a b = (a / b, a mod b).
Proof. unfold Z.div, Z.modulo. now destruct (Z.div_eucl a b). Qed.

(** The step of the voltage samples, [V / 999] for a positive normal [V]:
    again a positive normal number, eight to ten binary places below [V],
    and at most one unit of the last place above the exact quotient. *)
Lemma div_999 (mv : positive) (ev : Z) :
  digits mv = 53 -> -1000 <= ev <= 971 ->
  exists (ms : positive) (es : Z),
    F64.div (S754_finite false mv ev) (F64.of_Z 999) =
      S754_finite false ms es /\
    digits ms = 53 /\
    (es = ev - 10 \/ es = ev - 9 \/ es = ev - 8) /\
    999 * Z.pos ms <= Z.pos mv * 2 ^ (ev - es) + 999.
Proof.
  intros Dv Hev.
  change (F64.of_Z 999) with (S754_finite false 8787296929185792 (-43)).
  unfold F64.div, SFdiv, SFdiv_core_binary. cbn [xorb].
  change (Zdigits2 (Z.pos mv)) with (digits mv). rewrite Dv.
  change (Zdigits2 8787296929185792) with 53.
  replace (53 + ev - (53 + -43)) with (ev + 43) by lia.
  rewrite fexp_normal by lia.
  replace (ev - -43) with (ev + 43) by lia.
  rewrite Z.min_l by lia.
  replace (ev + 43 - (ev + 43 - 53)) with 53 by lia.
  rewrite Z.shiftl_mul_pow2 by lia.
  rewrite div_eucl_div_mod.
  pose proof (digits_53_range mv Dv) as Rv.
  set (a := Z.pos mv * 2 ^ 53).
  set (b := 8787296929185792).
  set (q := a / b). set (r := a mod b).
  assert (Hab : a = b * q + r /\ 0 <= r < b).
  { split; [apply Z.div_mod|apply Z.mod_pos_bound]; unfold b; lia. }
  change (2 ^ 53) with 9007199254740992 in a.
  assert (Hq : 2 ^ 52 <= q < 2 ^ 54).
  { change (2 ^ 52) with 4503599627370496.
    change (2 ^ 54) with 18014398509481984.
    unfold a, b in Hab. lia. }
  destruct q as [|mq|mq] eqn:Eq; try (change (2 ^ 52) with 4503599627370496 in Hq; lia).
  assert (Dq : digits mq = 53 \/ digits mq = 54).
  { destruct (Z.lt_ge_cases (Z.pos mq) (2 ^ 53)).
    - left. apply digits_unique. change (53 - 1) with 52. lia.
    - right. apply digits_unique. change (54 - 1) with 53. lia. }
  destruct (round_aux_value false mq (ev + 43 - 53) (new_location b r))
    as (ms & k & R & Ds & Hk & B); try lia.
  pose proof (digits_53_range ms Ds) as Rs.
  exists ms, (ev + 43 - 53 + k). rewrite R.
  replace (ev + 43 - 53 + k <=? 971) with true
    by (symmetry; apply Z.leb_le; lia).
  split; [reflexivity|]. split; [exact Ds|]. split; [lia|].
  unfold a, b in Hab.
  destruct Dq as [Dq|Dq]; rewrite Dq in Hk, B;
    destruct Hk as [-> | ->].
  - replace (ev - (ev + 43 - 53 + (53 - 53))) with 10 by lia.
    change (2 ^ 10) with 1024. change (2 ^ (53 - 53)) with 1 in B. lia.
  - replace (ev - (ev + 43 - 53 + (53 - 53 + 1))) with 9 by lia.
    change (2 ^ 9) with 512. change (2 ^ (53 - 53)) with 1 in B.
    change (2 ^ (53 - 53 + 1)) with 2 in B. lia.
  - replace (ev - (ev + 43 - 53 + (54 - 53))) with 9 by lia.
    change (2 ^ 9) with 512. change (2 ^ (54 - 53)) with 2 in B. lia.
  - replace (ev - (ev + 43 - 53 + (54 - 53 + 1))) with 8 by lia.
    change (2 ^ 8) with 256. change (2 ^ (54 - 53)) with 2 in B.
    change (2 ^ (54 - 53 + 1)) with 4 in B. lia.
Qed.

Lemma small_ints_ok :
  forallb small_int_ok (map Z.of_nat (seq 1 999)) = true.
Proof. vm_compute. reflexivity. Qed.

Lemma of_Z_small (i : Z) :
  1 <= i <= 999 ->
  exists (mx : positive) (ex : Z),
    F64.of_Z i = S754_finite false mx ex /\
    digits mx = 53 /\ -52 <= ex <= -43 /\
    Z.pos mx * 2 ^ (ex + 52) = i * 2 ^ 52.
Proof.
  intros Hi.
  assert (I : In i (map Z.of_nat (seq 1 999))).
  { apply in_map_iff. exists (Z.to_nat i). split; [lia|].
    apply in_seq. lia. }
  pose proof (proj1 (forallb_forall _ _) small_ints_ok i I) as H.
  unfold small_int_ok in H.
  destruct (F64.of_Z i) as [| | |[] mx ex]; try discriminate.
  apply andb_prop in H as [H H4]. apply andb_prop in H as [H H3].
  apply andb_prop in H as [H1 H2].
  exists mx, ex. repeat split; lia.
Qed.

(** The sample [i * step], for [i] from 1 to 999 and a positive normal
    [step]: its value, counted in units of [2 ^ (es - 52)], is within
    [2 ^ 62] of the exact product. *)
Lemma sample_value (i : Z) (ms : positive) (es : Z) :
  1 <= i <= 999 -> digits ms = 53 -> -1000 <= es ->
  exists (m' : positive) (e' : Z),
    F64.mul (F64.of_Z i) (S754_finite false ms es) =
      (if e' <=? 971 then S754_finite false m' e'
       else S754_infinity false) /\
    digits m' = 53 /\
    es - 52 <= e' /\
    i * Z.pos ms * 2 ^ 52 - 2 ^ 62
      < Z.pos m' * 2 ^ (e' - (es - 52))
      <= i * Z.pos ms * 2 ^ 52 + 2 ^ 62.
Proof.
  intros Hi Ds Hes.
  destruct (of_Z_small i Hi) as (mx & ex & -> & Dx & Hex & Hx).
  destruct (mul_normal mx ms ex es Dx Ds)
    as (m' & k & R & D' & Hk0 & Hk & B); [lia|].
  exists m', (ex + es + k). split; [exact R|]. split; [exact D'|].
  set (k0 := digits (mx * ms) - 53) in *. clearbody k0.
  split; [lia|].
  replace (ex + es + k - (es - 52)) with (k + (ex + 52)) by lia.
  rewrite Z.pow_add_r by lia.
  set (T := 2 ^ (ex + 52)) in *.
  assert (HT : 1 <= T <= 512).
  { unfold T. split.
    - change 1 with (2 ^ 0). apply Z.pow_le_mono_r; lia.
    - change 512 with (2 ^ 9). apply Z.pow_le_mono_r; lia. }
  clearbody T. rewrite Z.mul_assoc.
  set (A := Z.pos m' * 2 ^ k) in *. clearbody A.
  set (M := Z.pos mx * Z.pos ms) in *.
  assert (HM : M * T = i * Z.pos ms * 2 ^ 52).
  { unfold M.
    replace (i * Z.pos ms * 2 ^ 52) with (i * 2 ^ 52 * Z.pos ms) by ring.
    rewrite <- Hx. ring. }
  clearbody M.
  assert (H1 : (M - 2 ^ k0) * T < A * T)
    by (apply Z.mul_lt_mono_pos_r; lia).
  assert (H2 : A * T <= (M + 2 ^ k0) * T)
    by (apply Z.mul_le_mono_nonneg_r; lia).
  rewrite Z.mul_sub_distr_r in H1. rewrite Z.mul_add_distr_r in H2.
  rewrite HM in H1, H2.
  change (2 ^ 62) with 4611686018427387904.
  destruct Hk0 as [-> | ->].
  - change (2 ^ 52) with 4503599627370496 in *. lia.
  - change (2 ^ 53) with 9007199254740992 in *.
    change (2 ^ 52) with 4503599627370496 in *. lia.
Qed.

Lemma ltb_by_value (m1 m2 : positive) (e1 e2 b : Z) :
  digits m1 = 53 -> digits m2 = 53 -> b <= e1 -> b <= e2 ->
  Z.pos m1 * 2 ^ (e1 - b) < Z.pos m2 * 2 ^ (e2 - b) ->
  e1 <= e2 /\
  F64.ltb (S754_finite false m1 e1) (S754_finite false m2 e2) = true.
Proof.
  intros D1 D2 H1 H2 Hv.
  pose proof (digits_53_range m1 D1) as R1.
  pose proof (digits_53_range m2 D2) as R2.
  assert (P2 : 0 < 2 ^ (e2 - b)) by (apply Z.pow_pos_nonneg; lia).
  assert (Hle : e1 <= e2).
  { destruct (Z.le_gt_cases e1 e2) as [|Hgt]; trivial. exfalso.
    replace (e1 - b) with ((e1 - e2) + (e2 - b)) in Hv by lia.
    rewrite Z.pow_add_r in Hv by lia.
    assert (Ha : 2 ^ 1 <= 2 ^ (e1 - e2)) by (apply Z.pow_le_mono_r; lia).
    change (2 ^ 1) with 2 in Ha.
    rewrite Z.mul_assoc in Hv.
    apply Z.mul_lt_mono_pos_r in Hv; [|exact P2].
    assert (Z.pos m1 * 2 <= Z.pos m1 * 2 ^ (e1 - e2))
      by (apply Z.mul_le_mono_nonneg_l; lia).
    lia. }
  split; [exact Hle|].
  apply ltb_key; try reflexivity. cbn. right. split; [reflexivity|].
  destruct (Z.eq_dec e1 e2) as [->|Hne]; [right|left; lia].
  split; [reflexivity|].
  apply Z.mul_lt_mono_pos_r in Hv; [exact Hv|exact P2].
Qed.

Lemma of_Z_inf_bound (z : Z) :
  0 < z -> F64.is_inf (F64.of_Z z) = true -> 2 ^ 1023 <= z.
Proof.
  intros Hz. destruct z as [|p|p]; try lia.
  destruct (of_Z_pos p) as (m' & e' & R & D & He & _). rewrite R.
  destruct (Z.leb_spec e' 971) as [H|H]; [discriminate|intros _].
  pose proof (digits_bounds p) as [L _].
  assert (2 ^ 1023 <= 2 ^ (digits p - 1)) by (apply Z.pow_le_mono_r; lia).
  lia.
Qed.

(** ** Exact results *)

Lemma shr_1_spec (m : Z) (r s : bool) :
  0 <= m ->
  shr_1 {| shr_m := m; shr_r := r; shr_s := s |} =
    {| shr_m := m / 2; shr_r := Z.odd m; shr_s := r || s |}.
Proof.
  intros Hm. rewrite <- Z.div2_div.
  destruct m as [|[p|p|]|p]; try reflexivity. lia.
Qed.

(** Shifting out digits that are all zero leaves no remainder behind. *)
Lemma shr_exact (k : nat) (m : Z) :
  0 <= m -> m mod 2 ^ Z.of_nat k = 0 ->
  Nat.iter k shr_1 {| shr_m := m; shr_r := false; shr_s := false |} =
    {| shr_m := m / 2 ^ Z.of_nat k; shr_r := false; shr_s := false |}.
Proof.
  intros Hm. induction k as [|k IH]; intros Hdiv.
  - cbn. now rewrite Z.div_1_r.
  - rewrite Nat2Z.inj_succ, Z.pow_succ_r in * by lia.
    assert (P : 0 < 2 ^ Z.of_nat k) by (apply Z.pow_pos_nonneg; lia).
    apply Z.mod_divide in Hdiv; [|lia]. destruct Hdiv as [c Hc].
    assert (Hk : m mod 2 ^ Z.of_nat k = 0).
    { apply Z.mod_divide; [lia|]. exists (c * 2). lia. }
    assert (Hq : m / 2 ^ Z.of_nat k = c * 2).
    { rewrite Hc. replace (c * (2 * 2 ^ Z.of_nat k))
        with (c * 2 * 2 ^ Z.of_nat k) by ring.
      apply Z.div_mul. lia. }
    rewrite Nat.iter_succ, IH by exact Hk.
    rewrite shr_1_spec by (apply Z.div_pos; lia).
    rewrite Hq. f_equal.
    + rewrite Z.div_mul by lia.
      rewrite Hc. replace (c * (2 * 2 ^ Z.of_nat k))
        with (c * (2 * 2 ^ Z.of_nat k)) by ring.
      symmetry. apply Z.div_mul. lia.
    + rewrite Z.mul_comm. apply Z.odd_even.
Qed.

(** A mantissa whose digits beyond the 53rd are all zero is rounded to
    itself. *)
Lemma round_aux_exact (sx : bool) (m c : positive) (E k : Z) :
  0 <= k -> Z.pos m = Z.pos c * 2 ^ k -> digits c = 53 ->
  -1074 <= E + k <= 971 ->
  binary_round_aux F64.prec F64.emax sx (Z.pos m) E loc_Exact =
    S754_finite sx c (E + k).
Proof.
  intros Hk Hm Dc HE.
  pose proof (digits_53_range c Dc) as Rc.
  assert (P : 0 < 2 ^ k) by (apply Z.pow_pos_nonneg; lia).
  assert (Dm : digits m = 53 + k).
  { apply digits_unique. rewrite Hm.
    replace (53 + k - 1) with (52 + k) by lia.
    rewrite !Z.pow_add_r by lia.
    change (2 ^ 52) with 4503599627370496.
    change (2 ^ 53) with 9007199254740992.
    split; [apply Z.mul_le_mono_nonneg_r|apply Z.mul_lt_mono_pos_r]; lia. }
  unfold binary_round_aux, shr_fexp.
  change (Zdigits2 (Z.pos m)) with (digits m). rewrite Dm.
  rewrite fexp_normal by lia.
  replace (53 + k + E - 53 - E) with k by lia.
  cbn [shr_record_of_loc].
  assert (S1 : shr {| shr_m := Z.pos m; shr_r := false; shr_s := false |}
                 E k =
               ({| shr_m := Z.pos c; shr_r := false; shr_s := false |},
                E + k)).
  { destruct k as [|pk|pk]; try lia.
    - cbn [shr]. rewrite Hm. change (2 ^ 0) with 1.
      rewrite Z.mul_1_r, Z.add_0_r. reflexivity.
    - cbn [shr]. rewrite iter_pos_nat, shr_exact; try lia.
      + rewrite positive_nat_Z, Hm, Z.div_mul by lia. reflexivity.
      + rewrite positive_nat_Z, Hm. apply Z.mod_mul. lia. }
  rewrite S1. cbn [shr_m loc_of_shr_record round_nearest_even].
  change (Zdigits2 (Z.pos c)) with (digits c). rewrite Dc.
  rewrite fexp_normal by lia.
  replace (53 + (E + k) - 53 - (E + k)) with 0 by lia.
  cbn [shr shr_m].
  change (F64.emax - F64.prec) with 971.
  replace (E + k <=? 971) with true by (symmetry; apply Z.leb_le; lia).
  reflexivity.
Qed.

(** [binary_round] returns the normal form of a value that has one: 53
    digits of mantissa [c] and an exponent [ec] in range. *)
Lemma binary_round_canonical (sx : bool) (m c : positive) (e ec b : Z) :
  b <= e -> b <= ec ->
  Z.pos m * 2 ^ (e - b) = Z.pos c * 2 ^ (ec - b) ->
  digits c = 53 -> -1074 <= ec <= 971 ->
  binary_round F64.prec F64.emax sx m e = S754_finite sx c ec.
Proof.
  intros Hbe Hbc Hv Dc Hec.
  pose proof (digits_53_range c Dc) as Rc.
  pose proof (digits_bounds m) as [Lm Um].
  pose proof (digits_pos m) as Hd.
  assert (Pe : 0 < 2 ^ (e - b)) by (apply Z.pow_pos_nonneg; lia).
  assert (Pc : 0 < 2 ^ (ec - b)) by (apply Z.pow_pos_nonneg; lia).
  assert (Hde : digits m + e = 53 + ec).
  { assert (A : 2 ^ (digits m - 1 + (e - b)) < 2 ^ (53 + (ec - b))).
    { rewrite !Z.pow_add_r by lia.
      change (2 ^ 53) with 9007199254740992.
      apply Z.le_lt_trans with (Z.pos m * 2 ^ (e - b)).
      - apply Z.mul_le_mono_nonneg_r; lia.
      - rewrite Hv. apply Z.mul_lt_mono_pos_r; lia. }
    assert (B : 2 ^ (52 + (ec - b)) < 2 ^ (digits m + (e - b))).
    { rewrite !Z.pow_add_r by lia.
      change (2 ^ 52) with 4503599627370496.
      apply Z.le_lt_trans with (Z.pos c * 2 ^ (ec - b)).
      - apply Z.mul_le_mono_nonneg_r; lia.
      - rewrite <- Hv. apply Z.mul_lt_mono_pos_r; lia. }
    apply Z.pow_lt_mono_r_iff in A; [|lia|lia].
    apply Z.pow_lt_mono_r_iff in B; [|lia|lia].
    lia. }
  unfold binary_round, shl_align.
  change (Z.pos (digits2_pos m)) with (digits m).
  rewrite fexp_normal by lia.
  replace (digits m + e - 53) with ec by lia.
  destruct (ec - e) as [|pk|pk] eqn:Ek.
  - (* no shift *)
    replace ec with (e + 0) by lia.
    apply round_aux_exact; try lia.
    replace (e - b) with (ec - b) in Hv by lia.
    apply Z.mul_cancel_r in Hv; lia.
  - (* digits to drop, all zero *)
    replace ec with (e + Z.pos pk) by lia.
    apply round_aux_exact; try lia.
    replace (ec - b) with (Z.pos pk + (e - b)) in Hv by lia.
    rewrite Z.pow_add_r, Z.mul_assoc in Hv by lia.
    apply Z.mul_cancel_r in Hv; lia.
  - (* the mantissa is shifted up to 53 digits *)
    assert (Hc : Pos.iter xO m pk = c).
    { apply Pos2Z.inj. rewrite iter_xO.
      replace (e - b) with (Z.pos pk + (ec - b)) in Hv by lia.
      rewrite Z.pow_add_r, Z.mul_assoc in Hv by lia.
      apply Z.mul_cancel_r in Hv; lia. }
    rewrite Hc. replace ec with (ec + 0) at 2 by lia.
    apply round_aux_exact; try lia.
Qed.

Lemma mantissa_of_spec (z : positive) :
  Z.pos z < 2 ^ 53 ->
  0 <= 53 - digits z /\
  Z.pos (mantissa_of z) = Z.pos z * 2 ^ (53 - digits z) /\
  digits (mantissa_of z) = 53.
Proof.
  intros Hz. pose proof (digits_bounds z) as [L U].
  pose proof (digits_pos z) as Hd.
  assert (Hd53 : digits z <= 53).
  { destruct (Z.le_gt_cases (digits z) 53) as [|N]; trivial.
    assert (2 ^ 53 <= 2 ^ (digits z - 1)) by (apply Z.pow_le_mono_r; lia).
    lia. }
  assert (P : 0 < 2 ^ (53 - digits z)) by (apply Z.pow_pos_nonneg; lia).
  assert (E : Z.pos (mantissa_of z) = Z.pos z * 2 ^ (53 - digits z)).
  { unfold mantissa_of. rewrite Z2Pos.id; [reflexivity|]. lia. }
  split; [lia|]. split; [exact E|].
  apply digits_unique. rewrite E.
  assert (E1 : 2 ^ (53 - 1) = 2 ^ (digits z - 1) * 2 ^ (53 - digits z)).
  { rewrite <- Z.pow_add_r by lia. f_equal. lia. }
  assert (E2 : 2 ^ 53 = 2 ^ digits z * 2 ^ (53 - digits z)).
  { rewrite <- Z.pow_add_r by lia. f_equal. lia. }
  rewrite E1, E2.
  split; [apply Z.mul_le_mono_nonneg_r|apply Z.mul_lt_mono_pos_r]; lia.
Qed.

Lemma binary_round_int (sx : bool) (z : positive) :
  Z.pos z < 2 ^ 53 ->
  binary_round F64.prec F64.emax sx z 0 =
    S754_finite sx (mantissa_of z) (exponent_of z).
Proof.
  intros Hz. destruct (mantissa_of_spec z Hz) as (Hd & E & D).
  pose proof (digits_pos z) as Hd1. unfold exponent_of.
  apply (binary_round_canonical sx z (mantissa_of z) 0 (digits z - 53)
           (digits z - 53)); try lia.
  rewrite E, Z.sub_diag. change (2 ^ 0) with 1.
  replace (0 - (digits z - 53)) with (53 - digits z) by lia. lia.
Qed.

Lemma of_Z_exact (z : positive) :
  Z.pos z < 2 ^ 53 ->
  F64.of_Z (Z.pos z) = S754_finite false (mantissa_of z) (exponent_of z).
Proof. apply binary_round_int. Qed.

Lemma of_Z_exact_neg (z : positive) :
  Z.pos z < 2 ^ 53 ->
  F64.of_Z (Z.neg z) = S754_finite true (mantissa_of z) (exponent_of z).
Proof. apply binary_round_int. Qed.

Lemma shl_align_value (mx : positive) (ex ez : Z) :
  ez <= ex ->
  Z.pos (fst (shl_align mx ex ez)) = Z.pos mx * 2 ^ (ex - ez).
Proof.
  intros H. unfold shl_align.
  destruct (ez - ex) as [|p|p] eqn:E; cbn [fst]; try lia.
  - replace (ex - ez) with 0 by lia. change (2 ^ 0) with 1. lia.
  - rewrite iter_xO. f_equal. f_equal. lia.
Qed.

(** The value [w * 2 ^ ez] of an integer multiple of a negative power of
    two, when it is an integer below [2 ^ 53], is rounded to the normal form
    of that integer. *)
Lemma binary_round_scaled (sx : bool) (p w : positive) (ez : Z) :
  ez <= 0 -> Z.pos p = Z.pos w * 2 ^ (- ez) -> Z.pos w < 2 ^ 53 ->
  binary_round F64.prec F64.emax sx p ez =
    S754_finite sx (mantissa_of w) (exponent_of w).
Proof.
  intros Hez Hp Hw. destruct (mantissa_of_spec w Hw) as (Hd & E & D).
  pose proof (digits_pos w) as Hd1.
  set (b := Z.min ez (exponent_of w)).
  unfold exponent_of in *.
  apply (binary_round_canonical sx p (mantissa_of w) ez (digits w - 53) b);
    try (unfold b; lia).
  rewrite Hp, E, <- !Z.mul_assoc, <- !Z.pow_add_r by (unfold b; lia).
  f_equal. f_equal. lia.
Qed.

(** The difference of two integers below [2 ^ 53] is computed exactly. *)
Lemma sub_int (t u : positive) :
  Z.pos t < 2 ^ 53 -> Z.pos u < 2 ^ 53 ->
  F64.sub (F64.of_Z (Z.pos t)) (F64.of_Z (Z.pos u)) =
    F64.of_Z (Z.pos t - Z.pos u).
Proof.
  intros Ht Hu. rewrite (of_Z_exact t Ht), (of_Z_exact u Hu).
  destruct (mantissa_of_spec t Ht) as (Hdt & Et & Dt).
  destruct (mantissa_of_spec u Hu) as (Hdu & Eu & Du).
  unfold F64.sub, SFsub. cbn [cond_Zopp].
  set (ez := Z.min (exponent_of t) (exponent_of u)).
  assert (Hez : ez <= exponent_of t /\ ez <= exponent_of u /\ ez <= 0)
    by (unfold ez, exponent_of; lia).
  rewrite !shl_align_value by lia.
  assert (Vt : Z.pos (mantissa_of t) * 2 ^ (exponent_of t - ez)
               = Z.pos t * 2 ^ (- ez)).
  { rewrite Et, <- Z.mul_assoc, <- Z.pow_add_r
      by (unfold exponent_of in *; lia).
    f_equal. f_equal. unfold exponent_of. lia. }
  assert (Vu : Z.pos (mantissa_of u) * 2 ^ (exponent_of u - ez)
               = Z.pos u * 2 ^ (- ez)).
  { rewrite Eu, <- Z.mul_assoc, <- Z.pow_add_r
      by (unfold exponent_of in *; lia).
    f_equal. f_equal. unfold exponent_of. lia. }
  rewrite Vt, Vu, <- Z.mul_sub_distr_r.
  assert (P : 0 < 2 ^ (- ez)) by (apply Z.pow_pos_nonneg; lia).
  clearbody ez.
  unfold F64.of_Z, binary_normalize.
  destruct (Z.pos t - Z.pos u) as [|w|w] eqn:Ew.
  - reflexivity.
  - assert (Hw : Z.pos w < 2 ^ 53) by lia.
    destruct (Z.pos w * 2 ^ (- ez)) as [|p|p] eqn:Ep; try lia.
    rewrite (binary_round_scaled false p w ez), (binary_round_int false w);
      trivial; try lia.
  - assert (Hw : Z.pos w < 2 ^ 53) by lia.
    destruct (Z.neg w * 2 ^ (- ez)) as [|p|p] eqn:Ep; try lia.
    rewrite (binary_round_scaled true p w ez), (binary_round_int true w);
      trivial; try lia.
Qed.

Lemma new_location_scale (nb r j : Z) :
  0 < nb -> 0 <= r < nb -> 0 <= j ->
  new_location (nb * 2 ^ j) (r * 2 ^ j) = new_location nb r.
Proof.
  intros Hnb Hr Hj.
  destruct (Z.eq_dec j 0) as [->|Hj0].
  { change (2 ^ 0) with 1. now rewrite !Z.mul_1_r. }
  assert (P : 0 < 2 ^ j) by (apply Z.pow_pos_nonneg; lia).
  assert (Ev : Z.even (nb * 2 ^ j) = true).
  { rewrite Z.even_mul. replace j with (Z.succ (j - 1)) by lia.
    rewrite Z.pow_succ_r, Z.even_mul by lia. cbn. apply orb_true_r. }
  unfold new_location. rewrite Ev. unfold new_location_even.
  assert (Z0 : (r * 2 ^ j =? 0) = (r =? 0)).
  { destruct (Z.eqb_spec r 0) as [->|Hr0]; [reflexivity|].
    apply Z.eqb_neq. nia. }
  assert (C : (2 * r * 2 ^ j ?= nb * 2 ^ j) = (2 * r ?= nb)).
  { destruct (Z.compare_spec (2 * r * 2 ^ j) (nb * 2 ^ j)),
      (Z.compare_spec (2 * r) nb); try reflexivity; nia. }
  rewrite Z0, Z.mul_assoc, C.
  destruct (Z.even nb) eqn:En; [reflexivity|].
  unfold new_location_odd. destruct (r =? 0); [reflexivity|].
  assert (Ho : Z.odd nb = true) by (rewrite <- Z.negb_even, En; reflexivity).
  apply Z.odd_spec in Ho. destruct Ho as [a Ha].
  destruct (Z.compare_spec (2 * r) nb), (Z.compare_spec (2 * r + 1) nb);
    try reflexivity; lia.
Qed.

(** The quotient of two positive integers below [2 ^ 53] is the binary64
    quotient of their conversions, and it is finite. *)
Lemma div_int (t u : positive) :
  Z.pos t < 2 ^ 53 -> Z.pos u < 2 ^ 53 ->
  F64.div_Z (Z.pos t) (Z.pos u) =
    F64.div (F64.of_Z (Z.pos t)) (F64.of_Z (Z.pos u)) /\
  F64.is_inf (F64.div_Z (Z.pos t) (Z.pos u)) = false.
Proof.
  intros Ht Hu. rewrite (of_Z_exact t Ht), (of_Z_exact u Hu).
  destruct (mantissa_of_spec t Ht) as (Hdt & Et & Dt).
  destruct (mantissa_of_spec u Hu) as (Hdu & Eu & Du).
  pose proof (digits_bounds t) as [Lt Ut].
  pose proof (digits_bounds u) as [Lu Uu].
  pose proof (digits_pos t) as Hd1. pose proof (digits_pos u) as Hd2.
  change (F64.div_Z (Z.pos t) (Z.pos u))
    with (F64.div (S754_finite false t 0) (S754_finite false u 0)).
  unfold F64.div, SFdiv. cbn [xorb].
  set (s := 53 + digits u - digits t).
  set (j := 53 - digits u).
  assert (Hs : 0 < s) by (unfold s; lia).
  assert (Pj : 0 < 2 ^ j) by (apply Z.pow_pos_nonneg; unfold j; lia).
  assert (Ps : 0 < 2 ^ s) by (apply Z.pow_pos_nonneg; lia).
  (* the division of the integers *)
  assert (C1 : SFdiv_core_binary F64.prec F64.emax (Z.pos t) 0 (Z.pos u) 0
               = ((Z.pos t * 2 ^ s) / Z.pos u, digits t - digits u - 53,
                  new_location (Z.pos u) ((Z.pos t * 2 ^ s) mod Z.pos u))).
  { unfold SFdiv_core_binary.
    change (Zdigits2 (Z.pos t)) with (digits t).
    change (Zdigits2 (Z.pos u)) with (digits u).
    rewrite !Z.add_0_r, Z.sub_0_r, fexp_normal by lia.
    rewrite Z.min_l by lia.
    replace (0 - (digits t - digits u - 53)) with s by (unfold s; lia).
    destruct s as [|ps|ps] eqn:Es; try lia.
    rewrite Z.shiftl_mul_pow2, div_eucl_div_mod by lia. reflexivity. }
  (* the division of the normal forms *)
  assert (C2 : SFdiv_core_binary F64.prec F64.emax
                 (Z.pos (mantissa_of t)) (exponent_of t)
                 (Z.pos (mantissa_of u)) (exponent_of u)
               = ((Z.pos t * 2 ^ s) / Z.pos u, digits t - digits u - 53,
                  new_location (Z.pos u) ((Z.pos t * 2 ^ s) mod Z.pos u))).
  { unfold SFdiv_core_binary, exponent_of.
    change (Zdigits2 (Z.pos (mantissa_of t))) with (digits (mantissa_of t)).
    change (Zdigits2 (Z.pos (mantissa_of u))) with (digits (mantissa_of u)).
    rewrite Dt, Du.
    replace (53 + (digits t - 53) - (53 + (digits u - 53)))
      with (digits t - digits u) by lia.
    rewrite fexp_normal by lia.
    replace (digits t - 53 - (digits u - 53)) with (digits t - digits u)
      by lia.
    rewrite Z.min_l by lia.
    replace (digits t - digits u - (digits t - digits u - 53)) with 53
      by lia.
    rewrite Z.shiftl_mul_pow2, div_eucl_div_mod by lia.
    assert (A : Z.pos (mantissa_of t) * 2 ^ 53
                = Z.pos t * 2 ^ s * 2 ^ j).
    { rewrite Et, <- !Z.mul_assoc, <- !Z.pow_add_r by (unfold j; lia).
      f_equal. f_equal. unfold s, j. lia. }
    rewrite A, Eu. fold j.
    rewrite Z.div_mul_cancel_r, Z.mul_mod_distr_r by lia.
    rewrite new_location_scale; try (unfold j; lia).
    - reflexivity.
    - apply Z.mod_pos_bound. lia. }
  rewrite C1, C2. split; [reflexivity|].
  (* the quotient has 53 or 54 digits *)
  set (q := Z.pos t * 2 ^ s / Z.pos u).
  assert (Hq : 2 ^ 52 <= q).
  { apply Z.div_le_lower_bound; [lia|].
    apply Z.le_trans with (2 ^ (digits t - 1) * 2 ^ s).
    - rewrite <- Z.pow_add_r by lia.
      replace (digits t - 1 + s) with (digits u + 52) by (unfold s; lia).
      rewrite Z.pow_add_r by lia. nia.
    - apply Z.mul_le_mono_nonneg_r; lia. }
  assert (Hq' : q < 2 ^ 55).
  { apply Z.div_lt_upper_bound; [lia|].
    apply Z.lt_le_trans with (2 ^ digits t * 2 ^ s).
    - apply Z.mul_lt_mono_pos_r; lia.
    - rewrite <- Z.pow_add_r by lia.
      replace (digits t + s) with ((digits u - 1) + 54) by (unfold s; lia).
      rewrite Z.pow_add_r by lia.
      change (2 ^ 55) with (2 ^ 54 * 2). nia. }
  destruct q as [|mq|mq] eqn:Eq;
    try (change (2 ^ 52) with 4503599627370496 in Hq; lia).
  assert (Dq : 53 <= digits mq <= 55).
  { pose proof (digits_bounds mq) as [Lq Uq]. split.
    - destruct (Z.le_gt_cases 53 (digits mq)) as [|N]; trivial.
      assert (2 ^ digits mq <= 2 ^ 52) by (apply Z.pow_le_mono_r; lia).
      lia.
    - destruct (Z.le_gt_cases (digits mq) 55) as [|N]; trivial.
      assert (2 ^ 55 <= 2 ^ (digits mq - 1))
        by (apply Z.pow_le_mono_r; lia).
      lia. }
  destruct (round_aux_value false mq (digits t - digits u - 53)
              (new_location (Z.pos u) ((Z.pos t * 2 ^ s) mod Z.pos u)))
    as (m' & k & R & _ & Hk & _); try lia.
  rewrite R.
  replace (digits t - digits u - 53 + k <=? 971) with true
    by (symmetry; apply Z.leb_le; lia).
  reflexivity.
Qed.

(** ** Construction *)

(** The literals are the correctly rounded quotients the decimal notation
    stands for. *)
Example literals_are_nearest :
  Lit.f9_35 = F64.div_Z 935 100 /\
  Lit.f47_4 = F64.div_Z 474 10 /\
  Lit.f545_82 = F64.div_Z 54582 100 /\
  Lit.f0_037 = F64.div_Z 37 1000 /\
  Lit.f1_60217646e_19 = F64.div_Z 160217646 (10 ^ 27) /\
  Lit.f1_0 = F64.of_Z 1 /\
  Lit.f1_3806503e_23 = F64.div_Z 13806503 (10 ^ 30) /\
  Lit.f1_1 = F64.div_Z 11 10 /\
  Lit.f0_39 = F64.div_Z 39 100 /\
  Spec.T_ref = F64.of_Z 298 /\
  Spec.f1000 = F64.of_Z 1000.
Proof. repeat split; vm_compute; reflexivity. Qed.

Lemma init_pv43 : __init__ (VInt 4) (VInt 3) = Ok Demo.pv43.
Proof. vm_compute. reflexivity. Qed.

Lemma init_int (s p : Z) :
  __init__ (VInt s) (VInt p) =
    if F64.is_inf (F64.of_Z p) then Raise OverflowError
    else if F64.is_inf (F64.of_Z s) then Raise OverflowError
    else Ok {| R_sh := Lit.f545_82;
               k_i := Lit.f0_037;
               T_n := 298;
               q := Lit.f1_60217646e_19;
               n := Lit.f1_0;
               K := Lit.f1_3806503e_23;
               E_g0 := Lit.f1_1;
               R_s := Lit.f0_39;
               num_panels_series := VInt s;
               num_panels_parallel := VInt p;
               I_sc := F64.mul Lit.f9_35 (F64.of_Z p);
               V_oc := F64.mul Lit.f47_4 (F64.of_Z s);
               N_s := NInt (72 * s) |}.
Proof.
  unfold __init__, Py.fmul, Py.to_float, Py.as_num, Py.mul, Py.lift2, bind.
  destruct (F64.is_inf (F64.of_Z p)); [reflexivity|].
  destruct (F64.is_inf (F64.of_Z s)); reflexivity.
Qed.

(** C4. For positive integers [s] and [p], the model built by
    [PVModel(s, p)] has [I_sc = 9.35 * p], [V_oc = 47.4 * s] (binary64
    products) and [N_s = 72 * s] (an integer product).  The constructor
    fails on such integers only with [OverflowError], and only when one of
    them is beyond the binary64 range, [2 ^ 1023] or more. *)
Theorem C4_init_derived_fields (s p : Z) :
  0 < s -> 0 < p ->
  match __init__ (VInt s) (VInt p) with
  | Ok pv =>
      I_sc pv = F64.mul Lit.f9_35 (F64.of_Z p) /\
      V_oc pv = F64.mul Lit.f47_4 (F64.of_Z s) /\
      N_s pv = NInt (72 * s) /\
      num_panels_series pv = VInt s /\
      num_panels_parallel pv = VInt p
  | Raise e => e = OverflowError /\ (2 ^ 1023 <= p \/ 2 ^ 1023 <= s)
  end.
Proof.
  intros Hs Hp. rewrite init_int.
  destruct (F64.is_inf (F64.of_Z p)) eqn:Ep.
  { split; [reflexivity|]. left. now apply of_Z_inf_bound. }
  destruct (F64.is_inf (F64.of_Z s)) eqn:Es.
  { split; [reflexivity|]. right. now apply of_Z_inf_bound. }
  cbn. repeat split; reflexivity.
Qed.

Lemma C4_init_derived_fields_witness :
  match __init__ (VInt 4) (VInt 3) with
  | Ok pv =>
      I_sc pv = F64.mul Lit.f9_35 (F64.of_Z 3) /\
      V_oc pv = F64.mul Lit.f47_4 (F64.of_Z 4) /\
      N_s pv = NInt (72 * 4) /\
      num_panels_series pv = VInt 4 /\
      num_panels_parallel pv = VInt 3
  | Raise e => e = OverflowError /\ (2 ^ 1023 <= 3 \/ 2 ^ 1023 <= 4)
  end.
Proof. apply (C4_init_derived_fields 4 3); lia. Defined.

(** The products of the scenario of [main]: [9.35 * 3] is the binary64
    number just below 28.05, and [47.4 * 4] is the one nearest to 189.6. *)
Example derived_fields_of_main :
  I_sc Demo.pv43 = S754_finite false 7895373096733900 (-48) /\
  F64.ltb (I_sc Demo.pv43) (F64.div_Z 2805 100) = true /\
  V_oc Demo.pv43 = F64.div_Z 1896 10.
Proof. repeat split; vm_compute; reflexivity. Qed.

(** ** Validation *)

Lemma not_positive_number (v : value) :
  not_positive Py.is_int_or_float v = Ok (failed_check Py.is_int_or_float v).
Proof. destruct v as [z|[]|x|s|]; reflexivity. Qed.

Lemma not_positive_int (v : value) :
  not_positive Py.is_int v = Ok (failed_check Py.is_int v).
Proof. destruct v as [z|[]|x|s|]; reflexivity. Qed.

Lemma validate_inputs_eq (self : PVModel) (G T : value) :
  validate_inputs self G T =
    if failed_check Py.is_int_or_float G
    then Raise (ValueError Msg.irradiancia)
    else if failed_check Py.is_int_or_float T
    then Raise (ValueError Msg.temperatura)
    else if failed_check Py.is_int (num_panels_series self)
    then Raise (ValueError Msg.serie)
    else if failed_check Py.is_int (num_panels_parallel self)
    then Raise (ValueError Msg.paralelo)
    else Ok tt.
Proof.
  unfold validate_inputs.
  rewrite !not_positive_number, !not_positive_int. cbn [bind].
  repeat match goal with |- context [if ?b then _ else _] =>
    destruct b; try reflexivity end.
Qed.

Lemma modelo_pv_rejects `{NumLib} (self : PVModel) (G T : value) (e : exn) :
  validate_inputs self G T = Raise e -> modelo_pv self G T = Raise e.
Proof. intros E. unfold modelo_pv. rewrite E. reflexivity. Qed.

(** C10. [validate_inputs] checks the irradiance, then the temperature, then
    the number of panels in series, then the number in parallel; the first
    check that fails in this order decides the error that [modelo_pv]
    raises.  In particular an invalid operating condition hides an invalid
    array. *)
Theorem C10_first_failing_check_decides `{NumLib}
    (self : PVModel) (G T : value) :
  let cG := failed_check Py.is_int_or_float G in
  let cT := failed_check Py.is_int_or_float T in
  let cS := failed_check Py.is_int (num_panels_series self) in
  let cP := failed_check Py.is_int (num_panels_parallel self) in
  (cG = true -> modelo_pv self G T = Raise (ValueError Msg.irradiancia)) /\
  (cG = false -> cT = true ->
   modelo_pv self G T = Raise (ValueError Msg.temperatura)) /\
  (cG = false -> cT = false -> cS = true ->
   modelo_pv self G T = Raise (ValueError Msg.serie)) /\
  (cG = false -> cT = false -> cS = false -> cP = true ->
   modelo_pv self G T = Raise (ValueError Msg.paralelo)) /\
  (cG = false -> cT = false -> cS = false -> cP = false ->
   validate_inputs self G T = Ok tt) /\
  ((cG = true \/ cT = true) -> (cS = true \/ cP = true) ->
   Spec.fails_with (modelo_pv self G T) Spec.InvalidOperatingCondition).
Proof.
  intros cG cT cS cP.
  pose proof (validate_inputs_eq self G T) as E.
  fold cG cT cS cP in E.
  repeat split.
  - intros HG. rewrite HG in E. now apply modelo_pv_rejects.
  - intros HG HT. rewrite HG, HT in E. now apply modelo_pv_rejects.
  - intros HG HT HS. rewrite HG, HT, HS in E. now apply modelo_pv_rejects.
  - intros HG HT HS HP. rewrite HG, HT, HS, HP in E.
    now apply modelo_pv_rejects.
  - intros HG HT HS HP. now rewrite HG, HT, HS, HP in E.
  - intros HGT _. destruct cG eqn:HG.
    + exists (ValueError Msg.irradiancia). split; [|reflexivity].
      now apply modelo_pv_rejects.
    + destruct HGT as [HGT|HT]; [discriminate|]. rewrite HT in E.
      exists (ValueError Msg.temperatura). split; [|reflexivity].
      now apply modelo_pv_rejects.
Qed.

Lemma C10_first_failing_check_decides_witness :
  @modelo_pv Demo.stalled
     {| R_sh := Lit.f545_82; k_i := Lit.f0_037; T_n := 298;
        q := Lit.f1_60217646e_19; n := Lit.f1_0; K := Lit.f1_3806503e_23;
        E_g0 := Lit.f1_1; R_s := Lit.f0_39;
        num_panels_series := VInt 0; num_panels_parallel := VInt 3;
        I_sc := F64.mul Lit.f9_35 (F64.of_Z 3);
        V_oc := F64.mul Lit.f47_4 (F64.of_Z 0);
        N_s := NInt 0 |}
     (VInt (-5)) (VInt 298)
  = Raise (ValueError Msg.irradiancia).
Proof.
  apply (@C10_first_failing_check_decides Demo.stalled). reflexivity.
Defined.

Lemma bind_raises {A B : Type} (P : exn -> Prop)
    (m : result A) (k : A -> result B) :
  (forall e, m = Raise e -> P e) ->
  (forall a e, m = Ok a -> k a = Raise e -> P e) ->
  forall e, bind m k = Raise e -> P e.
Proof.
  intros Hm Hk e. destruct m as [a|e']; cbn.
  - now apply Hk.
  - intros [= ->]. now apply Hm.
Qed.

Lemma to_float_raises (x : num) (e : exn) :
  Py.to_float x = Raise e -> numeric_failure e.
Proof.
  destruct x as [z|x]; cbn; [|discriminate].
  destruct (F64.is_inf (F64.of_Z z)); [|discriminate].
  now intros [= <-].
Qed.

Lemma as_num_raises (v : value) (e : exn) :
  Py.as_num v = Raise e -> numeric_failure e.
Proof. destruct v; cbn; try discriminate; now intros [= <-]. Qed.

Lemma fmul_raises (x : float) (b : num) (e : exn) :
  Py.fmul x b = Raise e -> numeric_failure e.
Proof.
  unfold Py.fmul. apply bind_raises.
  - apply to_float_raises.
  - discriminate.
Qed.

Lemma fdiv_raises (x y : float) (e : exn) :
  Py.fdiv x y = Raise e -> numeric_failure e.
Proof.
  unfold Py.fdiv. destruct (F64.is_zero y); [|discriminate].
  now intros [= <-].
Qed.

Lemma lift2_raises fz ff (a b : num) (e : exn) :
  Py.lift2 fz ff a b = Raise e -> numeric_failure e.
Proof.
  destruct a as [x|x], b as [y|y]; cbn -[Py.to_float]; try discriminate.
  all: repeat (apply bind_raises; [apply to_float_raises|intros ? ? _]).
  all: try discriminate.
  all: cbn; discriminate.
Qed.

Lemma truediv_raises (a b : num) (e : exn) :
  Py.truediv a b = Raise e -> numeric_failure e.
Proof.
  assert (G : forall x y : result float,
             (x' <- x ;; y' <- y ;;
              if F64.is_zero y' then Raise ZeroDivisionError
              else Ok (F64.div x' y')) = Raise e ->
             (forall e', x = Raise e' -> numeric_failure e') ->
             (forall e', y = Raise e' -> numeric_failure e') ->
             numeric_failure e).
  { intros [x'|ex] [y'|ey]; cbn; intros E Hx Hy.
    - destruct (F64.is_zero y'); [now injection E as <-|discriminate].
    - injection E as <-. now apply Hy.
    - injection E as <-. now apply Hx.
    - injection E as <-. now apply Hx. }
  destruct a as [x|x], b as [y|y].
  - cbn. destruct (y =? 0); [now intros [= <-]|].
    destruct (F64.is_inf (F64.div_Z x y)); [|discriminate].
    now intros [= <-].
  - intros E. eapply G; [exact E| |]; apply to_float_raises.
  - intros E. eapply G; [exact E| |]; apply to_float_raises.
  - intros E. eapply G; [exact E| |]; apply to_float_raises.
Qed.

Create HintDb raises.

#[local] Hint Resolve to_float_raises as_num_raises fmul_raises fdiv_raises
  lift2_raises truediv_raises : raises.

Ltac raises :=
  repeat first
    [ discriminate
    | apply bind_raises; [eauto with raises; fail | intros ? ? _]
    | solve [eauto with raises] ].

Section AfterValidation.

Context `{NumLib}.

Lemma calc_I_rs_raises self T e :
  calc_I_rs self T = Raise e -> numeric_failure e.
Proof. revert e. unfold calc_I_rs. raises. Qed.

Lemma calc_I_o_raises self I_rs T e :
  calc_I_o self I_rs T = Raise e -> numeric_failure e.
Proof. revert e. unfold calc_I_o. raises. Qed.

Lemma calc_I_ph_raises self G T e :
  calc_I_ph self G T = Raise e -> numeric_failure e.
Proof. revert e. unfold calc_I_ph, Py.sub. raises. Qed.

Lemma f_divisor_raises self T e :
  f_divisor self T = Raise e -> numeric_failure e.
Proof. revert e. unfold f_divisor. raises. Qed.

Lemma fsolve_raises func x0 e :
  Sp.fsolve func x0 = Raise e -> numeric_failure e.
Proof.
  unfold Sp.fsolve. destruct (hybr func x0) as [x st].
  destruct ((1 <=? st) && (st <=? 5)); [discriminate|]. now intros [= <-].
Qed.

Lemma np_mul_raises a b e : Np.mul a b = Raise e -> numeric_failure e.
Proof.
  unfold Np.mul. destruct (_ =? _)%nat; [discriminate|]. now intros [= <-].
Qed.

Lemma loc_raises l col e : Pd.loc l col = Raise e -> numeric_failure e.
Proof.
  unfold Pd.loc. destruct l as [i|]; [|now intros [= <-]].
  destruct (nth_error col i); [discriminate|]. now intros [= <-].
Qed.

Lemma idxmax_numeric col e : Pd.idxmax col = Raise e -> numeric_failure e.
Proof.
  unfold Pd.idxmax. destruct col as [|c col]; [now intros [= <-]|].
  destruct (forallb F64.is_nan (c :: col)); [|discriminate].
  destruct pandas_3; [now intros [= <-]|discriminate].
Qed.

Lemma max_power_point_raises Ipv Vpv Ppv e :
  max_power_point Ipv Vpv Ppv = Raise e -> numeric_failure e.
Proof.
  revert e. unfold max_power_point.
  apply bind_raises; [apply idxmax_numeric|intros label ? _].
  repeat (apply bind_raises; [apply loc_raises|intros ? ? _]).
  discriminate.
Qed.

Lemma modelo_pv_after_validation self G T e :
  validate_inputs self G T = Ok tt ->
  modelo_pv self G T = Raise e -> numeric_failure e.
Proof.
  intros V. unfold modelo_pv. rewrite V. cbn [bind]. revert e.
  apply bind_raises; [apply calc_I_rs_raises|intros I_rs ? _].
  apply bind_raises; [apply calc_I_o_raises|intros I_o ? _].
  apply bind_raises; [apply calc_I_ph_raises|intros I_ph ? _].
  apply bind_raises; [apply f_divisor_raises|intros dv ? _].
  apply bind_raises; [apply fsolve_raises|intros Ipv ? _].
  apply bind_raises; [apply np_mul_raises|intros Ppv ? _].
  apply max_power_point_raises.
Qed.

End AfterValidation.

Lemma leb_zero_not_nan (x : float) :
  F64.is_nan x = false -> F64.leb x F64.zero = negb (F64.ltb F64.zero x).
Proof. destruct x as [[]|[]| |[] m e]; cbn; congruence. Qed.

Lemma failed_check_number (v : value) :
  Spec.is_nan v = false ->
  failed_check Py.is_int_or_float v = negb (Spec.positive_number v).
Proof.
  destruct v as [z|[]|x|s|]; cbn; intros Hn; try reflexivity.
  - apply Z.leb_antisym.
  - now apply leb_zero_not_nan.
Qed.

Lemma failed_check_int (v : value) :
  failed_check Py.is_int v = negb (Spec.positive_int v).
Proof.
  destruct v as [z|[]|x|s|]; cbn; try reflexivity. apply Z.leb_antisym.
Qed.

Lemma fails_with_raise {A : Type} (e : exn) (k : Spec.error) :
  Spec.fails_with (@Raise A e) k <-> Spec.error_of e = Some k.
Proof.
  split.
  - intros [e' [[= <-] He]]. exact He.
  - intros He. now exists e.
Qed.

(** C5, as the program has it.  For an irradiance and a temperature that are
    not NaN, [modelo_pv] raises the error of the operating condition exactly
    when one of them is not a strictly positive [int] or [float] (positive
    infinity passes), and the error of the array exactly when both pass and
    one of the panel counts is not a strictly positive [int]; a rejection is
    the first thing [modelo_pv] does, whatever the numeric libraries are. *)
Theorem C5_validation `{NumLib} (self : PVModel) (G T : value) :
  Spec.is_nan G = false ->
  Spec.is_nan T = false ->
  (Spec.fails_with (modelo_pv self G T) Spec.InvalidOperatingCondition <->
   Spec.positive_number G && Spec.positive_number T = false) /\
  (Spec.fails_with (modelo_pv self G T) Spec.InvalidArrayConfig <->
   Spec.positive_number G && Spec.positive_number T = true /\
   Spec.positive_int (num_panels_series self) &&
   Spec.positive_int (num_panels_parallel self) = false) /\
  (forall e, validate_inputs self G T = Raise e ->
             modelo_pv self G T = Raise e).
Proof.
  intros HG HT.
  pose proof (validate_inputs_eq self G T) as E.
  rewrite (failed_check_number G HG), (failed_check_number T HT),
    !failed_check_int in E.
  split; [|split; [|intros e; apply modelo_pv_rejects]].
  all: destruct (Spec.positive_number G);
    [destruct (Spec.positive_number T);
     [destruct (Spec.positive_int (num_panels_series self));
      [destruct (Spec.positive_int (num_panels_parallel self))|]|]|].
  all: cbn [negb andb] in E |- *.
  all: try (rewrite (modelo_pv_rejects _ _ _ _ E), fails_with_raise;
            vm_compute; intuition congruence).
  all: split; [|intuition congruence].
  all: intros [e [He Hk]]; apply (modelo_pv_after_validation _ _ _ _ E) in He.
  all: unfold numeric_failure in He; congruence.
Qed.

Lemma C5_validation_witness :
  Spec.fails_with (@modelo_pv Demo.stalled Demo.pv43 (VInt 1000) (VInt 0))
    Spec.InvalidOperatingCondition.
Proof.
  apply (@C5_validation Demo.stalled Demo.pv43 (VInt 1000) (VInt 0));
    reflexivity.
Defined.

(** C5 as the specification words it fails on the program: positive infinity
    is not a finite number and is accepted all the same, and with an invalid
    irradiance an invalid array is not reported as such. *)
Lemma C5_infinity_accepted :
  Spec.finite_positive (VFloat F64.pos_inf) = false /\
  validate_inputs Demo.pv43 (VFloat F64.pos_inf) (VInt 298) = Ok tt /\
  (forall L : NumLib,
     ~ Spec.fails_with
         (@modelo_pv L Demo.pv43 (VFloat F64.pos_inf) (VInt 298))
         Spec.InvalidOperatingCondition) /\
  (exists pv, __init__ (VInt 0) (VInt 3) = Ok pv /\
     Spec.positive_int (num_panels_series pv) = false /\
     forall L : NumLib,
       @modelo_pv L pv (VInt (-5)) (VInt 298)
         = Raise (ValueError Msg.irradiancia) /\
       ~ Spec.fails_with (@modelo_pv L pv (VInt (-5)) (VInt 298))
           Spec.InvalidArrayConfig).
Proof.
  split; [reflexivity|]. split; [reflexivity|]. split.
  - intros L [e [He Hk]].
    apply (@modelo_pv_after_validation L) in He; [|reflexivity].
    unfold numeric_failure in He. congruence.
  - pose (pv0 := {| R_sh := Lit.f545_82; k_i := Lit.f0_037; T_n := 298;
                    q := Lit.f1_60217646e_19; n := Lit.f1_0;
                    K := Lit.f1_3806503e_23; E_g0 := Lit.f1_1;
                    R_s := Lit.f0_39;
                    num_panels_series := VInt 0;
                    num_panels_parallel := VInt 3;
                    I_sc := F64.mul Lit.f9_35 (F64.of_Z 3);
                    V_oc := F64.mul Lit.f47_4 (F64.of_Z 0);
                    N_s := NInt (72 * 0) |}).
    exists pv0. split; [rewrite init_int; reflexivity|].
    split; [reflexivity|]. intros L.
    assert (E : @modelo_pv L pv0 (VInt (-5)) (VInt 298)
                = Raise (ValueError Msg.irradiancia))
      by (apply modelo_pv_rejects; reflexivity).
    split; [exact E|]. rewrite E, fails_with_raise. discriminate.
Qed.

(** NaN is neither positive nor rejected: the comparison [G <= 0] is false
    for it. *)
Example nan_passes_validation :
  Spec.positive_number (VFloat S754_nan) = false /\
  validate_inputs Demo.pv43 (VFloat S754_nan) (VInt 298) = Ok tt /\
  validate_inputs Demo.pv43 (VInt 1000) (VFloat S754_nan) = Ok tt.
Proof. repeat split. Qed.

(** ** The three currents *)

Lemma init_int_inv (s p : Z) (pv : PVModel) :
  __init__ (VInt s) (VInt p) = Ok pv ->
  pv = {| R_sh := Lit.f545_82;
          k_i := Lit.f0_037;
          T_n := 298;
          q := Lit.f1_60217646e_19;
          n := Lit.f1_0;
          K := Lit.f1_3806503e_23;
          E_g0 := Lit.f1_1;
          R_s := Lit.f0_39;
          num_panels_series := VInt s;
          num_panels_parallel := VInt p;
          I_sc := F64.mul Lit.f9_35 (F64.of_Z p);
          V_oc := F64.mul Lit.f47_4 (F64.of_Z s);
          N_s := NInt (72 * s) |}.
Proof.
  rewrite init_int.
  destruct (F64.is_inf (F64.of_Z p)); [discriminate|].
  destruct (F64.is_inf (F64.of_Z s)); [discriminate|].
  now intros [= <-].
Qed.

Lemma positive_not_zero (x : float) :
  F64.ltb F64.zero x = true -> F64.is_zero x = false.
Proof. destruct x as [[]|[]| |[] m e]; cbn; congruence. Qed.

Lemma valid_number_intro (v : value) :
  Spec.finite_positive v = true -> Spec.fits_float v = true ->
  exists nv, valid_number v nv.
Proof.
  destruct v as [z|b|x|s|]; cbn; try discriminate; intros Hp Hf.
  - destruct z as [|z|z]; try discriminate.
    exists (NInt (Z.pos z)). constructor. now apply Z.ltb_lt.
  - apply andb_prop in Hp as [_ Hp]. exists (NFloat x). constructor.
    now apply positive_not_zero.
Qed.

Lemma of_Z_small_finite (z : Z) :
  Z.abs z < 2 ^ 53 -> F64.is_inf (F64.of_Z z) = false.
Proof.
  destruct z as [|z|z]; intros Hz.
  - reflexivity.
  - now rewrite of_Z_exact.
  - now rewrite of_Z_exact_neg.
Qed.

Lemma to_float_int (z : Z) :
  Z.abs z < 2 ^ 53 -> Py.to_float (NInt z) = Ok (F64.of_Z z).
Proof.
  intros Hz. unfold Py.to_float. now rewrite of_Z_small_finite.
Qed.

Lemma of_Z_not_zero (z : positive) :
  Z.pos z < 2 ^ 53 -> F64.is_zero (F64.of_Z (Z.pos z)) = false.
Proof. intros Hz. now rewrite of_Z_exact. Qed.

Section ValidNumber.

Variables (v : value) (nv : num).
Hypothesis Hv : valid_number v nv.

Lemma as_num_valid : Py.as_num v = Ok nv.
Proof. destruct Hv; reflexivity. Qed.

Lemma to_float_valid : Py.to_float nv = Ok (Spec.as_float v).
Proof. destruct Hv; [apply to_float_int; lia|reflexivity]. Qed.

(** [v / u] for a positive [int] [u] *)
Lemma truediv_by_int (u : positive) :
  Z.pos u < 2 ^ 53 ->
  Py.truediv nv (NInt (Z.pos u)) =
    Ok (F64.div (Spec.as_float v) (F64.of_Z (Z.pos u))).
Proof.
  intros Hu. destruct Hv as [z Hz|x Hx].
  - unfold Py.truediv. change (Z.pos u =? 0) with false. cbv iota.
    destruct (div_int z u Hz Hu) as [E F]. rewrite F, E. reflexivity.
  - unfold Py.truediv. rewrite to_float_int by lia. cbn [Py.to_float bind].
    rewrite of_Z_not_zero by exact Hu. reflexivity.
Qed.

(** [1 / v] *)
Lemma truediv_one_by : Py.truediv (NInt 1) nv =
  Ok (F64.div F64.one (Spec.as_float v)).
Proof.
  destruct Hv as [z Hz|x Hx].
  - unfold Py.truediv. change (Z.pos z =? 0) with false. cbv iota.
    destruct (div_int 1 z) as [E F]; [reflexivity|exact Hz|].
    rewrite F, E. reflexivity.
  - unfold Py.truediv. cbn [bind].
    change (Py.to_float (NInt 1)) with (Ok F64.one).
    cbn [Py.to_float bind]. rewrite Hx. reflexivity.
Qed.

(** [v - u] for a positive [int] [u], then its conversion *)
Lemma sub_int_valid (u : positive) :
  Z.pos u < 2 ^ 53 ->
  exists d,
    Py.sub nv (NInt (Z.pos u)) = Ok d /\
    Py.to_float d = Ok (F64.sub (Spec.as_float v) (F64.of_Z (Z.pos u))).
Proof.
  intros Hu. destruct Hv as [z Hz|x Hx].
  - exists (NInt (Z.pos z - Z.pos u)). split; [reflexivity|].
    cbn [Spec.as_float]. rewrite sub_int by assumption.
    apply to_float_int. lia.
  - exists (NFloat (F64.sub x (F64.of_Z (Z.pos u)))). split; [|reflexivity].
    unfold Py.sub, Py.lift2. rewrite to_float_int by lia. reflexivity.
Qed.

End ValidNumber.

Section Lines.

Context `{NumLib}.
Variables (s p : Z) (pv : PVModel) (T : value) (t : num).
Hypothesis Hpv : __init__ (VInt s) (VInt p) = Ok pv.
Hypothesis VT : valid_number T t.

(** Line 56 against the formula of [I_rs]. *)
Lemma calc_I_rs_formula :
  let Tf := Spec.as_float T in
  let Ns := F64.of_Z (72 * s) in
  let divisor := F64.mul (F64.mul (F64.mul (n pv) Ns) (K pv)) Tf in
  calc_I_rs pv T =
    (if F64.is_inf Ns then Raise OverflowError
     else if F64.is_zero divisor then Raise ZeroDivisionError
     else Ok (Spec.I_rs pv Ns Tf)).
Proof.
  intros Tf Ns divisor. apply init_int_inv in Hpv. subst pv.
  unfold calc_I_rs, Spec.I_rs, Py.fmul, Py.fdiv.
  cbn [N_s n K q V_oc I_sc Py.to_float bind].
  fold Ns. destruct (F64.is_inf Ns); [reflexivity|].
  cbn [bind]. rewrite (as_num_valid T t VT). cbn [bind].
  rewrite (to_float_valid T t VT). cbn [bind]. fold Tf.
  subst divisor. cbn [n K].
  match goal with |- context [F64.is_zero ?d] =>
    destruct (F64.is_zero d) end; reflexivity.
Qed.

(** Line 58 against the formula of [I_o]. *)
Lemma calc_I_o_formula (i_rs : float) :
  calc_I_o pv i_rs T = Ok (Spec.I_o pv i_rs (Spec.as_float T)).
Proof.
  apply init_int_inv in Hpv. subst pv.
  unfold calc_I_o, Spec.I_o, Py.fdiv.
  cbn [T_n n K q E_g0]. rewrite (as_num_valid T t VT). cbn [bind].
  rewrite (truediv_by_int T t VT 298) by reflexivity. cbn [bind].
  rewrite (truediv_one_by T t VT).
  change (Py.truediv (NInt 1) (NInt 298))
    with (Ok (F64.div F64.one Spec.T_ref)).
  cbn [bind].
  change (F64.is_zero (F64.mul Lit.f1_0 Lit.f1_3806503e_23)) with false.
  reflexivity.
Qed.

(** Line 60 against the formula of [I_ph]. *)
Lemma calc_I_ph_formula (G : value) (g : num) :
  valid_number G g ->
  calc_I_ph pv G T =
    Ok (Spec.I_ph pv (Spec.as_float G) (Spec.as_float T)).
Proof.
  intros VG. apply init_int_inv in Hpv. subst pv.
  unfold calc_I_ph, Spec.I_ph, Py.fmul.
  cbn [k_i I_sc]. rewrite (as_num_valid T t VT). cbn [bind].
  destruct (sub_int_valid T t VT 298) as (d & Ed & Fd); [reflexivity|].
  rewrite Ed. cbn [bind]. rewrite Fd. cbn [bind].
  rewrite (as_num_valid G g VG). cbn [bind].
  rewrite (truediv_by_int G g VG 1000) by reflexivity.
  reflexivity.
Qed.

End Lines.

(** C7. For an array built from positive integers and a valid irradiance
    [G] and temperature [T] (a finite positive [float], or a positive [int]
    below [2 ^ 53]), the three currents computed by [modelo_pv] are those of
    the formulas of the specification at the binary64 values of [G] and [T],
    with 298 as the reference temperature: [I_o] and [I_ph] always, and
    [I_rs] whenever line 56 raises no exception (it raises [OverflowError]
    when [72 * s] is beyond the binary64 range and [ZeroDivisionError] when
    the divisor [n * N_s * K * T] underflows to zero). *)
Theorem C7_currents_follow_formulas `{NumLib}
    (s p : Z) (G T : value) (pv : PVModel) :
  0 < s -> 0 < p ->
  __init__ (VInt s) (VInt p) = Ok pv ->
  Spec.finite_positive G = true -> Spec.fits_float G = true ->
  Spec.finite_positive T = true -> Spec.fits_float T = true ->
  let Gf := Spec.as_float G in
  let Tf := Spec.as_float T in
  let Ns := F64.of_Z (72 * s) in
  let divisor := F64.mul (F64.mul (F64.mul (n pv) Ns) (K pv)) Tf in
  calc_I_rs pv T =
    (if F64.is_inf Ns then Raise OverflowError
     else if F64.is_zero divisor then Raise ZeroDivisionError
     else Ok (Spec.I_rs pv Ns Tf)) /\
  (forall i_rs, calc_I_o pv i_rs T = Ok (Spec.I_o pv i_rs Tf)) /\
  calc_I_ph pv G T = Ok (Spec.I_ph pv Gf Tf).
Proof.
  intros _ _ Hpv HG FG HT FT Gf Tf Ns divisor.
  destruct (valid_number_intro G HG FG) as [g VG].
  destruct (valid_number_intro T HT FT) as [t VT].
  split; [|split].
  - exact (calc_I_rs_formula s p pv T t Hpv VT).
  - intros i_rs. exact (calc_I_o_formula s p pv T t Hpv VT i_rs).
  - exact (calc_I_ph_formula s p pv T t Hpv VT G g VG).
Qed.

Lemma C7_currents_follow_formulas_witness :
  @calc_I_rs Demo.stalled Demo.pv43 (VInt 298) =
    Ok (@Spec.I_rs Demo.stalled Demo.pv43 (F64.of_Z 288) (F64.of_Z 298)) /\
  (forall i_rs,
     @calc_I_o Demo.stalled Demo.pv43 i_rs (VInt 298) =
       Ok (@Spec.I_o Demo.stalled Demo.pv43 i_rs (F64.of_Z 298))) /\
  calc_I_ph Demo.pv43 (VInt 1000) (VInt 298) =
    Ok (Spec.I_ph Demo.pv43 (F64.of_Z 1000) (F64.of_Z 298)).
Proof.
  apply (@C7_currents_follow_formulas Demo.stalled 4 3
           (VInt 1000) (VInt 298) Demo.pv43); try lia; reflexivity.
Defined.

(** ** The row of maximal power *)

Lemma nth_error_snoc (l : list float) (x y : float) (j : nat) :
  nth_error (l ++ [x]) j = Some y ->
  nth_error l j = Some y \/ (j = List.length l /\ y = x).
Proof.
  intros E. destruct (Nat.lt_ge_cases j (List.length l)) as [Hj|Hj].
  - left. now rewrite nth_error_app1 in E.
  - right. rewrite nth_error_app2 in E by exact Hj.
    destruct (j - List.length l)%nat as [|k] eqn:Ek; cbn in E.
    + injection E as <-. split; [lia|reflexivity].
    + destruct k; discriminate.
Qed.

Lemma nth_error_lt (l : list float) (j : nat) (y : float) :
  nth_error l j = Some y -> (j < List.length l)%nat.
Proof. intros E. apply nth_error_Some. congruence. Qed.

Lemma fill_not_nan (x : float) : F64.is_nan (Pd.fill x) = false.
Proof. destruct x as [[]|[]| |[] m e]; reflexivity. Qed.

Lemma fill_id (x : float) : F64.is_nan x = false -> Pd.fill x = x.
Proof. unfold Pd.fill. now intros ->. Qed.

Lemma first_greatest_not_nan (l : list float) (i : nat) (x : float) :
  first_greatest l i x -> F64.is_nan x = false.
Proof.
  intros (Hi & Hle & _). now destruct (leb_not_nan _ _ (Hle i x Hi)).
Qed.

Lemma better_inv (seen : list float) (best : option (nat * float))
    (x : float) :
  F64.is_nan x = false ->
  scan_inv seen best ->
  scan_inv (seen ++ [x]) (Pd.better best (List.length seen) x) /\
  Pd.better best (List.length seen) x <> None.
Proof.
  intros Hx I. unfold Pd.better.
  destruct best as [[i b]|]; cbn in I.
  - pose proof (first_greatest_not_nan _ _ _ I) as Hb.
    destruct I as (Hi & Hle & Hlt).
    destruct (F64.ltb b x) eqn:Hbx; (split; [|discriminate]); cbn.
    + (* a strictly greater entry takes over *)
      repeat split.
      * rewrite nth_error_app2, Nat.sub_diag; [reflexivity|lia].
      * intros j y E. apply nth_error_snoc in E as [E|[_ ->]].
        -- apply ltb_leb. apply leb_ltb_trans with b; trivial.
           ++ now destruct (leb_not_nan _ _ (Hle j y E)).
           ++ now apply (Hle j y).
        -- now apply leb_refl.
      * intros j y Hj E. apply nth_error_snoc in E as [E|[-> _]]; [|lia].
        apply leb_ltb_trans with b; trivial.
        -- now destruct (leb_not_nan _ _ (Hle j y E)).
        -- now apply (Hle j y).
    + (* the best entry stays *)
      repeat split.
      * rewrite nth_error_app1; [exact Hi|]. eapply nth_error_lt; eauto.
      * intros j y E. apply nth_error_snoc in E as [E|[_ ->]]; eauto.
        now apply not_ltb_leb.
      * intros j y Hj E. apply nth_error_snoc in E as [E|[-> _]]; eauto.
        apply nth_error_lt in Hi. lia.
  - (* the first entry *)
    subst seen. split; [|discriminate]. cbn. repeat split.
    + intros [|[|j]] y E; cbn in E; try discriminate.
      injection E as <-. now apply leb_refl.
    + intros j y Hj. lia.
Qed.

Lemma scan_spec (l seen : list float) (best : option (nat * float)) :
  Forall (fun y => F64.is_nan y = false) l ->
  scan_inv seen best ->
  scan_inv (seen ++ l) (Pd.scan best (List.length seen) l) /\
  (l <> [] -> Pd.scan best (List.length seen) l <> None).
Proof.
  revert seen best. induction l as [|x l IH]; intros seen best N I; cbn.
  - rewrite app_nil_r. split; [exact I|congruence].
  - inversion N as [|? ? Hx Hl]; subst.
    destruct (better_inv seen best x Hx I) as [I' NN].
    destruct (IH (seen ++ [x]) _ Hl I') as [I'' K].
    rewrite length_app, Nat.add_1_r in I'', K.
    rewrite <- app_assoc in I''. split; [exact I''|]. intros _.
    destruct l as [|x' l]; [exact NN|]. apply K. discriminate.
Qed.

(** [argmax] on entries that are not NaN. *)
Lemma argmax_spec (a : list float) :
  Forall (fun y => F64.is_nan y = false) a -> a <> [] ->
  exists i x, Pd.argmax a = Some i /\ first_greatest a i x.
Proof.
  intros N E. destruct (scan_spec a [] None N eq_refl) as [I K].
  cbn in I, K. specialize (K E). unfold Pd.argmax.
  destruct (Pd.scan None 0 a) as [[i x]|]; [|congruence].
  exists i, x. split; [reflexivity|exact I].
Qed.

Lemma all_nan_forallb (col : list float) :
  forallb F64.is_nan col = true <-> all_nan col.
Proof.
  rewrite forallb_forall. split.
  - intros A j y E. apply A. eapply nth_error_In; eauto.
  - intros A y Hy. apply In_nth_error in Hy as [j E]. eauto.
Qed.

(** What [idxmax] returns: the first maximum in its order or, with pandas
    before 3.0 on a column of NaN, no label. *)
Lemma idxmax_ok `{NumLib} (col : list float) (label : option nat) :
  Pd.idxmax col = Ok label ->
  match label with
  | Some i => exists x, first_maximum col i x
  | None => all_nan col /\ pandas_3 = false
  end.
Proof.
  unfold Pd.idxmax. destruct col as [|c col]; [discriminate|].
  destruct (forallb F64.is_nan (c :: col)) eqn:A.
  - destruct pandas_3; [discriminate|]. intros [= <-].
    split; [now apply all_nan_forallb|reflexivity].
  - destruct (argmax_spec (map Pd.fill (c :: col))) as (i & x' & E & F).
    + apply Forall_forall. intros y Hy. apply in_map_iff in Hy as (z & <- & _).
      apply fill_not_nan.
    + discriminate.
    + rewrite E. intros [= <-]. destruct F as (Hi & Hle & Hlt).
      pose proof Hi as Hi'. rewrite nth_error_map in Hi'.
      destruct (nth_error (c :: col) i) as [x|] eqn:Ex; [|discriminate].
      injection Hi' as <-. exists x. split; [exact Ex|].
      repeat split; trivial.
Qed.

Lemma idxmax_some `{NumLib} (col : list float) (i : nat) :
  Pd.idxmax col = Ok (Some i) -> exists x, first_maximum col i x.
Proof. apply (idxmax_ok col (Some i)). Qed.

(** [idxmax] raises only on a column without a number, and then a
    [ValueError] of its own. *)
Lemma idxmax_raises `{NumLib} (col : list float) (e : exn) :
  Pd.idxmax col = Raise e ->
  all_nan col /\ numeric_failure e /\ exists m, e = ValueError m.
Proof.
  unfold Pd.idxmax. destruct col as [|c col].
  - intros [= <-]. split; [intros [|j] y E; discriminate|].
    split; [reflexivity|eexists; reflexivity].
  - destruct (forallb F64.is_nan (c :: col)) eqn:A; [|discriminate].
    destruct pandas_3; [|discriminate]. intros [= <-].
    split; [now apply all_nan_forallb|].
    split; [reflexivity|eexists; reflexivity].
Qed.

(** On a column with a number in it, [idxmax] returns a label. *)
Lemma idxmax_returns `{NumLib} (col : list float) :
  ~ all_nan col -> exists i, Pd.idxmax col = Ok (Some i).
Proof.
  intros N. destruct (Pd.idxmax col) as [[i|]|e] eqn:E.
  - now exists i.
  - apply idxmax_ok in E as [A _]. contradiction.
  - apply idxmax_raises in E as [A _]. contradiction.
Qed.

(** The maximum in the order of [idxmax] is the plain maximum of the numbers
    of the column as soon as it is a number itself; it is NaN only in the
    first row of a column that holds nothing but NaN and minus infinity. *)
Lemma first_maximum_number (col : list float) (i : nat) (x : float) :
  first_maximum col i x -> F64.is_nan x = false ->
  (forall j y, nth_error col j = Some y ->
               F64.is_nan y = true \/ F64.leb y x = true) /\
  (forall j y, (j < i)%nat -> nth_error col j = Some y ->
               F64.is_nan y = true \/ F64.ltb y x = true).
Proof.
  intros (Hi & _ & Hle & Hlt) Hx. rewrite (fill_id x Hx) in Hle, Hlt.
  split.
  - intros j y E. destruct (F64.is_nan y) eqn:Hy; [now left|right].
    rewrite <- (fill_id y Hy). apply (Hle j). rewrite nth_error_map, E.
    reflexivity.
  - intros j y Hj E. destruct (F64.is_nan y) eqn:Hy; [now left|right].
    rewrite <- (fill_id y Hy). apply (Hlt j _ Hj). rewrite nth_error_map, E.
    reflexivity.
Qed.

Lemma leb_minus_infinity (y : float) :
  F64.leb (Pd.fill y) (S754_infinity true) = true ->
  F64.is_nan y = true \/ y = S754_infinity true.
Proof. destruct y as [[]|[]| |[] m e]; cbn; auto; discriminate. Qed.

Lemma ltb_minus_infinity (y : float) :
  F64.ltb y (S754_infinity true) = false.
Proof. destruct y as [[]|[]| |[] m e]; reflexivity. Qed.

Lemma first_maximum_nan (col : list float) (i : nat) (x : float) :
  first_maximum col i x -> F64.is_nan x = true ->
  i = 0%nat /\
  forall j y, nth_error col j = Some y ->
              F64.is_nan y = true \/ y = S754_infinity true.
Proof.
  intros (Hi & _ & Hle & Hlt) Hx.
  assert (Fx : Pd.fill x = S754_infinity true)
    by (unfold Pd.fill; now rewrite Hx).
  rewrite Fx in Hle, Hlt. split.
  - destruct i as [|i]; [reflexivity|exfalso].
    destruct (nth_error col 0) as [y|] eqn:E.
    + assert (L : F64.ltb (Pd.fill y) (S754_infinity true) = true).
      { apply (Hlt 0%nat _); [lia|]. rewrite nth_error_map, E. reflexivity. }
      rewrite ltb_minus_infinity in L. discriminate.
    + apply nth_error_None in E. apply nth_error_lt in Hi. lia.
  - intros j y E. apply leb_minus_infinity. apply (Hle j).
    rewrite nth_error_map, E. reflexivity.
Qed.

Lemma first_maximum_above (col : list float) (i j : nat) (x y : float) :
  first_maximum col i x ->
  nth_error col j = Some y -> F64.ltb (S754_infinity true) y = true ->
  F64.is_nan x = false.
Proof.
  intros F E L. destruct (F64.is_nan x) eqn:Hx; [exfalso|reflexivity].
  destruct (first_maximum_nan col i x F Hx) as [_ A].
  destruct (A j y E) as [N| ->].
  - destruct (ltb_not_nan _ _ L). congruence.
  - discriminate.
Qed.

(** ** The structure of a run of [modelo_pv] *)

Lemma length_map2 {A B C : Type} (g : A -> B -> C) (l1 : list A)
    (l2 : list B) :
  List.length l1 = List.length l2 ->
  List.length (map2 g l1 l2) = List.length l1.
Proof.
  revert l2. induction l1 as [|a l1 IH]; intros [|b l2]; cbn; try easy.
  intros [= E]. now rewrite IH.
Qed.

Lemma nth_error_map2 {A B C : Type} (g : A -> B -> C) (l1 : list A)
    (l2 : list B) (i : nat) (a : A) (b : B) :
  nth_error l1 i = Some a -> nth_error l2 i = Some b ->
  nth_error (map2 g l1 l2) i = Some (g a b).
Proof.
  revert l2 i. induction l1 as [|a' l1 IH]; intros [|b' l2] [|i]; cbn;
    try discriminate.
  - now intros [= ->] [= ->].
  - apply IH.
Qed.

Lemma length_set_last (y : list float) (stop : float) :
  List.length (Np.set_last y stop) = List.length y.
Proof.
  destruct y as [|a y]; [reflexivity|].
  unfold Np.set_last. rewrite length_app, removelast_firstn_len.
  rewrite length_firstn. cbn. lia.
Qed.

Lemma length_linspace (start stop : float) (num : nat) :
  List.length (Np.linspace start stop num) = num.
Proof.
  unfold Np.linspace, Np.arange.
  repeat match goal with
         | |- context [if ?b then _ else _] => destruct b
         end;
    rewrite ?length_set_last, !length_map, length_seq; reflexivity.
Qed.

Section Runs.

Context `{NumLib}.

Lemma modelo_pv_ok (self : PVModel) (G T : value)
    (out : DataFrame * float * float * float) :
  modelo_pv self G T = Ok out ->
  exists I_rs I_o I_ph divisor Ipv Ppv,
    validate_inputs self G T = Ok tt /\
    calc_I_rs self T = Ok I_rs /\
    calc_I_o self I_rs T = Ok I_o /\
    calc_I_ph self G T = Ok I_ph /\
    f_divisor self T = Ok divisor /\
    Sp.fsolve (fun I => f self I_ph I_o divisor I (Vpv_of self))
      (x0_of self) = Ok Ipv /\
    Np.mul (Vpv_of self) Ipv = Ok Ppv /\
    max_power_point Ipv (Vpv_of self) Ppv = Ok out.
Proof.
  unfold modelo_pv. fold (Vpv_of self). fold (x0_of self).
  destruct (validate_inputs self G T) as [[]|] eqn:E0; [|discriminate].
  cbn [bind].
  destruct (calc_I_rs self T) as [I_rs|] eqn:E1; [|discriminate].
  cbn [bind].
  destruct (calc_I_o self I_rs T) as [I_o|] eqn:E2; [|discriminate].
  cbn [bind].
  destruct (calc_I_ph self G T) as [I_ph|] eqn:E3; [|discriminate].
  cbn [bind].
  destruct (f_divisor self T) as [dv|] eqn:E4; [|discriminate].
  cbn [bind].
  destruct (Sp.fsolve _ _) as [Ipv|] eqn:E5; [|discriminate].
  cbn [bind].
  destruct (Np.mul _ _) as [Ppv|] eqn:E6; [|discriminate].
  cbn [bind]. intros E7.
  exists I_rs, I_o, I_ph, dv, Ipv, Ppv. repeat split; trivial.
Qed.

Lemma np_mul_ok (a b c : list float) :
  Np.mul a b = Ok c ->
  List.length a = List.length b /\ c = map2 F64.mul a b.
Proof.
  unfold Np.mul. destruct (Nat.eqb_spec (List.length a) (List.length b));
    [|discriminate].
  now intros [= <-].
Qed.

Lemma loc_ok (label : option nat) (col : list float) (x : float) :
  Pd.loc label col = Ok x ->
  exists i, label = Some i /\ nth_error col i = Some x.
Proof.
  unfold Pd.loc. destruct label as [i|]; [|discriminate].
  destruct (nth_error col i) as [y|] eqn:E; [|discriminate].
  intros [= <-]. now exists i.
Qed.

Lemma max_power_point_ok (Ipv Vpv Ppv : list float) (res : DataFrame)
    (Vmpp Impp P_max : float) :
  max_power_point Ipv Vpv Ppv = Ok (res, Vmpp, Impp, P_max) ->
  res = mkDataFrame Ipv Vpv Ppv /\
  exists i,
    Pd.idxmax Ppv = Ok (Some i) /\
    nth_error Vpv i = Some Vmpp /\
    nth_error Ipv i = Some Impp /\
    nth_error Ppv i = Some P_max.
Proof.
  unfold max_power_point. cbn [Potencia Voltaje Corriente].
  destruct (Pd.idxmax Ppv) as [label|] eqn:El; [|discriminate]. cbn [bind].
  destruct (Pd.loc _ Vpv) as [v|] eqn:Ev; [|discriminate]. cbn [bind].
  destruct (Pd.loc _ Ipv) as [c|] eqn:Ec; [|discriminate]. cbn [bind].
  destruct (Pd.loc _ Ppv) as [w|] eqn:Ew; [|discriminate]. cbn [bind].
  intros [= <- <- <- <-]. split; [reflexivity|].
  apply loc_ok in Ev as (i & Ei & Ev), Ec as (i' & Ei' & Ec),
    Ew as (i'' & Ei'' & Ew).
  rewrite Ei in Ei', Ei''. injection Ei' as <-. injection Ei'' as <-.
  subst label. now exists i.
Qed.

(** The row [modelo_pv] reports, whatever the root-finder returned. *)
Lemma reported_row (self : PVModel) (G T : value)
    (res : DataFrame) (Vmpp Impp P_max : float) :
  modelo_pv self G T = Ok (res, Vmpp, Impp, P_max) ->
  exists i,
    nth_error (Voltaje res) i = Some Vmpp /\
    nth_error (Corriente res) i = Some Impp /\
    first_maximum (Potencia res) i P_max.
Proof.
  intros E.
  apply modelo_pv_ok in E
    as (I_rs & I_o & I_ph & dv & Ipv & Ppv & _ & _ & _ & _ & _ & _ & _ & E).
  apply max_power_point_ok in E as (-> & i & Ei & Ev & Ec & Ew).
  cbn [Potencia Voltaje Corriente].
  exists i. repeat split; trivial.
  all: apply idxmax_some in Ei as (x & F);
    assert (x = P_max) as -> by (destruct F as [F _]; congruence);
    apply F.
Qed.

(** C1. When [modelo_pv] returns, the point it reports is a row of the
    table: its voltage, current and power are those of one row, and the row
    is the first one that reaches the maximum of the powers in the order of
    [idxmax], where a NaN counts as minus infinity.  As soon as one power of
    the table is above minus infinity, the reported power is a number, every
    power is NaN or at most it, and every power of an earlier row is NaN or
    strictly below it.  The reported power is NaN only when the table holds
    no power other than NaN and minus infinity: the row is then the first
    one. *)
Theorem C1_mpp_is_first_maximum (self : PVModel) (G T : value)
    (res : DataFrame) (Vmpp Impp P_max : float) :
  modelo_pv self G T = Ok (res, Vmpp, Impp, P_max) ->
  exists i,
    nth_error (Voltaje res) i = Some Vmpp /\
    nth_error (Corriente res) i = Some Impp /\
    first_maximum (Potencia res) i P_max /\
    ((exists j y, nth_error (Potencia res) j = Some y /\
                  F64.ltb (S754_infinity true) y = true) ->
     F64.is_nan P_max = false) /\
    (F64.is_nan P_max = false ->
     (forall j y, nth_error (Potencia res) j = Some y ->
                  F64.is_nan y = true \/ F64.leb y P_max = true) /\
     (forall j y, (j < i)%nat -> nth_error (Potencia res) j = Some y ->
                  F64.is_nan y = true \/ F64.ltb y P_max = true)) /\
    (F64.is_nan P_max = true ->
     i = 0%nat /\
     forall j y, nth_error (Potencia res) j = Some y ->
                 F64.is_nan y = true \/ y = S754_infinity true).
Proof.
  intros E. destruct (reported_row self G T res Vmpp Impp P_max E)
    as (i & Ev & Ec & F).
  exists i. split; [exact Ev|]. split; [exact Ec|]. split; [exact F|].
  split; [|split].
  - intros (j & y & Ey & L). exact (first_maximum_above _ _ _ _ _ F Ey L).
  - exact (first_maximum_number _ _ _ F).
  - exact (first_maximum_nan _ _ _ F).
Qed.

(** C3. In the table returned by [modelo_pv] each of the three columns has
    1000 entries and every power is the binary64 product of the voltage and
    the current of its row. *)
Theorem C3_power_is_voltage_times_current (self : PVModel) (G T : value)
    (res : DataFrame) (Vmpp Impp P_max : float) :
  modelo_pv self G T = Ok (res, Vmpp, Impp, P_max) ->
  List.length (Voltaje res) = 1000%nat /\
  List.length (Corriente res) = 1000%nat /\
  List.length (Potencia res) = 1000%nat /\
  forall i, (i < 1000)%nat ->
    exists v c,
      nth_error (Voltaje res) i = Some v /\
      nth_error (Corriente res) i = Some c /\
      nth_error (Potencia res) i = Some (F64.mul v c).
Proof.
  intros E.
  apply modelo_pv_ok in E
    as (I_rs & I_o & I_ph & dv & Ipv & Ppv & _ & _ & _ & _ & _ & _ & M & E).
  apply max_power_point_ok in E as (-> & _).
  apply np_mul_ok in M as (L & ->).
  cbn [Potencia Voltaje Corriente].
  assert (LV : List.length (Vpv_of self) = 1000%nat)
    by apply length_linspace.
  repeat split.
  - exact LV.
  - congruence.
  - now rewrite length_map2.
  - intros i Hi.
    destruct (nth_error (Vpv_of self) i) as [v|] eqn:Ev.
    2:{ apply nth_error_None in Ev. lia. }
    destruct (nth_error Ipv i) as [c|] eqn:Ec.
    2:{ apply nth_error_None in Ec. lia. }
    exists v, c. repeat split. now apply nth_error_map2.
Qed.

End Runs.

Section Returns.

Context `{NumLib}.

Lemma max_power_point_returns (Ipv Vpv Ppv : list float) :
  List.length Ipv = List.length Ppv ->
  List.length Vpv = List.length Ppv ->
  (all_nan Ppv /\
   exists e, max_power_point Ipv Vpv Ppv = Raise e /\ numeric_failure e) \/
  (exists Vmpp Impp P_max,
     max_power_point Ipv Vpv Ppv =
       Ok (mkDataFrame Ipv Vpv Ppv, Vmpp, Impp, P_max)).
Proof.
  intros LI LV. unfold max_power_point. cbn [Potencia Voltaje Corriente].
  destruct (Pd.idxmax Ppv) as [[i|]|e] eqn:Ei; cbn [bind].
  - right. apply idxmax_some in Ei as (x & Ex & _).
    pose proof (nth_error_lt _ _ _ Ex) as Hi.
    destruct (nth_error Vpv i) as [v|] eqn:Ev.
    2:{ apply nth_error_None in Ev. lia. }
    destruct (nth_error Ipv i) as [c|] eqn:Ec.
    2:{ apply nth_error_None in Ec. lia. }
    exists v, c, x. cbn. now rewrite Ev, Ec, Ex.
  - left. apply idxmax_ok in Ei as [A _]. split; [exact A|].
    exists KeyError. split; reflexivity.
  - left. apply idxmax_raises in Ei as (A & N & _). split; [exact A|].
    now exists e.
Qed.

(** Whatever status from 1 to 5 the root-finder reports, the run goes on
    with the vector [x] it returns and ends as the search of the maximum
    ends. *)
Lemma modelo_pv_run (self : PVModel) (G T : value)
    (I_rs I_o I_ph divisor : float) (x : list float) (status : Z) :
  validate_inputs self G T = Ok tt ->
  calc_I_rs self T = Ok I_rs ->
  calc_I_o self I_rs T = Ok I_o ->
  calc_I_ph self G T = Ok I_ph ->
  f_divisor self T = Ok divisor ->
  hybr (fun I => f self I_ph I_o divisor I (Vpv_of self)) (x0_of self)
    = (x, status) ->
  1 <= status <= 5 ->
  List.length x = 1000%nat ->
  modelo_pv self G T =
    max_power_point x (Vpv_of self) (map2 F64.mul (Vpv_of self) x).
Proof.
  intros E0 E1 E2 E3 E4 E5 Hst Lx.
  assert (LV : List.length (Vpv_of self) = 1000%nat)
    by apply length_linspace.
  unfold modelo_pv. fold (Vpv_of self). fold (x0_of self).
  rewrite E0. cbn [bind]. rewrite E1. cbn [bind]. rewrite E2.
  cbn [bind]. rewrite E3. cbn [bind]. rewrite E4. cbn [bind].
  unfold Sp.fsolve. rewrite E5.
  replace ((1 <=? status) && (status <=? 5)) with true
    by (symmetry; apply andb_true_intro; split; apply Z.leb_le; lia).
  cbn [bind]. unfold Np.mul. rewrite LV, Lx, Nat.eqb_refl.
  reflexivity.
Qed.

(** C6, as the program has it.  When the root-finder reports that it did
    not converge (status 2 to 5), [fsolve] only warns and [modelo_pv] goes
    on with the last iterate [x] as if it were a solution: the run ends as
    the search of the maximum over the table built on [x] ends, and unless
    every power of that table is NaN it returns the table, whose currents
    are [x], with a point of maximal power. *)
Theorem C6_no_convergence_is_not_reported (self : PVModel) (G T : value)
    (I_rs I_o I_ph divisor : float) (x : list float) (status : Z) :
  validate_inputs self G T = Ok tt ->
  calc_I_rs self T = Ok I_rs ->
  calc_I_o self I_rs T = Ok I_o ->
  calc_I_ph self G T = Ok I_ph ->
  f_divisor self T = Ok divisor ->
  hybr (fun I => f self I_ph I_o divisor I (Vpv_of self)) (x0_of self)
    = (x, status) ->
  2 <= status <= 5 ->
  List.length x = 1000%nat ->
  let Ppv := map2 F64.mul (Vpv_of self) x in
  modelo_pv self G T = max_power_point x (Vpv_of self) Ppv /\
  (~ all_nan Ppv ->
   exists Vmpp Impp P_max,
     modelo_pv self G T =
       Ok (mkDataFrame x (Vpv_of self) Ppv, Vmpp, Impp, P_max)).
Proof.
  intros E0 E1 E2 E3 E4 E5 Hst Lx Ppv.
  assert (E : modelo_pv self G T = max_power_point x (Vpv_of self) Ppv)
    by (eapply modelo_pv_run; eauto; lia).
  split; [exact E|]. rewrite E. intros N.
  assert (LV : List.length (Vpv_of self) = 1000%nat)
    by apply length_linspace.
  destruct (max_power_point_returns x (Vpv_of self) Ppv) as [[A _]|R];
    try (subst Ppv; rewrite length_map2; lia).
  - contradiction.
  - exact R.
Qed.

End Returns.

Lemma stalled_run_eq :
  @modelo_pv Demo.stalled Demo.pv43 (VInt 1000) (VInt 298) = Demo.stalled_run.
Proof. vm_compute. reflexivity. Qed.

Lemma stalled_run_returns :
  exists res Vmpp Impp P_max, Demo.stalled_run = Ok (res, Vmpp, Impp, P_max).
Proof.
  unfold Demo.stalled_run. do 4 eexists. reflexivity.
Qed.

Lemma C1_mpp_is_first_maximum_witness :
  exists res Vmpp Impp P_max i,
    @modelo_pv Demo.stalled Demo.pv43 (VInt 1000) (VInt 298)
      = Ok (res, Vmpp, Impp, P_max) /\
    nth_error (Voltaje res) i = Some Vmpp /\
    nth_error (Corriente res) i = Some Impp /\
    first_maximum (Potencia res) i P_max /\
    ((exists j y, nth_error (Potencia res) j = Some y /\
                  F64.ltb (S754_infinity true) y = true) ->
     F64.is_nan P_max = false) /\
    (F64.is_nan P_max = false ->
     (forall j y, nth_error (Potencia res) j = Some y ->
                  F64.is_nan y = true \/ F64.leb y P_max = true) /\
     (forall j y, (j < i)%nat -> nth_error (Potencia res) j = Some y ->
                  F64.is_nan y = true \/ F64.ltb y P_max = true)) /\
    (F64.is_nan P_max = true ->
     i = 0%nat /\
     forall j y, nth_error (Potencia res) j = Some y ->
                 F64.is_nan y = true \/ y = S754_infinity true).
Proof.
  destruct stalled_run_returns as (res & Vmpp & Impp & P_max & E).
  rewrite <- stalled_run_eq in E.
  destruct (@C1_mpp_is_first_maximum Demo.stalled Demo.pv43
              (VInt 1000) (VInt 298) res Vmpp Impp P_max E) as (i & W).
  exists res, Vmpp, Impp, P_max, i. split; [exact E|exact W].
Defined.

Lemma C3_power_is_voltage_times_current_witness :
  exists res Vmpp Impp P_max,
    @modelo_pv Demo.stalled Demo.pv43 (VInt 1000) (VInt 298)
      = Ok (res, Vmpp, Impp, P_max) /\
    List.length (Voltaje res) = 1000%nat /\
    List.length (Corriente res) = 1000%nat /\
    List.length (Potencia res) = 1000%nat /\
    forall i, (i < 1000)%nat ->
      exists v c,
        nth_error (Voltaje res) i = Some v /\
        nth_error (Corriente res) i = Some c /\
        nth_error (Potencia res) i = Some (F64.mul v c).
Proof.
  destruct stalled_run_returns as (res & Vmpp & Impp & P_max & E).
  rewrite <- stalled_run_eq in E.
  exists res, Vmpp, Impp, P_max. split; [exact E|].
  exact (@C3_power_is_voltage_times_current Demo.stalled Demo.pv43
           (VInt 1000) (VInt 298) res Vmpp Impp P_max E).
Defined.

Lemma stalled_run_currents :
  exists res Vmpp Impp P_max,
    Demo.stalled_run = Ok (res, Vmpp, Impp, P_max) /\
    Corriente res = x0_of Demo.pv43.
Proof.
  unfold Demo.stalled_run. do 4 eexists. split; [reflexivity|].
  vm_compute. reflexivity.
Qed.

Lemma cold_run_eq :
  @modelo_pv Demo.stalled Demo.pv43 (VInt 1000) (VInt 1) = Demo.cold_run.
Proof. vm_compute. reflexivity. Qed.

Lemma cold_run_currents :
  exists res Vmpp Impp P_max,
    Demo.cold_run = Ok (res, Vmpp, Impp, P_max) /\
    Corriente res = x0_of Demo.pv43.
Proof.
  unfold Demo.cold_run. do 4 eexists. split; [reflexivity|].
  vm_compute. reflexivity.
Qed.

Lemma C6_no_convergence_is_not_reported_witness :
  let x := x0_of Demo.pv43 in
  let Ppv := map2 F64.mul (Vpv_of Demo.pv43) x in
  @modelo_pv Demo.stalled Demo.pv43 (VInt 1000) (VInt 1)
    = @max_power_point Demo.stalled x (Vpv_of Demo.pv43) Ppv /\
  (~ all_nan Ppv ->
   exists Vmpp Impp P_max,
     @modelo_pv Demo.stalled Demo.pv43 (VInt 1000) (VInt 1) =
       Ok (mkDataFrame x (Vpv_of Demo.pv43) Ppv, Vmpp, Impp, P_max)).
Proof.
  eapply (@C6_no_convergence_is_not_reported Demo.stalled Demo.pv43
            (VInt 1000) (VInt 1)).
  - reflexivity.
  - vm_compute. reflexivity.
  - vm_compute. reflexivity.
  - vm_compute. reflexivity.
  - vm_compute. reflexivity.
  - reflexivity.
  - lia.
  - vm_compute. reflexivity.
Defined.

(** The array of [main] at 1000 W/m2 and 1 K, a valid operating condition
    at which the exponential of line 56 overflows: up to the root-finder,
    every library computes the same run. *)
Lemma run_at_one_kelvin (L : NumLib) (x : list float) (status : Z) :
  let I_rs := @Spec.I_rs L Demo.pv43 (F64.of_Z 288) (F64.of_Z 1) in
  let I_o := @Spec.I_o L Demo.pv43 I_rs (F64.of_Z 1) in
  let I_ph := Spec.I_ph Demo.pv43 (F64.of_Z 1000) (F64.of_Z 1) in
  let divisor :=
    F64.mul (F64.mul (F64.mul (n Demo.pv43) (K Demo.pv43)) (F64.of_Z 288))
      (F64.of_Z 1) in
  @hybr L (fun I => @f L Demo.pv43 I_ph I_o divisor I (Vpv_of Demo.pv43))
    (x0_of Demo.pv43) = (x, status) ->
  1 <= status <= 5 ->
  List.length x = 1000%nat ->
  @modelo_pv L Demo.pv43 (VInt 1000) (VInt 1) =
    @max_power_point L x (Vpv_of Demo.pv43)
      (map2 F64.mul (Vpv_of Demo.pv43) x).
Proof.
  intros I_rs I_o I_ph divisor Eh Hst Lx.
  assert (VT : valid_number (VInt 1) (NInt 1)) by (now constructor).
  assert (VG : valid_number (VInt 1000) (NInt 1000)) by (now constructor).
  apply (@modelo_pv_run L Demo.pv43 (VInt 1000) (VInt 1)
           I_rs I_o I_ph divisor x status);
    [reflexivity| | | | |exact Eh|exact Hst|exact Lx].
  - rewrite (@calc_I_rs_formula L 4 3 Demo.pv43 (VInt 1) (NInt 1)
               init_pv43 VT).
    reflexivity.
  - exact (@calc_I_o_formula L 4 3 Demo.pv43 (VInt 1) (NInt 1)
             init_pv43 VT I_rs).
  - exact (calc_I_ph_formula 4 3 Demo.pv43 (VInt 1) (NInt 1)
             init_pv43 VT (VInt 1000) (NInt 1000) VG).
  - vm_compute. reflexivity.
Qed.

(** At 1 K the circuit equation cannot be solved in binary64: with an
    exponential that saturates, [I_rs] and [I_o] are zero and the
    exponential of [f] is infinite at the open-circuit voltage, so the
    residual the root-finder is started on is NaN there. *)
Lemma residual_at_one_kelvin (L : NumLib) :
  exp_saturates L ->
  let I_rs := @Spec.I_rs L Demo.pv43 (F64.of_Z 288) (F64.of_Z 1) in
  let I_o := @Spec.I_o L Demo.pv43 I_rs (F64.of_Z 1) in
  let I_ph := Spec.I_ph Demo.pv43 (F64.of_Z 1000) (F64.of_Z 1) in
  let divisor :=
    F64.mul (F64.mul (F64.mul (n Demo.pv43) (K Demo.pv43)) (F64.of_Z 288))
      (F64.of_Z 1) in
  exists r,
    nth_error
      (@f L Demo.pv43 I_ph I_o divisor (x0_of Demo.pv43) (Vpv_of Demo.pv43))
      999 = Some r /\
    F64.is_nan r = true.
Proof.
  intros [Over Under] I_rs I_o I_ph divisor.
  assert (EI : nth_error (x0_of Demo.pv43) 999 = Some (I_sc Demo.pv43))
    by (vm_compute; reflexivity).
  assert (EV : nth_error (Vpv_of Demo.pv43) 999 = Some (V_oc Demo.pv43))
    by (vm_compute; reflexivity).
  eexists. split.
  - unfold f. apply (nth_error_map2 _ _ _ _ _ _ EI EV).
  - subst I_o I_rs. unfold Spec.I_o, Spec.I_rs. cbv beta zeta.
    repeat match goal with
    | |- context [@np_exp L ?a] =>
        first [ rewrite (Over a) by (vm_compute; reflexivity)
              | rewrite (Under a) by (vm_compute; reflexivity) ]
    end.
    vm_compute. reflexivity.
Qed.

(** C6 as the specification words it fails on the program.  At 1000 W/m2
    and 1 K, a valid operating condition, whatever the libraries are: the
    residual the root-finder is started on is NaN at the open-circuit
    voltage, and when the root-finder reports that it did not converge and
    hands back a thousand currents whose powers are not all NaN,
    [modelo_pv] returns the table of these currents and raises nothing.
    So it does with a root-finder that hands back its starting point with
    status 5. *)
Lemma C6_no_convergence_goes_unnoticed :
  Spec.finite_positive (VInt 1000) = true /\
  Spec.finite_positive (VInt 1) = true /\
  (forall L : NumLib,
     exp_saturates L ->
     let I_rs := @Spec.I_rs L Demo.pv43 (F64.of_Z 288) (F64.of_Z 1) in
     let I_o := @Spec.I_o L Demo.pv43 I_rs (F64.of_Z 1) in
     let I_ph := Spec.I_ph Demo.pv43 (F64.of_Z 1000) (F64.of_Z 1) in
     let divisor :=
       F64.mul (F64.mul (F64.mul (n Demo.pv43) (K Demo.pv43))
                  (F64.of_Z 288))
         (F64.of_Z 1) in
     exists r,
       nth_error
         (@f L Demo.pv43 I_ph I_o divisor (x0_of Demo.pv43)
            (Vpv_of Demo.pv43))
         999 = Some r /\
       F64.is_nan r = true) /\
  (forall (L : NumLib) (x : list float) (status : Z),
     let I_rs := @Spec.I_rs L Demo.pv43 (F64.of_Z 288) (F64.of_Z 1) in
     let I_o := @Spec.I_o L Demo.pv43 I_rs (F64.of_Z 1) in
     let I_ph := Spec.I_ph Demo.pv43 (F64.of_Z 1000) (F64.of_Z 1) in
     let divisor :=
       F64.mul (F64.mul (F64.mul (n Demo.pv43) (K Demo.pv43))
                  (F64.of_Z 288))
         (F64.of_Z 1) in
     let Ppv := map2 F64.mul (Vpv_of Demo.pv43) x in
     @hybr L (fun I => @f L Demo.pv43 I_ph I_o divisor I (Vpv_of Demo.pv43))
       (x0_of Demo.pv43) = (x, status) ->
     2 <= status <= 5 ->
     List.length x = 1000%nat ->
     ~ all_nan Ppv ->
     exists Vmpp Impp P_max,
       @modelo_pv L Demo.pv43 (VInt 1000) (VInt 1) =
         Ok (mkDataFrame x (Vpv_of Demo.pv43) Ppv, Vmpp, Impp, P_max)) /\
  (forall func x0, @Sp.converged Demo.stalled func x0 = false) /\
  exists res Vmpp Impp P_max,
    @modelo_pv Demo.stalled Demo.pv43 (VInt 1000) (VInt 1)
      = Ok (res, Vmpp, Impp, P_max) /\
    Corriente res = x0_of Demo.pv43.
Proof.
  split; [reflexivity|]. split; [reflexivity|].
  split; [exact residual_at_one_kelvin|]. split; [|split].
  - intros L x status I_rs I_o I_ph divisor Ppv Eh Hst Lx N.
    rewrite (run_at_one_kelvin L x status Eh) by (trivial; lia).
    assert (LV : List.length (Vpv_of Demo.pv43) = 1000%nat)
      by apply length_linspace.
    destruct (@max_power_point_returns L x (Vpv_of Demo.pv43) Ppv)
      as [[A _]|R]; try (subst Ppv; rewrite length_map2; lia).
    + contradiction.
    + exact R.
  - reflexivity.
  - rewrite cold_run_eq. apply cold_run_currents.
Qed.

(** ** Runs that return *)

Lemma finite_positive_number (v : value) :
  Spec.finite_positive v = true ->
  Spec.is_nan v = false /\ Spec.positive_number v = true.
Proof.
  destruct v as [z|b|x|s|]; cbn; try discriminate; auto.
  intros H. apply andb_prop in H as [F P]. split; [|exact P].
  destruct x; try discriminate; reflexivity.
Qed.

Lemma validate_inputs_valid (s p : Z) (pv : PVModel) (G T : value) :
  0 < s -> 0 < p ->
  __init__ (VInt s) (VInt p) = Ok pv ->
  Spec.finite_positive G = true -> Spec.finite_positive T = true ->
  validate_inputs pv G T = Ok tt.
Proof.
  intros Hs Hp Hpv HG HT. apply init_int_inv in Hpv. subst pv.
  destruct (finite_positive_number G HG) as [NG PG].
  destruct (finite_positive_number T HT) as [NT PT].
  rewrite validate_inputs_eq.
  rewrite (failed_check_number G NG), (failed_check_number T NT), PG, PT.
  rewrite !failed_check_int. cbn.
  replace (0 <? s) with true by (symmetry; apply Z.ltb_lt; lia).
  replace (0 <? p) with true by (symmetry; apply Z.ltb_lt; lia).
  reflexivity.
Qed.

(** For a valid array and operating condition, [modelo_pv] returns the
    table built on the vector [x] of the root-finder as soon as line 56 and
    the divisor of [f] raise nothing, the root-finder ends with a status from
    1 to 5 and one power at least is not NaN. *)
Lemma modelo_pv_returns `{NumLib} (s p : Z) (pv : PVModel) (G T : value)
    (I_rs divisor : float) (x : list float) (status : Z) :
  0 < s -> 0 < p ->
  __init__ (VInt s) (VInt p) = Ok pv ->
  Spec.finite_positive G = true -> Spec.fits_float G = true ->
  Spec.finite_positive T = true -> Spec.fits_float T = true ->
  calc_I_rs pv T = Ok I_rs ->
  f_divisor pv T = Ok divisor ->
  let I_o := Spec.I_o pv I_rs (Spec.as_float T) in
  let I_ph := Spec.I_ph pv (Spec.as_float G) (Spec.as_float T) in
  hybr (fun I => f pv I_ph I_o divisor I (Vpv_of pv)) (x0_of pv)
    = (x, status) ->
  1 <= status <= 5 ->
  List.length x = 1000%nat ->
  let Ppv := map2 F64.mul (Vpv_of pv) x in
  ~ all_nan Ppv ->
  exists Vmpp Impp P_max,
    modelo_pv pv G T = Ok (mkDataFrame x (Vpv_of pv) Ppv, Vmpp, Impp, P_max).
Proof.
  intros Hs Hp Hpv HG FG HT FT E1 E4 I_o I_ph E5 Hst Lx Ppv Hnan.
  destruct (valid_number_intro G HG FG) as [g VG].
  destruct (valid_number_intro T HT FT) as [t VT].
  pose proof (calc_I_o_formula s p pv T t Hpv VT I_rs) as E2.
  pose proof (calc_I_ph_formula s p pv T t Hpv VT G g VG) as E3.
  pose proof (validate_inputs_valid s p pv G T Hs Hp Hpv HG HT) as E0.
  rewrite (modelo_pv_run pv G T I_rs I_o I_ph divisor x status); trivial.
  assert (LV : List.length (Vpv_of pv) = 1000%nat)
    by apply length_linspace.
  destruct (max_power_point_returns x (Vpv_of pv) Ppv) as [[N _]|R];
    try (subst Ppv; rewrite length_map2; lia).
  - contradiction.
  - exact R.
Qed.

(** ** The voltage samples *)

Lemma add_zero_r (x : float) :
  x <> S754_zero true -> F64.add x F64.zero = x.
Proof. destruct x as [[]|[]| |[] m e]; cbn; congruence. Qed.

Section Samples.

Variables (mv : positive) (ev : Z).
Hypothesis Dv : digits mv = 53.
Hypothesis Hev : -47 <= ev <= 971.

Let V : float := S754_finite false mv ev.
Let step : float := F64.div V (F64.of_Z 999).
Let y (i : Z) : float := F64.mul (F64.of_Z i) step.

(** Every sample from the first to the 998th is a positive normal number
    below [V]. *)
Lemma sample_below_V (i : Z) :
  1 <= i <= 998 ->
  exists (ms : positive) (es : Z) (m' : positive) (e' : Z),
    step = S754_finite false ms es /\ digits ms = 53 /\
    y i = S754_finite false m' e' /\ digits m' = 53 /\ es - 52 <= e' /\
    i * Z.pos ms * 2 ^ 52 - 2 ^ 62
      < Z.pos m' * 2 ^ (e' - (es - 52))
      <= i * Z.pos ms * 2 ^ 52 + 2 ^ 62 /\
    F64.ltb (y i) V = true.
Proof.
  intros Hi.
  destruct (div_999 mv ev Dv) as (ms & es & Hs & Ds & He & Bs); [lia|].
  destruct (sample_value i ms es) as (m' & e' & R & D' & He' & B);
    trivial; try lia.
  pose proof (digits_53_range mv Dv) as Rv.
  pose proof (digits_53_range ms Ds) as Rs.
  assert (Hlt : Z.pos m' * 2 ^ (e' - (es - 52))
                < Z.pos mv * 2 ^ (ev - (es - 52))).
  { replace (ev - (es - 52)) with ((ev - es) + 52) by lia.
    rewrite Z.pow_add_r by lia.
    set (Y := Z.pos m' * 2 ^ (e' - (es - 52))) in *. clearbody Y.
    set (X := i * Z.pos ms) in *.
    assert (HX : X <= 998 * Z.pos ms)
      by (unfold X; apply Z.mul_le_mono_nonneg_r; lia).
    clearbody X.
    change (2 ^ 52) with 4503599627370496 in *.
    change (2 ^ 62) with 4611686018427387904 in *.
    assert (Hd : ev - es = 10 \/ ev - es = 9 \/ ev - es = 8) by lia.
    destruct Hd as [Hd|[Hd|Hd]]; rewrite Hd in *.
    - change (2 ^ 10) with 1024 in *. lia.
    - change (2 ^ 9) with 512 in *. lia.
    - change (2 ^ 8) with 256 in *. lia. }
  destruct (ltb_by_value m' mv e' ev (es - 52)) as [Hle L];
    trivial; try lia.
  exists ms, es, m', e'. fold V in Hs. fold step in Hs.
  assert (Ey : y i = S754_finite false m' e').
  { unfold y. rewrite Hs, R.
    replace (e' <=? 971) with true by (symmetry; apply Z.leb_le; lia).
    reflexivity. }
  repeat split; trivial; try lia. rewrite Ey. exact L.
Qed.

Lemma samples_increasing :
  y 0 = F64.zero /\
  (forall i, 0 <= i < 998 -> F64.ltb (y i) (y (i + 1)) = true) /\
  F64.ltb (y 998) V = true.
Proof.
  assert (Y0 : y 0 = F64.zero).
  { unfold y. destruct (div_999 mv ev Dv) as (ms & es & Hs & _); [lia|].
    fold V in Hs. fold step in Hs. rewrite Hs. reflexivity. }
  split; [exact Y0|]. split.
  - intros i Hi.
    destruct (sample_below_V (i + 1))
      as (ms & es & m2 & e2 & Hs & Ds & E2 & D2 & He2 & B2 & _); [lia|].
    destruct (Z.eq_dec i 0) as [->|Hne].
    + rewrite Y0. cbn [Z.add] in E2 |- *. rewrite E2. reflexivity.
    + destruct (sample_below_V i)
        as (ms' & es' & m1 & e1 & Hs' & _ & E1 & D1 & He1 & B1 & _); [lia|].
      rewrite Hs in Hs'. injection Hs' as <- <-.
      rewrite E1, E2.
      pose proof (digits_53_range ms Ds) as Rs.
      apply (ltb_by_value m1 m2 e1 e2 (es - 52)); trivial.
      replace ((i + 1) * Z.pos ms * 2 ^ 52)
        with (i * Z.pos ms * 2 ^ 52 + Z.pos ms * 2 ^ 52) in B2 by ring.
      change (2 ^ 52) with 4503599627370496 in *.
      change (2 ^ 62) with 4611686018427387904 in *.
      lia.
  - destruct (sample_below_V 998) as (ms & es & m' & e' & H); [lia|].
    apply H.
Qed.

(** Each sample is its own sum with the starting voltage 0. *)
Lemma sample_plus_start (i : Z) :
  0 <= i <= 998 -> F64.add (y i) F64.zero = y i.
Proof.
  intros Hi. apply add_zero_r.
  destruct (Z.eq_dec i 0) as [->|Hne].
  - rewrite (proj1 samples_increasing). discriminate.
  - destruct (sample_below_V i)
      as (ms & es & m' & e' & _ & _ & E & _); [lia|].
    rewrite E. discriminate.
Qed.

Lemma step_not_zero : F64.eqb step F64.zero = false.
Proof.
  destruct (div_999 mv ev Dv) as (ms & es & Hs & _); [lia|].
  fold V in Hs. fold step in Hs. rewrite Hs. reflexivity.
Qed.

End Samples.

Lemma set_last_snoc (l : list float) (x stop : float) :
  Np.set_last (l ++ [x]) stop = l ++ [stop].
Proof.
  unfold Np.set_last. rewrite removelast_last.
  destruct l; reflexivity.
Qed.

(** The voltages from 0 to a positive normal [V]: the products [i * step]
    for [i] from 0 to 998, then [V] itself. *)
Lemma linspace_normal (mv : positive) (ev : Z) :
  digits mv = 53 -> -47 <= ev <= 971 ->
  let V := S754_finite false mv ev in
  let step := F64.div V (F64.of_Z 999) in
  Np.linspace F64.zero V 1000 =
    map (fun i => F64.mul (F64.of_Z (Z.of_nat i)) step) (seq 0 999) ++ [V].
Proof.
  intros Dv Hev V step.
  unfold Np.linspace, Np.arange.
  change (Z.of_nat 1000 - 1) with 999.
  change (0 <? 999) with true. cbv iota.
  change (F64.sub V F64.zero) with V. fold step.
  unfold step, V. rewrite (step_not_zero mv ev Dv Hev). fold V. fold step.
  change (1 <? 1000)%nat with true. cbv iota.
  rewrite !map_map.
  change 1000%nat with (S 999). rewrite seq_S, map_app. cbn [map].
  rewrite set_last_snoc. f_equal.
  apply map_ext_in. intros i Hi. apply in_seq in Hi.
  apply (sample_plus_start mv ev Dv Hev). lia.
Qed.

Lemma nth_error_seq_lt (a len i : nat) :
  (i < len)%nat -> nth_error (seq a len) i = Some (a + i)%nat.
Proof.
  revert a i. induction len as [|len IH]; intros a [|i] Hi; cbn; try lia.
  - f_equal. lia.
  - rewrite IH by lia. f_equal. lia.
Qed.

Lemma nth_error_samples {A : Type} (g : nat -> A) (V : A) (i : nat) :
  (i <= 999)%nat ->
  nth_error (map g (seq 0 999) ++ [V]) i =
    Some (if (i <? 999)%nat then g i else V).
Proof.
  intros Hi. destruct (Nat.ltb_spec i 999) as [Hlt|Hge].
  - rewrite nth_error_app1 by (rewrite length_map, length_seq; exact Hlt).
    rewrite nth_error_map, nth_error_seq_lt by exact Hlt. reflexivity.
  - rewrite nth_error_app2 by (rewrite length_map, length_seq; exact Hge).
    rewrite length_map, length_seq.
    replace (i - 999)%nat with 0%nat by lia. reflexivity.
Qed.

Lemma to_float_72 (s : Z) (x : float) :
  Py.to_float (NInt (72 * s)) = Ok x ->
  F64.is_inf (F64.of_Z (72 * s)) = false.
Proof.
  unfold Py.to_float. destruct (F64.is_inf (F64.of_Z (72 * s)));
    [discriminate|reflexivity].
Qed.

(** C2. For an array built from positive integers, whenever [modelo_pv]
    returns, the column of voltages has exactly 1000 entries: entry [i], for
    [i] from 0 to 998, is the binary64 product of [i] and of the step
    [V_oc / 999], the first entry is 0, the last one is [V_oc] itself, and
    each entry is strictly below the next. *)
Theorem C2_voltage_samples `{NumLib} (s p : Z) (pv : PVModel) (G T : value)
    (res : DataFrame) (Vmpp Impp P_max : float) :
  0 < s -> 0 < p ->
  __init__ (VInt s) (VInt p) = Ok pv ->
  modelo_pv pv G T = Ok (res, Vmpp, Impp, P_max) ->
  let step := F64.div (V_oc pv) (F64.of_Z 999) in
  List.length (Voltaje res) = 1000%nat /\
  nth_error (Voltaje res) 0 = Some F64.zero /\
  nth_error (Voltaje res) 999 = Some (V_oc pv) /\
  (forall i, (i < 999)%nat ->
     nth_error (Voltaje res) i
       = Some (F64.mul (F64.of_Z (Z.of_nat i)) step)) /\
  (forall i v w,
     nth_error (Voltaje res) i = Some v ->
     nth_error (Voltaje res) (S i) = Some w ->
     F64.ltb v w = true).
Proof.
  intros Hs _ Hpv E step.
  apply modelo_pv_ok in E
    as (I_rs & I_o & I_ph & dv & Ipv & Ppv & _ & E1 & _ & _ & _ & _ & _ & E).
  apply max_power_point_ok in E as (-> & _). cbn [Voltaje].
  apply init_int_inv in Hpv. subst pv.
  assert (Hinf : F64.is_inf (F64.of_Z (72 * s)) = false).
  { unfold calc_I_rs, Py.fmul in E1. cbn [N_s n] in E1.
    destruct (Py.to_float (NInt (72 * s))) as [x|] eqn:Ex; [|discriminate].
    now apply to_float_72 in Ex. }
  destruct s as [|ps|ps]; try lia.
  destruct (V_oc_normal ps Hinf) as (mv & ev & HV & Dv & Hev).
  unfold Vpv_of. cbn [V_oc] in step |- *. unfold step. rewrite HV.
  rewrite (linspace_normal mv ev Dv Hev).
  destruct (samples_increasing mv ev Dv Hev) as (Y0 & Yi & Ylast).
  set (V := S754_finite false mv ev) in *.
  set (g := fun i : nat =>
              F64.mul (F64.of_Z (Z.of_nat i)) (F64.div V (F64.of_Z 999))).
  split; [|split; [|split; [|split]]].
  - rewrite length_app, length_map, length_seq. reflexivity.
  - etransitivity; [apply (nth_error_samples g V 0); lia|].
    cbn. f_equal. exact Y0.
  - etransitivity; [apply (nth_error_samples g V 999); lia|]. reflexivity.
  - intros i Hi.
    etransitivity; [apply (nth_error_samples g V i); lia|].
    apply Nat.ltb_lt in Hi. now rewrite Hi.
  - intros i v w Ev Ew.
    assert (Hi : (S i <= 999)%nat).
    { apply nth_error_lt in Ew.
      rewrite length_app, length_map, length_seq in Ew. cbn in Ew. lia. }
    assert (Ev' : Some v = Some (if (i <? 999)%nat then g i else V)).
    { rewrite <- Ev. apply (nth_error_samples g V i). lia. }
    assert (Ew' : Some w = Some (if (S i <? 999)%nat then g (S i) else V)).
    { rewrite <- Ew. apply (nth_error_samples g V (S i)). lia. }
    replace (i <? 999)%nat with true in Ev'
      by (symmetry; apply Nat.ltb_lt; lia).
    injection Ev' as ->.
    destruct (Nat.ltb_spec (S i) 999) as [Hlt|Hge]; injection Ew' as ->.
    + unfold g. rewrite Nat2Z.inj_succ, <- Z.add_1_r. apply Yi. lia.
    + replace i with 998%nat by lia. exact Ylast.
Qed.

Lemma C2_voltage_samples_witness :
  exists res Vmpp Impp P_max,
    @modelo_pv Demo.stalled Demo.pv43 (VInt 1000) (VInt 298)
      = Ok (res, Vmpp, Impp, P_max) /\
    List.length (Voltaje res) = 1000%nat /\
    nth_error (Voltaje res) 0 = Some F64.zero /\
    nth_error (Voltaje res) 999 = Some (V_oc Demo.pv43) /\
    (forall i, (i < 999)%nat ->
       nth_error (Voltaje res) i
         = Some (F64.mul (F64.of_Z (Z.of_nat i))
                   (F64.div (V_oc Demo.pv43) (F64.of_Z 999)))) /\
    (forall i v w,
       nth_error (Voltaje res) i = Some v ->
       nth_error (Voltaje res) (S i) = Some w ->
       F64.ltb v w = true).
Proof.
  destruct stalled_run_returns as (res & Vmpp & Impp & P_max & E).
  rewrite <- stalled_run_eq in E.
  exists res, Vmpp, Impp, P_max. split; [exact E|].
  apply (@C2_voltage_samples Demo.stalled 4 3 Demo.pv43
           (VInt 1000) (VInt 298) res Vmpp Impp P_max);
    [lia|lia|exact init_pv43|exact E].
Defined.

(** ** The point of maximal power and its row *)

(** X1. The three numbers [modelo_pv] returns beside the table are
    consistent: the maximal power is the binary64 product of the voltage and
    the current returned with it. *)
Theorem mpp_power_is_product `{NumLib} (self : PVModel) (G T : value)
    (res : DataFrame) (Vmpp Impp P_max : float) :
  modelo_pv self G T = Ok (res, Vmpp, Impp, P_max) ->
  P_max = F64.mul Vmpp Impp.
Proof.
  intros E.
  apply modelo_pv_ok in E
    as (I_rs & I_o & I_ph & dv & Ipv & Ppv & _ & _ & _ & _ & _ & _ & M & E).
  apply max_power_point_ok in E as (_ & i & _ & Ev & Ec & Ew).
  apply np_mul_ok in M as (_ & ->).
  rewrite (nth_error_map2 F64.mul _ _ i Vmpp Impp Ev Ec) in Ew.
  now injection Ew.
Qed.

Lemma mpp_power_is_product_witness :
  exists res Vmpp Impp P_max,
    @modelo_pv Demo.stalled Demo.pv43 (VInt 1000) (VInt 298)
      = Ok (res, Vmpp, Impp, P_max) /\
    P_max = F64.mul Vmpp Impp.
Proof.
  destruct stalled_run_returns as (res & Vmpp & Impp & P_max & E).
  rewrite <- stalled_run_eq in E.
  exists res, Vmpp, Impp, P_max. split; [exact E|].
  exact (@mpp_power_is_product Demo.stalled Demo.pv43
           (VInt 1000) (VInt 298) res Vmpp Impp P_max E).
Defined.

(** ** What the validation lets through *)

(** X3. [validate_inputs] raises nothing but its own four [ValueError]s.  An
    argument of another type, a [str] or [None], is reported by the same
    [ValueError] as a number out of range and never by a [TypeError]: the
    comparison with 0 is not evaluated for it. *)
Theorem validate_inputs_raises_value_errors_only
    (self : PVModel) (G T : value) (e : exn) :
  validate_inputs self G T = Raise e ->
  e = ValueError Msg.irradiancia \/ e = ValueError Msg.temperatura \/
  e = ValueError Msg.serie \/ e = ValueError Msg.paralelo.
Proof.
  rewrite validate_inputs_eq.
  destruct (failed_check Py.is_int_or_float G); [intros [= <-]; tauto|].
  destruct (failed_check Py.is_int_or_float T); [intros [= <-]; tauto|].
  destruct (failed_check Py.is_int (num_panels_series self));
    [intros [= <-]; tauto|].
  destruct (failed_check Py.is_int (num_panels_parallel self));
    [intros [= <-]; tauto|].
  discriminate.
Qed.

Lemma validate_inputs_raises_value_errors_only_witness :
  exists e,
    validate_inputs Demo.pv43 (VInt 1000) (VStr "298") = Raise e /\
    (e = ValueError Msg.irradiancia \/ e = ValueError Msg.temperatura \/
     e = ValueError Msg.serie \/ e = ValueError Msg.paralelo).
Proof.
  exists (ValueError Msg.temperatura). split; [reflexivity|].
  apply (validate_inputs_raises_value_errors_only
           Demo.pv43 (VInt 1000) (VStr "298") (ValueError Msg.temperatura)).
  reflexivity.
Defined.

(** X4. A NaN is not rejected.  On an array of positive panel counts,
    [validate_inputs] accepts every irradiance and temperature that is
    either a strictly positive number or NaN: [G <= 0] is false for NaN. *)
Theorem nan_is_not_rejected (self : PVModel) (G T : value) :
  Spec.positive_int (num_panels_series self) = true ->
  Spec.positive_int (num_panels_parallel self) = true ->
  Spec.is_nan G = true \/ Spec.positive_number G = true ->
  Spec.is_nan T = true \/ Spec.positive_number T = true ->
  validate_inputs self G T = Ok tt.
Proof.
  intros HS HP HG HT. rewrite validate_inputs_eq, !failed_check_int, HS, HP.
  assert (C : forall v,
             Spec.is_nan v = true \/ Spec.positive_number v = true ->
             failed_check Py.is_int_or_float v = false).
  { intros v [N|P].
    - destruct v as [z|b|x|s|]; try discriminate.
      destruct x; try discriminate. reflexivity.
    - destruct (Spec.is_nan v) eqn:N.
      + destruct v as [z|b|x|s|]; try discriminate.
        destruct x; discriminate.
      + rewrite (failed_check_number v N), P. reflexivity. }
  rewrite (C G HG), (C T HT). reflexivity.
Qed.

Lemma nan_is_not_rejected_witness :
  validate_inputs Demo.pv43 (VFloat S754_nan) (VFloat S754_nan) = Ok tt.
Proof.
  apply (nan_is_not_rejected Demo.pv43 (VFloat S754_nan) (VFloat S754_nan));
    solve [reflexivity | left; reflexivity].
Defined.

Lemma sub_nan_l (y : float) : F64.sub S754_nan y = S754_nan.
Proof. destruct y as [[]|[]| |[] m e]; reflexivity. Qed.

Lemma mul_nan_r (x : float) : F64.mul x S754_nan = S754_nan.
Proof. destruct x as [[]|[]| |[] m e]; reflexivity. Qed.

Lemma mul_nan_l (y : float) : F64.mul S754_nan y = S754_nan.
Proof. destruct y as [[]|[]| |[] m e]; reflexivity. Qed.

Lemma add_nan_r (x : float) : F64.add x S754_nan = S754_nan.
Proof. destruct x as [[]|[]| |[] m e]; reflexivity. Qed.

Lemma div_nan_l (y : float) : F64.div S754_nan y = S754_nan.
Proof. destruct y as [[]|[]| |[] m e]; reflexivity. Qed.

Lemma nth_error_map2_inv {A B C : Type} (g : A -> B -> C) (l1 : list A)
    (l2 : list B) (i : nat) (c : C) :
  nth_error (map2 g l1 l2) i = Some c ->
  exists a b, nth_error l1 i = Some a /\ nth_error l2 i = Some b /\
              c = g a b.
Proof.
  revert l2 i. induction l1 as [|a' l1 IH]; intros [|b' l2] [|i]; cbn;
    try discriminate.
  - intros [= <-]. now exists a', b'.
  - apply IH.
Qed.

(** The photogenerated current of line 60 is NaN as soon as the irradiance
    or the temperature is. *)
Lemma calc_I_ph_nan `{NumLib} (self : PVModel) (G T : value) (I_ph : float) :
  Spec.is_nan G = true \/ Spec.is_nan T = true ->
  calc_I_ph self G T = Ok I_ph -> I_ph = S754_nan.
Proof.
  intros HN. unfold calc_I_ph.
  destruct (Py.as_num T) as [t|] eqn:Et; cbn [bind]; [|discriminate].
  destruct (Py.sub t (NInt 298)) as [d1|] eqn:Ed1; cbn [bind];
    [|discriminate].
  destruct (Py.fmul (k_i self) d1) as [d2|] eqn:Ed2; cbn [bind];
    [|discriminate].
  destruct (Py.as_num G) as [g|] eqn:Eg; cbn [bind]; [|discriminate].
  destruct (Py.truediv g (NInt 1000)) as [g1|] eqn:Eg1; cbn [bind];
    [|discriminate].
  intros [= <-].
  destruct HN as [HN|HN].
  - destruct G as [zg|bg|xg|sg|]; try discriminate.
    destruct xg; try discriminate.
    injection Eg as <-. vm_compute in Eg1. injection Eg1 as <-.
    apply mul_nan_r.
  - destruct T as [z|b|x|s|]; try discriminate.
    destruct x; try discriminate.
    injection Et as <-. vm_compute in Ed1. injection Ed1 as <-.
    unfold Py.fmul in Ed2. cbn [Py.to_float bind] in Ed2.
    injection Ed2 as <-.
    rewrite mul_nan_r, add_nan_r. apply mul_nan_l.
Qed.

(** X5. A NaN irradiance or temperature spoils the circuit equation.  When
    [modelo_pv] returns on such an input, the photogenerated current is
    NaN, and the currents of the table are what the root-finder made of an
    equation whose residual is NaN at every sample, whatever currents it is
    evaluated at. *)
Theorem nan_condition_spoils_the_equation `{NumLib} (self : PVModel)
    (G T : value) (res : DataFrame) (Vmpp Impp P_max : float) :
  Spec.is_nan G = true \/ Spec.is_nan T = true ->
  modelo_pv self G T = Ok (res, Vmpp, Impp, P_max) ->
  calc_I_ph self G T = Ok S754_nan /\
  exists (I_o divisor : float) (status : Z),
    hybr (fun I => f self S754_nan I_o divisor I (Voltaje res)) (x0_of self)
      = (Corriente res, status) /\
    forall I j y,
      nth_error (f self S754_nan I_o divisor I (Voltaje res)) j = Some y ->
      y = S754_nan.
Proof.
  intros HN E.
  apply modelo_pv_ok in E
    as (I_rs & I_o & I_ph & dv & Ipv & Ppv & _ & _ & _ & E3 & _ & E5 & _ & E).
  apply max_power_point_ok in E as (-> & _). cbn [Corriente Voltaje].
  pose proof (calc_I_ph_nan self G T I_ph HN E3) as N. subst I_ph.
  split; [exact E3|].
  unfold Sp.fsolve in E5.
  destruct (hybr _ _) as [x status] eqn:Eh.
  destruct ((1 <=? status) && (status <=? 5)); [|discriminate].
  injection E5 as ->.
  exists I_o, dv, status.
  split; [exact Eh|].
  intros I j y Ey. unfold f in Ey.
  apply nth_error_map2_inv in Ey as (i & v & _ & _ & ->).
  now rewrite !sub_nan_l.
Qed.

Lemma nan_condition_spoils_the_equation_witness :
  exists res Vmpp Impp P_max,
    @modelo_pv Demo.stalled Demo.pv43 (VInt 1000) (VFloat S754_nan)
      = Ok (res, Vmpp, Impp, P_max) /\
    calc_I_ph Demo.pv43 (VInt 1000) (VFloat S754_nan) = Ok S754_nan /\
    exists (I_o divisor : float) (status : Z),
      @hybr Demo.stalled
        (fun I => @f Demo.stalled Demo.pv43 S754_nan I_o divisor I
                    (Voltaje res))
        (x0_of Demo.pv43) = (Corriente res, status) /\
      forall I j y,
        nth_error (@f Demo.stalled Demo.pv43 S754_nan I_o divisor I
                     (Voltaje res)) j = Some y ->
        y = S754_nan.
Proof.
  assert (R : exists res Vmpp Impp P_max,
             @modelo_pv Demo.stalled Demo.pv43 (VInt 1000)
               (VFloat S754_nan) = Ok (res, Vmpp, Impp, P_max)).
  { do 4 eexists. vm_compute. reflexivity. }
  destruct R as (res & Vmpp & Impp & P_max & E).
  exists res, Vmpp, Impp, P_max. split; [exact E|].
  apply (@nan_condition_spoils_the_equation Demo.stalled Demo.pv43
           (VInt 1000) (VFloat S754_nan) res Vmpp Impp P_max);
    [right; reflexivity|exact E].
Defined.

(** ** The point of maximal power within the sweep *)

(** What a run that returns leaves in its table. *)
Lemma modelo_pv_rows `{NumLib} (self : PVModel) (G T : value)
    (res : DataFrame) (Vmpp Impp P_max : float) :
  modelo_pv self G T = Ok (res, Vmpp, Impp, P_max) ->
  validate_inputs self G T = Ok tt /\
  Voltaje res = Vpv_of self /\
  List.length (Corriente res) = 1000%nat /\
  Potencia res = map2 F64.mul (Voltaje res) (Corriente res) /\
  exists i,
    nth_error (Voltaje res) i = Some Vmpp /\
    nth_error (Corriente res) i = Some Impp /\
    first_maximum (Potencia res) i P_max.
Proof.
  intros E.
  apply modelo_pv_ok in E
    as (I_rs & I_o & I_ph & dv & Ipv & Ppv & E0 & _ & _ & _ & _ & _ & M & E).
  apply max_power_point_ok in E as (-> & i & Ei & Ev & Ec & Ew).
  apply np_mul_ok in M as (L & ->).
  cbn [Potencia Voltaje Corriente].
  assert (LV : List.length (Vpv_of self) = 1000%nat)
    by apply length_linspace.
  repeat split; trivial; try congruence.
  exists i. repeat split; trivial.
  all: apply idxmax_some in Ei as (x & F);
    assert (x = P_max) as -> by (destruct F as [F _]; congruence);
    apply F.
Qed.

(** The array of a run that returns has a positive number of panels in
    series, small enough for [72 * s] to be a binary64 number. *)
Lemma series_of_a_run `{NumLib} (s p : Z) (pv : PVModel) (G T : value)
    (out : DataFrame * float * float * float) :
  __init__ (VInt s) (VInt p) = Ok pv ->
  modelo_pv pv G T = Ok out ->
  0 < s /\ 0 < p /\ F64.is_inf (F64.of_Z (72 * s)) = false.
Proof.
  intros Hpv E.
  apply modelo_pv_ok in E
    as (I_rs & I_o & I_ph & dv & Ipv & Ppv & E0 & E1 & _).
  apply init_int_inv in Hpv. subst pv.
  rewrite validate_inputs_eq in E0.
  destruct (failed_check Py.is_int_or_float G); [discriminate|].
  destruct (failed_check Py.is_int_or_float T); [discriminate|].
  cbn [num_panels_series num_panels_parallel] in E0.
  destruct (failed_check Py.is_int (VInt s)) eqn:Fs; [discriminate|].
  destruct (failed_check Py.is_int (VInt p)) eqn:Fp; [discriminate|].
  cbn in Fs, Fp. apply Z.leb_gt in Fs, Fp.
  repeat split; trivial.
  unfold calc_I_rs, Py.fmul in E1. cbn [N_s n] in E1.
  destruct (Py.to_float (NInt (72 * s))) as [x|] eqn:Ex; [|discriminate].
  now apply to_float_72 in Ex.
Qed.

(** The voltages of a run that returns, sample by sample. *)
Lemma Vpv_of_a_run `{NumLib} (s p : Z) (pv : PVModel) (G T : value)
    (out : DataFrame * float * float * float) :
  __init__ (VInt s) (VInt p) = Ok pv ->
  modelo_pv pv G T = Ok out ->
  exists (mv : positive) (ev : Z),
    V_oc pv = S754_finite false mv ev /\
    digits mv = 53 /\ -47 <= ev <= 971 /\
    Vpv_of pv =
      map (fun i => F64.mul (F64.of_Z (Z.of_nat i))
                      (F64.div (V_oc pv) (F64.of_Z 999)))
          (seq 0 999) ++ [V_oc pv].
Proof.
  intros Hpv E.
  destruct (series_of_a_run s p pv G T out Hpv E) as (Hs & _ & Hinf).
  apply init_int_inv in Hpv. subst pv.
  destruct s as [|ps|ps]; try lia.
  destruct (V_oc_normal ps Hinf) as (mv & ev & HV & Dv & Hev).
  exists mv, ev. unfold Vpv_of. cbn [V_oc]. rewrite HV.
  repeat split; trivial; try lia.
  apply (linspace_normal mv ev Dv Hev).
Qed.

Lemma leb_zero_positive (m : positive) (e : Z) :
  F64.leb F64.zero (S754_finite false m e) = true.
Proof. reflexivity. Qed.

(** Every sample lies between 0 and the open-circuit voltage. *)
Lemma sample_in_range (mv : positive) (ev : Z) (i : nat) (v : float) :
  digits mv = 53 -> -47 <= ev <= 971 ->
  let V := S754_finite false mv ev in
  nth_error
    (map (fun i => F64.mul (F64.of_Z (Z.of_nat i))
                     (F64.div V (F64.of_Z 999)))
         (seq 0 999) ++ [V]) i = Some v ->
  F64.leb F64.zero v = true /\ F64.leb v V = true /\
  (i = 0%nat -> v = F64.zero) /\
  ((0 < i)%nat -> F64.ltb F64.zero v = true).
Proof.
  intros Dv Hev V Ev.
  set (g := fun i : nat =>
              F64.mul (F64.of_Z (Z.of_nat i)) (F64.div V (F64.of_Z 999)))
    in Ev.
  assert (Hi : (i <= 999)%nat).
  { apply nth_error_lt in Ev.
    rewrite length_app, length_map, length_seq in Ev. cbn in Ev. lia. }
  assert (Ev' : Some v = Some (if (i <? 999)%nat then g i else V)).
  { rewrite <- Ev. apply (nth_error_samples g V i). lia. }
  destruct (samples_increasing mv ev Dv Hev) as (Y0 & _ & _).
  destruct (Nat.ltb_spec i 999) as [Hlt|Hge]; injection Ev' as ->.
  - destruct i as [|i].
    + unfold g. cbn [Z.of_nat]. fold V in Y0. rewrite Y0.
      repeat split; trivial. lia.
    + destruct (sample_below_V mv ev Dv Hev (Z.of_nat (S i)))
        as (ms & es & m' & e' & _ & _ & E & _ & _ & _ & L); [lia|].
      fold V in E, L. unfold g. rewrite E in L |- *.
      repeat split; trivial; try discriminate.
      now apply ltb_leb.
  - repeat split; try reflexivity; try lia.
    unfold V. apply leb_refl. reflexivity.
Qed.

(** X6. The voltage of maximal power lies within the sweep: for an array
    built from integers, it is at least 0 and at most the open-circuit
    voltage [V_oc]. *)
Theorem mpp_voltage_within_sweep `{NumLib} (s p : Z) (pv : PVModel)
    (G T : value) (res : DataFrame) (Vmpp Impp P_max : float) :
  __init__ (VInt s) (VInt p) = Ok pv ->
  modelo_pv pv G T = Ok (res, Vmpp, Impp, P_max) ->
  F64.leb F64.zero Vmpp = true /\ F64.leb Vmpp (V_oc pv) = true.
Proof.
  intros Hpv E.
  destruct (Vpv_of_a_run s p pv G T _ Hpv E)
    as (mv & ev & HV & Dv & Hev & HS).
  apply modelo_pv_rows in E as (_ & EV & _ & _ & i & Ev & _).
  rewrite EV, HS, HV in Ev. rewrite HV.
  destruct (sample_in_range mv ev i Vmpp Dv Hev Ev) as (L0 & L1 & _).
  split; assumption.
Qed.

Lemma mpp_voltage_within_sweep_witness :
  exists res Vmpp Impp P_max,
    @modelo_pv Demo.stalled Demo.pv43 (VInt 1000) (VInt 298)
      = Ok (res, Vmpp, Impp, P_max) /\
    F64.leb F64.zero Vmpp = true /\ F64.leb Vmpp (V_oc Demo.pv43) = true.
Proof.
  destruct stalled_run_returns as (res & Vmpp & Impp & P_max & E).
  rewrite <- stalled_run_eq in E.
  exists res, Vmpp, Impp, P_max. split; [exact E|].
  exact (@mpp_voltage_within_sweep Demo.stalled 4 3 Demo.pv43
           (VInt 1000) (VInt 298) res Vmpp Impp P_max init_pv43 E).
Defined.

Lemma mul_zero_finite (x : float) :
  F64.is_finite x = true -> F64.is_zero (F64.mul F64.zero x) = true.
Proof. destruct x as [[]|[]| |[] m e]; cbn; congruence. Qed.

Lemma leb_zero_any_sign (x y : float) :
  F64.is_zero x = true -> F64.leb x y = true -> F64.leb F64.zero y = true.
Proof.
  destruct x as [[]|[]| |[] m e]; try discriminate; intros _;
    destruct y as [[]|[]| |[] my ey]; cbn; congruence.
Qed.

(** X7. The sweep starts at the short circuit, where no power is delivered:
    the first row of the table has voltage 0 and, when its current is
    finite, a power that is a zero.  The maximal power is then not
    negative. *)
Theorem max_power_is_not_negative `{NumLib} (s p : Z) (pv : PVModel)
    (G T : value) (res : DataFrame) (Vmpp Impp P_max i0 : float) :
  __init__ (VInt s) (VInt p) = Ok pv ->
  modelo_pv pv G T = Ok (res, Vmpp, Impp, P_max) ->
  nth_error (Corriente res) 0 = Some i0 ->
  F64.is_finite i0 = true ->
  nth_error (Voltaje res) 0 = Some F64.zero /\
  (exists p0, nth_error (Potencia res) 0 = Some p0 /\
              F64.is_zero p0 = true) /\
  F64.leb F64.zero P_max = true.
Proof.
  intros Hpv E Ei0 Fi0.
  destruct (Vpv_of_a_run s p pv G T _ Hpv E)
    as (mv & ev & HV & Dv & Hev & HS).
  apply modelo_pv_rows in E as (_ & EV & _ & EP & i & _ & _ & F).
  assert (E0 : nth_error (Voltaje res) 0 = Some F64.zero).
  { rewrite EV, HS, HV.
    destruct (samples_increasing mv ev Dv Hev) as (Y0 & _ & _).
    etransitivity; [apply nth_error_samples; lia|].
    cbn [Nat.ltb Nat.leb Z.of_nat]. f_equal. exact Y0. }
  assert (P0 : nth_error (Potencia res) 0 = Some (F64.mul F64.zero i0)).
  { rewrite EP. now apply nth_error_map2. }
  pose proof (mul_zero_finite i0 Fi0) as Z0.
  split; [exact E0|].
  split; [exists (F64.mul F64.zero i0); split; [exact P0|exact Z0]|].
  assert (A : F64.ltb (S754_infinity true) (F64.mul F64.zero i0) = true)
    by (destruct (F64.mul F64.zero i0) as [[]|[]| |[] m e];
        try discriminate; reflexivity).
  pose proof (first_maximum_above _ _ _ _ _ F P0 A) as NP.
  destruct (first_maximum_number _ _ _ F NP) as [Hle _].
  destruct (Hle _ _ P0) as [N|L].
  - destruct (F64.mul F64.zero i0); discriminate.
  - exact (leb_zero_any_sign _ _ Z0 L).
Qed.

Lemma max_power_is_not_negative_witness :
  exists res Vmpp Impp P_max,
    @modelo_pv Demo.stalled Demo.pv43 (VInt 1000) (VInt 298)
      = Ok (res, Vmpp, Impp, P_max) /\
    nth_error (Corriente res) 0 = Some (I_sc Demo.pv43) /\
    nth_error (Voltaje res) 0 = Some F64.zero /\
    (exists p0, nth_error (Potencia res) 0 = Some p0 /\
                F64.is_zero p0 = true) /\
    F64.leb F64.zero P_max = true.
Proof.
  destruct stalled_run_currents as (res & Vmpp & Impp & P_max & E & EC).
  rewrite <- stalled_run_eq in E.
  assert (E0 : nth_error (Corriente res) 0 = Some (I_sc Demo.pv43))
    by (rewrite EC; vm_compute; reflexivity).
  exists res, Vmpp, Impp, P_max. split; [exact E|]. split; [exact E0|].
  apply (@max_power_is_not_negative Demo.stalled 4 3 Demo.pv43
           (VInt 1000) (VInt 298) res Vmpp Impp P_max (I_sc Demo.pv43)
           init_pv43 E E0).
  reflexivity.
Defined.

(** ** Signs and units *)

(** The sign of a rounded number is the sign it was given. *)
Lemma round_aux_sign (sx : bool) (m e : Z) (l : location) :
  match binary_round_aux F64.prec F64.emax sx m e l with
  | S754_zero s' | S754_infinity s' | S754_finite s' _ _ => s' = sx
  | S754_nan => True
  end.
Proof.
  unfold binary_round_aux.
  destruct (shr_fexp F64.prec F64.emax m e l) as [mrs' e'].
  destruct (shr_fexp F64.prec F64.emax _ e' loc_Exact) as [mrs'' e''].
  destruct (shr_m mrs'') as [|m'|m']; trivial.
  destruct (e'' <=? F64.emax - F64.prec); reflexivity.
Qed.

(** Overflow does not depend on the sign. *)
Lemma round_aux_is_inf (sx sy : bool) (m e : Z) (l : location) :
  F64.is_inf (binary_round_aux F64.prec F64.emax sx m e l) =
  F64.is_inf (binary_round_aux F64.prec F64.emax sy m e l).
Proof.
  unfold binary_round_aux.
  destruct (shr_fexp F64.prec F64.emax m e l) as [mrs' e'].
  destruct (shr_fexp F64.prec F64.emax _ e' loc_Exact) as [mrs'' e''].
  destruct (shr_m mrs'') as [|m'|m']; trivial.
  destruct (e'' <=? F64.emax - F64.prec); reflexivity.
Qed.

Lemma of_Z_neg_is_inf (z : positive) :
  F64.is_inf (F64.of_Z (Z.neg z)) = F64.is_inf (F64.of_Z (Z.pos z)).
Proof.
  unfold F64.of_Z, binary_normalize, binary_round.
  destruct (shl_align z 0 _) as [mz ez].
  apply round_aux_is_inf.
Qed.

Lemma of_Z_is_finite (z : Z) :
  Z.abs z < 2 ^ 1023 -> F64.is_inf (F64.of_Z z) = false.
Proof.
  intros Hz.
  assert (P : forall p : positive,
             Z.pos p < 2 ^ 1023 -> F64.is_inf (F64.of_Z (Z.pos p)) = false).
  { intros p Hp. destruct (F64.is_inf (F64.of_Z (Z.pos p))) eqn:E; trivial.
    apply of_Z_inf_bound in E; lia. }
  destruct z as [|z|z].
  - reflexivity.
  - now apply P.
  - rewrite of_Z_neg_is_inf. now apply P.
Qed.

(** An [int] of 1025 binary digits or more is beyond the binary64 range. *)
Lemma of_Z_huge (z : Z) :
  2 ^ 1024 <= z -> F64.is_inf (F64.of_Z z) = true.
Proof.
  intros Hz.
  assert (P : 0 < 2 ^ 1024) by (apply Z.pow_pos_nonneg; lia).
  destruct z as [|z|z]; try (exfalso; lia).
  destruct (of_Z_pos z) as (m' & e' & R & _ & He & _).
  pose proof (digits_bounds z) as [_ U].
  assert (Hd : 1025 <= digits z).
  { destruct (Z.le_gt_cases 1025 (digits z)) as [|N]; trivial.
    assert (2 ^ digits z <= 2 ^ 1024) by (apply Z.pow_le_mono_r; lia).
    lia. }
  rewrite R.
  replace (e' <=? 971) with false by (symmetry; apply Z.leb_gt; lia).
  reflexivity.
Qed.

Lemma mul_comm (x y : float) : F64.mul x y = F64.mul y x.
Proof.
  destruct x as [sx|sx| |sx mx ex], y as [sy|sy| |sy my ey];
    unfold F64.mul, SFmul; try rewrite (xorb_comm sx sy); try reflexivity.
  now rewrite (Pos.mul_comm mx my), (Z.add_comm ex ey).
Qed.

(** Multiplying a number in normal form by 1.0 changes nothing. *)
Lemma mul_one_r (sx : bool) (m : positive) (e : Z) :
  digits m = 53 -> -1074 <= e <= 971 ->
  F64.mul (S754_finite sx m e) F64.one = S754_finite sx m e.
Proof.
  intros D He. unfold F64.mul, SFmul, F64.one. rewrite xorb_false_r.
  rewrite (round_aux_exact sx (m * 4503599627370496) m (e + -52) 52);
    trivial; try lia.
  all: try (f_equal; lia).
  all: try (now rewrite Pos2Z.inj_mul).
Qed.

(** The short-circuit current of an array: a positive number in normal
    form, or an infinity when [9.35 * p] overflows. *)
Lemma I_sc_shape (p : positive) :
  F64.is_inf (F64.of_Z (Z.pos p)) = false ->
  (exists (m : positive) (e : Z),
     F64.mul Lit.f9_35 (F64.of_Z (Z.pos p)) = S754_finite false m e /\
     digits m = 53 /\ -49 <= e <= 971) \/
  F64.mul Lit.f9_35 (F64.of_Z (Z.pos p)) = S754_infinity false.
Proof.
  intros Hinf.
  destruct (of_Z_pos p) as (mp & ep & R & D & He & _).
  pose proof (digits_pos p) as Hd.
  rewrite R in Hinf |- *.
  destruct (ep <=? 971) eqn:Le; [|discriminate].
  apply Z.leb_le in Le. unfold Lit.f9_35.
  destruct (mul_normal 5263582064489267 mp (-49) ep)
    as (m' & k & R2 & D' & Hk0 & Hk & _); trivial; try lia.
  rewrite R2.
  destruct (-49 + ep + k <=? 971) eqn:L2; [left|right; reflexivity].
  apply Z.leb_le in L2. exists m', (-49 + ep + k).
  repeat split; trivial; lia.
Qed.

Lemma I_sc_times_one (p : Z) :
  0 < p -> F64.is_inf (F64.of_Z p) = false ->
  F64.mul (F64.mul Lit.f9_35 (F64.of_Z p)) F64.one =
    F64.mul Lit.f9_35 (F64.of_Z p).
Proof.
  intros Hp Hinf. destruct p as [|p|p]; try lia.
  destruct (I_sc_shape p Hinf) as [(m & e & -> & D & He)| ->].
  - apply mul_one_r; trivial. lia.
  - reflexivity.
Qed.

Lemma map_const_repeat {A B : Type} (c : B) (l : list A) :
  map (fun _ => c) l = repeat c (List.length l).
Proof. induction l as [|a l IH]; cbn; [reflexivity|now rewrite IH]. Qed.

Lemma map_repeat {A B : Type} (g : A -> B) (a : A) (k : nat) :
  map g (repeat a k) = repeat (g a) k.
Proof. induction k as [|k IH]; cbn; [reflexivity|now rewrite IH]. Qed.

(** The starting point of line 72, [self.I_sc * np.ones_like(Vpv)]: a
    thousand copies of [I_sc], none of them altered by the product. *)
Lemma x0_of_init (s p : Z) (pv : PVModel) :
  0 < p -> __init__ (VInt s) (VInt p) = Ok pv ->
  x0_of pv = repeat (I_sc pv) 1000.
Proof.
  intros Hp Hpv.
  assert (Hinf : F64.is_inf (F64.of_Z p) = false).
  { rewrite init_int in Hpv.
    destruct (F64.is_inf (F64.of_Z p)); [discriminate|reflexivity]. }
  apply init_int_inv in Hpv. subst pv.
  unfold x0_of, Np.scale, Np.ones_like.
  rewrite map_const_repeat. unfold Vpv_of. rewrite length_linspace.
  rewrite map_repeat. cbn [I_sc]. f_equal.
  now apply I_sc_times_one.
Qed.

(** X8. The root-finder starts from the short-circuit current at every
    sample.  For an array built from integers, the currents of the table are
    what the root-finder returned, with a status from 1 to 5, for the
    circuit equation of the three currents of lines 56 to 60 over the
    voltages of the table, when started from a thousand copies of [I_sc]:
    the product with the array of ones of line 72 leaves [I_sc] as it
    is. *)
Theorem root_finder_starts_from_I_sc `{NumLib} (s p : Z) (pv : PVModel)
    (G T : value) (res : DataFrame) (Vmpp Impp P_max : float) :
  __init__ (VInt s) (VInt p) = Ok pv ->
  modelo_pv pv G T = Ok (res, Vmpp, Impp, P_max) ->
  exists (I_rs I_o I_ph divisor : float) (status : Z),
    calc_I_rs pv T = Ok I_rs /\
    calc_I_o pv I_rs T = Ok I_o /\
    calc_I_ph pv G T = Ok I_ph /\
    f_divisor pv T = Ok divisor /\
    hybr (fun I => f pv I_ph I_o divisor I (Voltaje res))
      (repeat (I_sc pv) 1000) = (Corriente res, status) /\
    1 <= status <= 5.
Proof.
  intros Hpv E.
  destruct (series_of_a_run s p pv G T _ Hpv E) as (_ & Hp & _).
  apply modelo_pv_ok in E
    as (I_rs & I_o & I_ph & dv & Ipv & Ppv & _ & E1 & E2 & E3 & E4 & E5 & _
        & E).
  apply max_power_point_ok in E as (-> & _). cbn [Corriente Voltaje].
  rewrite (x0_of_init s p pv Hp Hpv) in E5.
  unfold Sp.fsolve in E5.
  destruct (hybr _ _) as [x status] eqn:Eh.
  destruct ((1 <=? status) && (status <=? 5)) eqn:Est; [|discriminate].
  injection E5 as ->.
  apply andb_prop in Est as [L U]. apply Z.leb_le in L, U.
  exists I_rs, I_o, I_ph, dv, status.
  repeat split; trivial.
Qed.

Lemma root_finder_starts_from_I_sc_witness :
  exists res Vmpp Impp P_max,
    @modelo_pv Demo.stalled Demo.pv43 (VInt 1000) (VInt 298)
      = Ok (res, Vmpp, Impp, P_max) /\
    exists (I_rs I_o I_ph divisor : float) (status : Z),
      @calc_I_rs Demo.stalled Demo.pv43 (VInt 298) = Ok I_rs /\
      @calc_I_o Demo.stalled Demo.pv43 I_rs (VInt 298) = Ok I_o /\
      calc_I_ph Demo.pv43 (VInt 1000) (VInt 298) = Ok I_ph /\
      f_divisor Demo.pv43 (VInt 298) = Ok divisor /\
      @hybr Demo.stalled
        (fun I => @f Demo.stalled Demo.pv43 I_ph I_o divisor I (Voltaje res))
        (repeat (I_sc Demo.pv43) 1000) = (Corriente res, status) /\
      1 <= status <= 5.
Proof.
  destruct stalled_run_returns as (res & Vmpp & Impp & P_max & E).
  rewrite <- stalled_run_eq in E.
  exists res, Vmpp, Impp, P_max. split; [exact E|].
  exact (@root_finder_starts_from_I_sc Demo.stalled 4 3 Demo.pv43
           (VInt 1000) (VInt 298) res Vmpp Impp P_max init_pv43 E).
Defined.

Lemma mul_positive_inv (x y : float) :
  F64.ltb F64.zero x = true ->
  F64.ltb F64.zero (F64.mul x y) = true ->
  F64.ltb F64.zero y = true.
Proof.
  destruct x as [[]|[]| |[] mx ex]; try discriminate; intros _;
    destruct y as [[]|[]| |[] my ey]; try discriminate; trivial.
  unfold F64.mul, SFmul. cbn [xorb].
  pose proof (round_aux_sign true (Z.pos (mx * my)) (ex + ey) loc_Exact) as S.
  destruct (binary_round_aux _ _ _ _ _ _) as [s'|s'| |s' m' e'];
    try discriminate; subst s'; discriminate.
Qed.

(** X9. A positive maximal power is delivered at a positive voltage and a
    positive current: the row of maximal power is then not the first one,
    where the voltage is 0. *)
Theorem positive_power_at_positive_voltage_and_current `{NumLib}
    (s p : Z) (pv : PVModel) (G T : value) (res : DataFrame)
    (Vmpp Impp P_max : float) :
  __init__ (VInt s) (VInt p) = Ok pv ->
  modelo_pv pv G T = Ok (res, Vmpp, Impp, P_max) ->
  F64.ltb F64.zero P_max = true ->
  F64.ltb F64.zero Vmpp = true /\ F64.ltb F64.zero Impp = true /\
  nth_error (Voltaje res) 0 <> Some Vmpp.
Proof.
  intros Hpv E HP.
  destruct (Vpv_of_a_run s p pv G T _ Hpv E)
    as (mv & ev & HV & Dv & Hev & HS).
  apply modelo_pv_rows in E as (_ & EV & _ & EP & i & Ev & Ec & F).
  assert (EPm : P_max = F64.mul Vmpp Impp).
  { destruct F as (Ew & _). rewrite EP in Ew.
    rewrite (nth_error_map2 F64.mul _ _ i Vmpp Impp Ev Ec) in Ew.
    now injection Ew. }
  subst P_max.
  assert (E0 : nth_error (Voltaje res) 0 = Some F64.zero).
  { rewrite EV, HS, HV.
    destruct (samples_increasing mv ev Dv Hev) as (Y0 & _ & _).
    etransitivity; [apply nth_error_samples; lia|].
    cbn [Nat.ltb Nat.leb Z.of_nat]. f_equal. exact Y0. }
  rewrite EV, HS, HV in Ev.
  destruct (sample_in_range mv ev i Vmpp Dv Hev Ev) as (_ & _ & Z0 & Pos).
  assert (Hi : (0 < i)%nat).
  { destruct i as [|i]; [|lia]. rewrite (Z0 eq_refl) in HP.
    destruct Impp as [[]|[]| |[] m e]; discriminate. }
  specialize (Pos Hi).
  split; [exact Pos|]. split; [exact (mul_positive_inv _ _ Pos HP)|].
  rewrite E0. intros [= <-]. discriminate.
Qed.

Lemma positive_power_at_positive_voltage_and_current_witness :
  exists res Vmpp Impp P_max,
    @modelo_pv Demo.stalled Demo.pv43 (VInt 1000) (VInt 298)
      = Ok (res, Vmpp, Impp, P_max) /\
    F64.ltb F64.zero P_max = true /\
    F64.ltb F64.zero Vmpp = true /\ F64.ltb F64.zero Impp = true /\
    nth_error (Voltaje res) 0 <> Some Vmpp.
Proof.
  assert (R : exists res Vmpp Impp P_max,
             Demo.stalled_run = Ok (res, Vmpp, Impp, P_max) /\
             F64.ltb F64.zero P_max = true).
  { unfold Demo.stalled_run. do 4 eexists. split; reflexivity. }
  destruct R as (res & Vmpp & Impp & P_max & E & HP).
  rewrite <- stalled_run_eq in E.
  exists res, Vmpp, Impp, P_max. split; [exact E|]. split; [exact HP|].
  exact (@positive_power_at_positive_voltage_and_current Demo.stalled 4 3
           Demo.pv43 (VInt 1000) (VInt 298) res Vmpp Impp P_max
           init_pv43 E HP).
Defined.

(** ** The divisor of the exponentials *)

Lemma of_Z_pos_shape (z : positive) :
  F64.is_inf (F64.of_Z (Z.pos z)) = false ->
  exists (m : positive) (e : Z),
    F64.of_Z (Z.pos z) = S754_finite false m e /\
    digits m = 53 /\ -52 <= e <= 971.
Proof.
  intros Hinf.
  destruct (of_Z_pos z) as (m & e & R & D & He & _).
  pose proof (digits_pos z) as Hd.
  rewrite R in Hinf |- *.
  destruct (e <=? 971) eqn:Le; [|discriminate].
  apply Z.leb_le in Le. exists m, e. repeat split; trivial; lia.
Qed.

Lemma mul_one_l (sx : bool) (m : positive) (e : Z) :
  digits m = 53 -> -1074 <= e <= 971 ->
  F64.mul F64.one (S754_finite sx m e) = S754_finite sx m e.
Proof. intros D He. rewrite mul_comm. now apply mul_one_r. Qed.

(** Line 56 in two steps: its divisor, then the quotient and the
    exponential. *)
Lemma calc_I_rs_by_divisor `{NumLib} (self : PVModel) (T : value) :
  calc_I_rs self T =
    (d <- I_rs_divisor self T ;;
     arg <- Py.fdiv (F64.mul (q self) (V_oc self)) d ;;
     Ok (F64.div (I_sc self) (F64.sub (np_exp arg) F64.one))).
Proof.
  unfold calc_I_rs, I_rs_divisor.
  destruct (Py.fmul (n self) (N_s self)) as [b1|]; [|reflexivity].
  cbn [bind].
  destruct (Py.as_num T) as [t|]; [|reflexivity].
  cbn [bind].
  destruct (Py.fmul _ t) as [b3|]; reflexivity.
Qed.

(** X10. Lines 56 and 69 divide by the same number.  They write the divisor
    of the exponential with its factors in two orders, [n * N_s * K * T]
    and [n * K * N_s * T]; for an array built from a positive integer the
    two products are the same binary64 number, and they raise the same
    exceptions, whatever [T] is. *)
Theorem divisors_of_lines_56_and_69_agree `{NumLib} (s p : Z)
    (pv : PVModel) (T : value) :
  0 < s ->
  __init__ (VInt s) (VInt p) = Ok pv ->
  f_divisor pv T = I_rs_divisor pv T /\
  calc_I_rs pv T =
    (d <- f_divisor pv T ;;
     arg <- Py.fdiv (F64.mul (q pv) (V_oc pv)) d ;;
     Ok (F64.div (I_sc pv) (F64.sub (np_exp arg) F64.one))).
Proof.
  intros Hs Hpv.
  assert (E : f_divisor pv T = I_rs_divisor pv T).
  { apply init_int_inv in Hpv. subst pv.
    unfold f_divisor, I_rs_divisor, Py.fmul. cbn [n K N_s].
    unfold Py.to_float at 1 3.
    destruct (F64.is_inf (F64.of_Z (72 * s))) eqn:Hinf; [reflexivity|].
    cbn [bind].
    assert (Hm : F64.mul (F64.mul Lit.f1_0 Lit.f1_3806503e_23)
                   (F64.of_Z (72 * s)) =
                 F64.mul (F64.mul Lit.f1_0 (F64.of_Z (72 * s)))
                   Lit.f1_3806503e_23).
    { destruct s as [|ps|ps]; try lia.
      change (72 * Z.pos ps) with (Z.pos (72 * ps)) in *.
      destruct (of_Z_pos_shape (72 * ps) Hinf) as (m & e & -> & D & He).
      unfold Lit.f1_0. rewrite (mul_one_l false m e D) by lia.
      change (F64.mul F64.one Lit.f1_3806503e_23) with Lit.f1_3806503e_23.
      apply mul_comm. }
    rewrite Hm. reflexivity. }
  split; [exact E|]. rewrite E. apply calc_I_rs_by_divisor.
Qed.

Lemma divisors_of_lines_56_and_69_agree_witness :
  f_divisor Demo.pv43 (VInt 298) = I_rs_divisor Demo.pv43 (VInt 298) /\
  @calc_I_rs Demo.stalled Demo.pv43 (VInt 298) =
    (d <- f_divisor Demo.pv43 (VInt 298) ;;
     arg <- Py.fdiv (F64.mul (q Demo.pv43) (V_oc Demo.pv43)) d ;;
     Ok (F64.div (I_sc Demo.pv43)
           (F64.sub (@np_exp Demo.stalled arg) F64.one))).
Proof.
  apply (@divisors_of_lines_56_and_69_agree Demo.stalled 4 3 Demo.pv43
           (VInt 298)); [lia|exact init_pv43].
Defined.

(** ** The photogenerated current at the reference temperature *)

Lemma I_sc_plus_zero (p : Z) :
  0 < p -> F64.is_inf (F64.of_Z p) = false ->
  F64.add (F64.mul Lit.f9_35 (F64.of_Z p)) F64.zero =
    F64.mul Lit.f9_35 (F64.of_Z p).
Proof.
  intros Hp Hinf. destruct p as [|p|p]; try lia.
  apply add_zero_r.
  destruct (I_sc_shape p Hinf) as [(m & e & -> & _)| ->]; discriminate.
Qed.

(** X11. At the reference temperature, 298 K given as an [int] or as a
    [float], the corrections of lines 58 and 60 vanish exactly.  The
    photogenerated current is [I_sc * (G / 1000)], and at 1000 W/m2 it is
    the short-circuit current itself; the saturation current is [I_rs]
    times 1.0 times the exponential of 0.0. *)
Theorem currents_at_reference_temperature `{NumLib} (s p : Z)
    (pv : PVModel) (G T : value) (g : num) :
  0 < p ->
  __init__ (VInt s) (VInt p) = Ok pv ->
  T = VInt 298 \/ T = VFloat Spec.T_ref ->
  Py.as_num G = Ok g ->
  calc_I_ph pv G T =
    (g1000 <- Py.truediv g (NInt 1000) ;; Ok (F64.mul (I_sc pv) g1000)) /\
  calc_I_ph pv (VInt 1000) T = Ok (I_sc pv) /\
  (forall I_rs, calc_I_o pv I_rs T =
     Ok (F64.mul (F64.mul I_rs F64.one) (np_exp F64.zero))).
Proof.
  intros Hp Hpv HT Hg.
  assert (Hinf : F64.is_inf (F64.of_Z p) = false).
  { rewrite init_int in Hpv.
    destruct (F64.is_inf (F64.of_Z p)); [discriminate|reflexivity]. }
  apply init_int_inv in Hpv. subst pv.
  assert (D : (t <- Py.as_num T ;;
               d1 <- Py.sub t (NInt 298) ;; Py.fmul Lit.f0_037 d1)
              = Ok F64.zero)
    by (destruct HT as [-> | ->]; vm_compute; reflexivity).
  assert (C : forall G' g', Py.as_num G' = Ok g' ->
            calc_I_ph
              {| R_sh := Lit.f545_82; k_i := Lit.f0_037; T_n := 298;
                 q := Lit.f1_60217646e_19; n := Lit.f1_0;
                 K := Lit.f1_3806503e_23; E_g0 := Lit.f1_1;
                 R_s := Lit.f0_39; num_panels_series := VInt s;
                 num_panels_parallel := VInt p;
                 I_sc := F64.mul Lit.f9_35 (F64.of_Z p);
                 V_oc := F64.mul Lit.f47_4 (F64.of_Z s);
                 N_s := NInt (72 * s) |} G' T =
            (g1000 <- Py.truediv g' (NInt 1000) ;;
             Ok (F64.mul (F64.mul Lit.f9_35 (F64.of_Z p)) g1000))).
  { intros G' g' Hg'. unfold calc_I_ph. cbn [k_i I_sc].
    destruct (Py.as_num T) as [t|]; cbn [bind] in D |- *; [|discriminate].
    destruct (Py.sub t (NInt 298)) as [d1|]; cbn [bind] in D |- *;
      [|discriminate].
    rewrite D. cbn [bind]. rewrite Hg'. cbn [bind].
    now rewrite (I_sc_plus_zero p Hp Hinf). }
  split; [exact (C G g Hg)|]. split.
  - rewrite (C (VInt 1000) (NInt 1000) eq_refl). cbn [I_sc].
    change (Py.truediv (NInt 1000) (NInt 1000)) with (Ok F64.one).
    cbn [bind]. f_equal. now apply I_sc_times_one.
  - intros I_rs. unfold calc_I_o. cbn [T_n n K q E_g0].
    destruct HT as [-> | ->].
    all: repeat match goal with
         | |- context [bind ?m _] =>
             let v := eval vm_compute in m in
             progress change m with v; cbn [bind]
         end.
    all: reflexivity.
Qed.

Lemma currents_at_reference_temperature_witness :
  calc_I_ph Demo.pv43 (VFloat Lit.f545_82) (VInt 298) =
    (g1000 <- Py.truediv (NFloat Lit.f545_82) (NInt 1000) ;;
     Ok (F64.mul (I_sc Demo.pv43) g1000)) /\
  calc_I_ph Demo.pv43 (VInt 1000) (VInt 298) = Ok (I_sc Demo.pv43) /\
  (forall I_rs, @calc_I_o Demo.stalled Demo.pv43 I_rs (VInt 298) =
     Ok (F64.mul (F64.mul I_rs F64.one) (@np_exp Demo.stalled F64.zero))).
Proof.
  apply (@currents_at_reference_temperature Demo.stalled 4 3 Demo.pv43
           (VFloat Lit.f545_82) (VInt 298) (NFloat Lit.f545_82));
    [lia|exact init_pv43|left; reflexivity|reflexivity].
Defined.

(** ** Exceptions past the validation *)

(** What the part of [modelo_pv] after line 60 can raise: the [TypeError]
    of [fsolve], the [ValueError] of a product of arrays of different
    lengths, the [KeyError] of the lookup of the maximum. *)
Lemma tail_raises `{NumLib} (func : list float -> list float)
    (x0 Vpv : list float) (e : exn) :
  (Ipv <- Sp.fsolve func x0 ;;
   Ppv <- Np.mul Vpv Ipv ;;
   max_power_point Ipv Vpv Ppv) = Raise e ->
  e <> OverflowError /\ e <> ZeroDivisionError.
Proof.
  intros E.
  assert (N : e = TypeError \/ e = KeyError \/ exists m, e = ValueError m).
  { revert E. unfold Sp.fsolve. destruct (hybr func x0) as [x st].
    destruct ((1 <=? st) && (st <=? 5)); cbn [bind].
    2:{ intros [= <-]. now left. }
    unfold Np.mul. destruct (_ =? _)%nat; cbn [bind].
    2:{ intros [= <-]. right. right. eexists. reflexivity. }
    unfold max_power_point. cbn [Potencia Voltaje Corriente].
    destruct (Pd.idxmax _) as [label|e'] eqn:El; cbn [bind].
    2:{ intros [= <-]. apply idxmax_raises in El as (_ & _ & M).
        right. now right. }
    unfold Pd.loc. destruct label as [i|]; cbn [bind].
    2:{ intros [= <-]. right. now left. }
    destruct (nth_error Vpv i); cbn [bind].
    2:{ intros [= <-]. right. now left. }
    destruct (nth_error x i); cbn [bind].
    2:{ intros [= <-]. right. now left. }
    destruct (nth_error _ i); cbn [bind]; [discriminate|].
    intros [= <-]. right. now left. }
  destruct N as [-> |[-> |[m ->]]]; split; discriminate.
Qed.

(** The divisor [n * N_s * K * T] is not zero for an [int] temperature: only
    a [float] is small enough for the product to underflow. *)
Lemma divisor_of_int_temperature (s z : positive) :
  F64.is_inf (F64.of_Z (72 * Z.pos s)) = false ->
  Z.pos z < 2 ^ 53 ->
  F64.is_zero
    (F64.mul
       (F64.mul (F64.mul Lit.f1_0 (F64.of_Z (72 * Z.pos s)))
          Lit.f1_3806503e_23)
       (F64.of_Z (Z.pos z))) = false.
Proof.
  intros Hinf Hz. change (72 * Z.pos s) with (Z.pos (72 * s)) in *.
  destruct (of_Z_pos_shape (72 * s) Hinf) as (m1 & e1 & -> & D1 & He1).
  unfold Lit.f1_0. rewrite (mul_one_l false m1 e1 D1) by lia.
  unfold Lit.f1_3806503e_23.
  destruct (mul_normal m1 4698109519741038 e1 (-128))
    as (m2 & k & R2 & D2 & Hk0 & Hk & _); trivial; try lia.
  rewrite R2.
  replace (e1 + -128 + k <=? 971) with true
    by (symmetry; apply Z.leb_le; lia).
  rewrite (of_Z_exact z Hz).
  destruct (mantissa_of_spec z Hz) as (Hd & _ & D3).
  pose proof (digits_pos z) as Hd1.
  destruct (mul_normal m2 (mantissa_of z) (e1 + -128 + k) (exponent_of z))
    as (m3 & k3 & R3 & _); trivial; try (unfold exponent_of; lia).
  rewrite R3.
  match goal with
  | |- context [if ?b then _ else _] => destruct b
  end; reflexivity.
Qed.

(** X12. On a valid array and operating condition, two exceptions of
    [modelo_pv] come from its own arithmetic, both on line 56:
    [OverflowError], exactly when [72 * s] is beyond the binary64 range, and
    [ZeroDivisionError], exactly when it is not and the divisor
    [n * N_s * K * T] underflows to zero.  The latter needs a [float]
    temperature: no [int] is small enough. *)
Theorem arithmetic_errors_of_a_valid_run `{NumLib}
    (s p : Z) (G T : value) (pv : PVModel) :
  0 < s -> 0 < p ->
  __init__ (VInt s) (VInt p) = Ok pv ->
  Spec.finite_positive G = true -> Spec.fits_float G = true ->
  Spec.finite_positive T = true -> Spec.fits_float T = true ->
  let Ns := F64.of_Z (72 * s) in
  let divisor :=
    F64.mul (F64.mul (F64.mul (n pv) Ns) (K pv)) (Spec.as_float T) in
  (modelo_pv pv G T = Raise OverflowError <-> F64.is_inf Ns = true) /\
  (modelo_pv pv G T = Raise ZeroDivisionError <->
   F64.is_inf Ns = false /\ F64.is_zero divisor = true) /\
  (F64.is_inf Ns = false -> F64.is_zero divisor = true ->
   exists x, T = VFloat x).
Proof.
  intros Hs Hp Hpv HG FG HT FT Ns divisor.
  destruct (valid_number_intro G HG FG) as [g VG].
  destruct (valid_number_intro T HT FT) as [t VT].
  pose proof (validate_inputs_valid s p pv G T Hs Hp Hpv HG HT) as E0.
  pose proof (calc_I_rs_formula s p pv T t Hpv VT) as E1.
  cbv zeta in E1. fold Ns in E1. fold divisor in E1.
  assert (R : modelo_pv pv G T =
              if F64.is_inf Ns then Raise OverflowError
              else if F64.is_zero divisor then Raise ZeroDivisionError
              else modelo_pv pv G T).
  { destruct (F64.is_inf Ns); [|destruct (F64.is_zero divisor)];
      trivial; unfold modelo_pv; rewrite E0; cbn [bind]; rewrite E1;
      reflexivity. }
  assert (Tl : F64.is_inf Ns = false -> F64.is_zero divisor = false ->
               forall e, modelo_pv pv G T = Raise e ->
                         e <> OverflowError /\ e <> ZeroDivisionError).
  { intros Hi Hz e. unfold modelo_pv. rewrite E0. cbn [bind].
    rewrite E1, Hi, Hz. cbn [bind].
    rewrite (calc_I_o_formula s p pv T t Hpv VT). cbn [bind].
    rewrite (calc_I_ph_formula s p pv T t Hpv VT G g VG). cbn [bind].
    assert (Ed : exists d, f_divisor pv T = Ok d).
    { pose proof Hpv as Hpv'. apply init_int_inv in Hpv'. subst pv.
      unfold f_divisor, Py.fmul. cbn [n K N_s Py.to_float].
      fold Ns. rewrite Hi. cbn [bind].
      rewrite (as_num_valid T t VT). cbn [bind].
      rewrite (to_float_valid T t VT). cbn [bind]. eexists. reflexivity. }
    destruct Ed as [d ->]. cbn [bind]. apply tail_raises. }
  split; [|split].
  - destruct (F64.is_inf Ns) eqn:Hi.
    + rewrite R. split; reflexivity.
    + split; [|discriminate]. intros E.
      destruct (F64.is_zero divisor) eqn:Hz.
      * rewrite R in E. discriminate.
      * destruct (Tl eq_refl eq_refl _ E) as [N _]. now contradiction N.
  - destruct (F64.is_inf Ns) eqn:Hi.
    + rewrite R. split; [discriminate|]. intros [N _]. discriminate.
    + destruct (F64.is_zero divisor) eqn:Hz.
      * rewrite R. split; [split; reflexivity|reflexivity].
      * split; [|intros [_ N]; discriminate]. intros E.
        destruct (Tl eq_refl eq_refl _ E) as [_ N]. now contradiction N.
  - intros Hi Hz. destruct VT as [z Hzz|x Hx]; [|now exists x].
    exfalso. apply init_int_inv in Hpv. subst pv.
    destruct s as [|ps|ps]; try lia.
    subst divisor Ns. cbn [n K Spec.as_float] in Hz.
    rewrite (divisor_of_int_temperature ps z Hi Hzz) in Hz. discriminate.
Qed.

Lemma arithmetic_errors_of_a_valid_run_witness :
  let tiny := VFloat (S754_finite false 1 (-1074)) in
  let Ns := F64.of_Z (72 * 4) in
  let divisor :=
    F64.mul (F64.mul (F64.mul (n Demo.pv43) Ns) (K Demo.pv43))
      (Spec.as_float tiny) in
  F64.is_zero divisor = true /\
  (@modelo_pv Demo.stalled Demo.pv43 (VInt 1000) tiny = Raise OverflowError
     <-> F64.is_inf Ns = true) /\
  (@modelo_pv Demo.stalled Demo.pv43 (VInt 1000) tiny
     = Raise ZeroDivisionError <->
   F64.is_inf Ns = false /\ F64.is_zero divisor = true) /\
  (F64.is_inf Ns = false -> F64.is_zero divisor = true ->
   exists x, tiny = VFloat x).
Proof.
  split; [reflexivity|].
  apply (@arithmetic_errors_of_a_valid_run Demo.stalled 4 3 (VInt 1000)
           (VFloat (S754_finite false 1 (-1074))) Demo.pv43);
    try lia; try reflexivity.
Defined.

(** X13. An [int] temperature of 1025 binary digits or more passes the
    validation, which only compares it with 0, and makes [modelo_pv] raise
    [OverflowError] on line 56, where it is converted to a [float]. *)
Theorem huge_int_temperature_overflows `{NumLib} (self : PVModel)
    (G : value) (z : Z) :
  validate_inputs self G (VInt z) = Ok tt ->
  2 ^ 1024 <= z ->
  calc_I_rs self (VInt z) = Raise OverflowError /\
  modelo_pv self G (VInt z) = Raise OverflowError.
Proof.
  intros E0 Hz.
  assert (E1 : calc_I_rs self (VInt z) = Raise OverflowError).
  { unfold calc_I_rs, Py.fmul.
    destruct (Py.to_float (N_s self)) as [ns|e] eqn:En; cbn [bind].
    - cbn [Py.as_num bind Py.to_float]. now rewrite (of_Z_huge z Hz).
    - destruct (N_s self) as [k|x]; cbn in En; [|discriminate].
      destruct (F64.is_inf (F64.of_Z k)); [|discriminate].
      now injection En as <-. }
  split; [exact E1|].
  unfold modelo_pv. rewrite E0. cbn [bind]. rewrite E1. reflexivity.
Qed.

Lemma huge_int_temperature_overflows_witness :
  @calc_I_rs Demo.stalled Demo.pv43 (VInt (2 ^ 1024)) = Raise OverflowError /\
  @modelo_pv Demo.stalled Demo.pv43 (VInt 1000) (VInt (2 ^ 1024))
    = Raise OverflowError.
Proof.
  apply (@huge_int_temperature_overflows Demo.stalled Demo.pv43
           (VInt 1000) (2 ^ 1024)); [reflexivity|lia].
Defined.

(** ** The constructor *)

Lemma to_float_convertible (v : value) :
  convertible v = true ->
  exists nv x, Py.as_num v = Ok nv /\ Py.to_float nv = Ok x.
Proof.
  destruct v as [z|b|x|s|]; cbn [convertible]; try discriminate; intros C.
  - exists (NInt z), (F64.of_Z z). split; [reflexivity|].
    unfold Py.to_float. apply Z.ltb_lt in C.
    now rewrite (of_Z_is_finite z C).
  - exists (NInt (if b then 1 else 0)), (F64.of_Z (if b then 1 else 0)).
    split; [reflexivity|]. destruct b; reflexivity.
  - exists (NFloat x), x. split; reflexivity.
Qed.

(** X14. The constructor checks nothing.  It raises [TypeError] for a count
    that is not a number and [OverflowError] for an [int] beyond the
    binary64 range, and nothing else; every other pair of counts, zero,
    negative, fractional, infinite or NaN, gives a model that keeps the
    counts as they were passed.  A count out of range is found only later,
    by the validation of [modelo_pv]. *)
Theorem constructor_checks_nothing (s p : value) :
  (forall e, __init__ s p = Raise e -> e = TypeError \/ e = OverflowError) /\
  (convertible s = true -> convertible p = true ->
   exists pv, __init__ s p = Ok pv /\
              num_panels_series pv = s /\ num_panels_parallel pv = p).
Proof.
  split.
  - intros e. unfold __init__.
    assert (F : forall v e', Py.as_num v = Raise e' -> e' = TypeError)
      by (intros [z|b|x|t|] e'; cbn; try discriminate; now intros [= <-]).
    assert (C : forall nv e', Py.to_float nv = Raise e' ->
                              e' = OverflowError).
    { intros [z|x] e'; cbn; [|discriminate].
      destruct (F64.is_inf (F64.of_Z z)); [|discriminate].
      now intros [= <-]. }
    destruct (Py.as_num p) as [np|e1] eqn:Ep; cbn [bind].
    2:{ intros [= <-]. left. exact (F _ _ Ep). }
    unfold Py.fmul.
    destruct (Py.to_float np) as [xp|e1] eqn:Fp; cbn [bind].
    2:{ intros [= <-]. right. exact (C _ _ Fp). }
    destruct (Py.as_num s) as [ns|e1] eqn:Es; cbn [bind].
    2:{ intros [= <-]. left. exact (F _ _ Es). }
    destruct (Py.to_float ns) as [xs|e1] eqn:Fs; cbn [bind].
    2:{ intros [= <-]. right. exact (C _ _ Fs). }
    destruct ns as [zs|fs]; cbn; discriminate.
  - intros Cs Cp.
    destruct (to_float_convertible s Cs) as (ns & xs & Es & Fs).
    destruct (to_float_convertible p Cp) as (np & xp & Ep & Fp).
    unfold __init__, Py.fmul. rewrite Ep. cbn [bind]. rewrite Fp.
    cbn [bind]. rewrite Es. cbn [bind]. rewrite Fs. cbn [bind].
    destruct ns as [zs|fs].
    + cbn. eexists. repeat split.
    + unfold Py.mul, Py.lift2. rewrite Fs.
      change (Py.to_float (NInt 72)) with (Ok (F64.of_Z 72)).
      cbn [bind]. eexists. repeat split.
Qed.

Lemma constructor_checks_nothing_witness :
  exists pv, __init__ (VInt 0) (VFloat S754_nan) = Ok pv /\
             num_panels_series pv = VInt 0 /\
             num_panels_parallel pv = VFloat S754_nan.
Proof.
  apply (proj2 (constructor_checks_nothing (VInt 0) (VFloat S754_nan)));
    reflexivity.
Defined.

(** ** Booleans *)

(** X15. [True] and [False] are accepted wherever an [int] is, as 1 and 0:
    [bool] is a subclass of [int], so the tests [isinstance(..., int)] let
    it through.  A model built from booleans has the fields of the model
    built from the corresponding integers, and [modelo_pv] ends in the same
    way on both; so does [modelo_pv] when the irradiance and the
    temperature are booleans. *)
Theorem booleans_count_as_integers `{NumLib} (bs bp bG bT : bool)
    (pvb pvz : PVModel) (G T : value) :
  let z (b : bool) := if b then 1 else 0 in
  __init__ (VBool bs) (VBool bp) = Ok pvb ->
  __init__ (VInt (z bs)) (VInt (z bp)) = Ok pvz ->
  I_sc pvb = I_sc pvz /\ V_oc pvb = V_oc pvz /\ N_s pvb = N_s pvz /\
  modelo_pv pvb G T = modelo_pv pvz G T /\
  modelo_pv pvz (VBool bG) (VBool bT)
    = modelo_pv pvz (VInt (z bG)) (VInt (z bT)).
Proof.
  intros z Hb Hz.
  assert (F : I_sc pvb = I_sc pvz /\ V_oc pvb = V_oc pvz /\
              N_s pvb = N_s pvz /\
              R_sh pvb = R_sh pvz /\ k_i pvb = k_i pvz /\
              T_n pvb = T_n pvz /\ q pvb = q pvz /\ n pvb = n pvz /\
              K pvb = K pvz /\ E_g0 pvb = E_g0 pvz /\ R_s pvb = R_s pvz /\
              validate_inputs pvb G T = validate_inputs pvz G T).
  { destruct bs, bp; vm_compute in Hb, Hz;
      injection Hb as <-; injection Hz as <-;
      rewrite !validate_inputs_eq; repeat split. }
  destruct F as (F1 & F2 & F3 & F4 & F5 & F6 & F7 & F8 & F9 & F10 & F11 & FV).
  split; [exact F1|]. split; [exact F2|]. split; [exact F3|]. split.
  - unfold modelo_pv, calc_I_rs, calc_I_o, calc_I_ph, f_divisor, f.
    now rewrite FV, F1, F2, F3, F4, F5, F6, F7, F8, F9, F10, F11.
  - (* a boolean and its integer go through the same conversions *)
    destruct bG, bT; reflexivity.
Qed.

Lemma booleans_count_as_integers_witness :
  exists pvb pvz,
    __init__ (VBool true) (VBool true) = Ok pvb /\
    __init__ (VInt 1) (VInt 1) = Ok pvz /\
    I_sc pvb = I_sc pvz /\ V_oc pvb = V_oc pvz /\ N_s pvb = N_s pvz /\
    @modelo_pv Demo.stalled pvb (VInt 1000) (VInt 298)
      = @modelo_pv Demo.stalled pvz (VInt 1000) (VInt 298) /\
    @modelo_pv Demo.stalled pvz (VBool true) (VBool false)
      = @modelo_pv Demo.stalled pvz (VInt 1) (VInt 0).
Proof.
  assert (Eb : exists pvb, __init__ (VBool true) (VBool true) = Ok pvb)
    by (eexists; vm_compute; reflexivity).
  assert (Ez : exists pvz, __init__ (VInt 1) (VInt 1) = Ok pvz)
    by (eexists; vm_compute; reflexivity).
  destruct Eb as [pvb Eb], Ez as [pvz Ez].
  exists pvb, pvz. split; [exact Eb|]. split; [exact Ez|].
  exact (@booleans_count_as_integers Demo.stalled true true true false
           pvb pvz (VInt 1000) (VInt 298) Eb Ez).
Defined.

(** ** The request handlers *)

(** X16. The handler of [/api] never answers.  Whatever the request holds,
    [calculate_solar_panel_model] ends with an exception: the one
    [get_json] raised, a [TypeError] when the document is not an object, a
    [KeyError] for the first of the two keys that is missing and, when both
    are there, [UnboundLocalError]: line 16 reads the local variable
    [pv_model] that it is about to assign.  No line after it is ever
    reached, whatever these lines do. *)
Theorem api_handler_never_answers (object response : Type)
    (rest : object -> Api.json -> Api.json -> Web.outcome response)
    (get_json : Web.outcome Api.json) :
  Api.calculate_solar_panel_model object response rest get_json =
    Web.Failed
      match get_json with
      | Web.Failed e => e
      | Web.Done (Api.JDict d) =>
          match Web.lookup "numPanelsSeries" d,
                Web.lookup "numPanelsParallel" d with
          | None, _ => Web.KeyError "numPanelsSeries"
          | Some _, None => Web.KeyError "numPanelsParallel"
          | Some _, Some _ => Web.UnboundLocalError "pv_model"
          end
      | Web.Done _ => Web.TypeError
      end.
Proof.
  unfold Api.calculate_solar_panel_model.
  destruct get_json as [data|e]; [|reflexivity].
  destruct data as [ |b|z|x|t|l|d]; try reflexivity.
  cbn [Web.and_then Api.getitem].
  destruct (Web.lookup "numPanelsSeries" d) as [series|]; [|reflexivity].
  cbn [Web.and_then].
  destruct (Web.lookup "numPanelsParallel" d) as [parallel|]; reflexivity.
Qed.

(** ** The pictures of [Prueba_3/app.py] *)

Lemma seq_done {A B : Type} (m : Curves.M A) (k : A -> Curves.M B)
    (w w' : Curves.world) (a : A) :
  m w = (Curves.Done a, w') -> Curves.seq m k w = k a w'.
Proof. intros E. unfold Curves.seq. now rewrite E. Qed.

(** The first picture: nine calls, one file. *)
Lemma generate_pv_curve_run (resultados : DataFrame) (w : Curves.world) :
  Curves.generate_pv_curve resultados w =
    (Curves.Done "static/pv_curve.png"%string,
     Curves.mkWorld
       ("static/pv_curve.png"%string :: Curves.files w)
       (Curves.calls w ++
        [Curves.plt_figure 8 6;
         Curves.plt_plot (Voltaje resultados) (Potencia resultados)
           "P-V Curve";
         Curves.plt_xlabel "Voltage (V)";
         Curves.plt_ylabel "Power (W)";
         Curves.plt_title "Power-Voltage Curve";
         Curves.plt_grid;
         Curves.plt_legend;
         Curves.plt_savefig "static/pv_curve.png";
         Curves.plt_close])).
Proof.
  unfold Curves.generate_pv_curve, Curves.seq, Curves.record, Curves.savefig,
    Curves.ret, Curves.log.
  cbn [Curves.files Curves.calls]. rewrite <- !app_assoc. reflexivity.
Qed.

(** X17. The handler of [Prueba_3/app.py] asks for a file that it never
    wrote.  It saves the first picture as [static/pv_curve.png] and then
    hands to [send_file] a path that carries the voltage, the current and
    the power in its name, which is never the path of the picture, however
    the three numbers are formatted.  Unless a file of that name was there
    before, the handler ends there with [FileNotFoundError], after ten
    calls: the picture it wrote stays behind, the second picture is never
    drawn and no file is removed. *)
Theorem index_asks_for_a_file_it_never_wrote (str : float -> string)
    (resultados : DataFrame) (Vmpp Impp P_max : float) (w : Curves.world) :
  let asked :=
    ("static/pv_curve_" ++ str Vmpp ++ "_" ++ str Impp ++ "_" ++ str P_max
       ++ ".png")%string in
  Curves.exists_file asked w = false ->
  asked <> "static/pv_curve.png"%string /\
  Curves.index str resultados Vmpp Impp P_max w =
    (Curves.Raised (Curves.FileNotFoundError asked),
     Curves.mkWorld
       ("static/pv_curve.png"%string :: Curves.files w)
       (Curves.calls w ++
        [Curves.plt_figure 8 6;
         Curves.plt_plot (Voltaje resultados) (Potencia resultados)
           "P-V Curve";
         Curves.plt_xlabel "Voltage (V)";
         Curves.plt_ylabel "Power (W)";
         Curves.plt_title "Power-Voltage Curve";
         Curves.plt_grid;
         Curves.plt_legend;
         Curves.plt_savefig "static/pv_curve.png";
         Curves.plt_close;
         Curves.send_file asked "image/png"])).
Proof.
  intros asked Absent.
  assert (Ne : String.eqb asked "static/pv_curve.png" = false)
    by reflexivity.
  split.
  - intros E. rewrite E in Ne. discriminate.
  - unfold Curves.index.
    rewrite (seq_done _ _ _ _ _ (generate_pv_curve_run resultados w)).
    change (Curves.os_path_join "static"
              ("pv_curve_" ++ str Vmpp ++ "_" ++ str Impp ++ "_"
                 ++ str P_max ++ ".png")) with asked.
    unfold Curves.seq at 1. unfold Curves.serve.
    unfold Curves.seq at 1. unfold Curves.send.
    unfold Curves.exists_file in *. cbn [Curves.files existsb].
    rewrite Ne, Absent. cbn [orb].
    unfold Curves.log. cbn [Curves.files Curves.calls].
    rewrite <- app_assoc. reflexivity.
Qed.

Lemma index_asks_for_a_file_it_never_wrote_witness :
  let str := fun _ : float => "1.5"%string in
  let w := Curves.mkWorld [] [] in
  let asked :=
    ("static/pv_curve_" ++ str F64.one ++ "_" ++ str F64.one ++ "_"
       ++ str F64.one ++ ".png")%string in
  asked <> "static/pv_curve.png"%string /\
  Curves.index str (mkDataFrame [] [] []) F64.one F64.one F64.one w =
    (Curves.Raised (Curves.FileNotFoundError asked),
     Curves.mkWorld
       ("static/pv_curve.png"%string :: Curves.files w)
       (Curves.calls w ++
        [Curves.plt_figure 8 6;
         Curves.plt_plot [] [] "P-V Curve";
         Curves.plt_xlabel "Voltage (V)";
         Curves.plt_ylabel "Power (W)";
         Curves.plt_title "Power-Voltage Curve";
         Curves.plt_grid;
         Curves.plt_legend;
         Curves.plt_savefig "static/pv_curve.png";
         Curves.plt_close;
         Curves.send_file asked "image/png"])).
Proof.
  apply (index_asks_for_a_file_it_never_wrote
           (fun _ : float => "1.5"%string) (mkDataFrame [] [] [])
           F64.one F64.one F64.one (Curves.mkWorld [] [])).
  reflexivity.
Defined.
